(** * deviceadm: the device admission engine, its mongo store and its
      deviceauth client

    A shallow embedding of
      - [devadm/devadm.go], package devadm: the admission engine;
      - the mongo backend of the store (package mongo, the second file of
        [store/mocks/DataStore.go]): [DataStoreMongo];
      - [client/deviceauth/client_deviceauth.go]: the client of the remote
        authenticator;
    followed by the properties of the specification.

    Go functions that return an [error] return an [option error] here
    ([None] is [nil]); a function operating on the database or on the
    network is a computation in the state monad over [World], which holds
    the [devices] collection, the log of driver operations, the ObjectIds
    handed out, and the log of calls to the deviceauth client and of the
    requests put on the wire.  What the outside world decides (whether a
    driver operation fails, what the HTTP runner answers, the clocks) is
    read from an [Env].

    Left out: the tenant that the context selects (one database is
    modelled), the cancellation of the outbound calls (their timeout is
    handed to the runner), logging and the migrations. *)

From Stdlib Require Import Ascii String List ZArith Bool Lia Sorted.
From ExtLib Require Import Structures.Monad Structures.MonadState.
From ExtLib Require Import Data.Monads.StateMonad.
Import ListNotations.
Import MonadNotation.
Local Open Scope string_scope.
Local Open Scope monad_scope.

(* ================================================================== *)
(** ** Errors *)
(* ================================================================== *)

(** The package-level error values.  Go compares them by identity
    ([switch err { case store.ErrNotFound: ... }]), so each one is a
    constructor of its own. *)
Inductive sentinel : Type :=
| mgo_ErrNotFound          (* mgo.ErrNotFound *)
| store_ErrNotFound        (* store.ErrNotFound *)
| ErrAuthNotFound          (* devadm.ErrAuthNotFound *)
| ErrNotPreauthorized      (* devadm.ErrNotPreauthorized *)
| AuthSetConflictError.    (* devadm.AuthSetConflictError *)

(** Modelled from the spec: the [utils] package ([NewUsageError],
    [IsUsageError]) and go-lib-micro's [rest_utils.ApiError] are not among
    the sources; a usage error is an error value of a type of its own,
    recognised by a type test, and so is a structured API error. *)
Inductive error : Type :=
| Sentinel (s : sentinel)
| Errorf (msg : string)                 (* errors.New, errors.Errorf *)
| Wrapped (cause : error) (msg : string)  (* errors.Wrap on a non-nil error *)
| UsageError (e : string)               (* utils.NewUsageError *)
| ApiError (Err ReqId : string)         (* *rest_utils.ApiError *)
| External (msg : string).              (* raised by mgo, net/http, encoding/json *)

Module errors.
(** [errors.Wrap] returns nil when its argument is nil. *)
Definition Wrap (err : option error) (msg : string) : option error :=
  match err with
  | None => None
  | Some e => Some (Wrapped e msg)
  end.
End errors.

Module utils.
Definition NewUsageError (e : string) : error := UsageError e.

Definition IsUsageError (e : error) : bool :=
  match e with
  | UsageError _ => true
  | _ => false
  end.
End utils.

Module rest_utils.
Definition IsApiError (e : error) : bool :=
  match e with
  | ApiError _ _ => true
  | _ => false
  end.

(** The [Error] method of an [ApiError] returns the [Err] field; it is only
    called on a value that passed [IsApiError]. *)
Definition ApiError_Error (e : error) : string :=
  match e with
  | ApiError msg _ => msg
  | _ => ""
  end.
End rest_utils.

(* ================================================================== *)
(** ** The data model *)
(* ================================================================== *)

Module model.
Definition AuthID := string.
Definition DeviceID := string.

Definition DevStatusAccepted := "accepted".
Definition DevStatusPending := "pending".
Definition DevStatusRejected := "rejected".
Definition DevStatusPreauthorized := "preauthorized".

(** A Go [map[string]string]; only its emptiness and its identity
    matter to the code below. *)
Definition DeviceAuthAttributes := list (string * string).

(** Modelled from the spec: the declaration of [model.DeviceAuth] is not
    among the sources.  The fields are those of section 3 of the
    specification; every field is stored under [omitempty], so that the
    zero value of a field and its absence from the stored document are
    the same thing (the partial-update invariant of the specification,
    and the reason [genDeviceAuthUpdate] exists).  [RequestTime] is a
    [*time.Time]: [None] is the nil pointer. *)
Record DeviceAuth : Type := mkDeviceAuth {
  ID : AuthID;
  DeviceId : DeviceID;
  DeviceIdentity : string;
  Key : string;
  Status : string;
  Attributes : DeviceAuthAttributes;
  RequestTime : option Z
}.

(** [model.DeviceAuth{}] *)
Definition zero : DeviceAuth := mkDeviceAuth "" "" "" "" "" [] None.

Definition set_ID (v : AuthID) (d : DeviceAuth) : DeviceAuth :=
  mkDeviceAuth v (DeviceId d) (DeviceIdentity d) (Key d) (Status d)
               (Attributes d) (RequestTime d).
Definition set_DeviceId (v : DeviceID) (d : DeviceAuth) : DeviceAuth :=
  mkDeviceAuth (ID d) v (DeviceIdentity d) (Key d) (Status d)
               (Attributes d) (RequestTime d).
Definition set_DeviceIdentity (v : string) (d : DeviceAuth) : DeviceAuth :=
  mkDeviceAuth (ID d) (DeviceId d) v (Key d) (Status d)
               (Attributes d) (RequestTime d).
Definition set_Key (v : string) (d : DeviceAuth) : DeviceAuth :=
  mkDeviceAuth (ID d) (DeviceId d) (DeviceIdentity d) v (Status d)
               (Attributes d) (RequestTime d).
Definition set_Status (v : string) (d : DeviceAuth) : DeviceAuth :=
  mkDeviceAuth (ID d) (DeviceId d) (DeviceIdentity d) (Key d) v
               (Attributes d) (RequestTime d).
Definition set_Attributes (v : DeviceAuthAttributes) (d : DeviceAuth)
  : DeviceAuth :=
  mkDeviceAuth (ID d) (DeviceId d) (DeviceIdentity d) (Key d) (Status d)
               v (RequestTime d).
Definition set_RequestTime (v : option Z) (d : DeviceAuth) : DeviceAuth :=
  mkDeviceAuth (ID d) (DeviceId d) (DeviceIdentity d) (Key d) (Status d)
               (Attributes d) v.

(** Modelled from the spec: [model.AuthSet], the pre-authorization
    request (device identity data, key, attributes). *)
Module AuthSet.
Record t : Type := mk {
  DeviceId : string;
  Key : string;
  Attributes : DeviceAuthAttributes
}.
End AuthSet.
End model.
Import model.

(* ================================================================== *)
(** ** HTTP and the deviceauth request types *)
(* ================================================================== *)

Module http.
Definition MethodPut := "PUT".
Definition MethodPost := "POST".
Definition StatusCreated : Z := 201.
Definition StatusNoContent : Z := 204.
Definition StatusUnprocessableEntity : Z := 422.

Record Request : Type := mkRequest {
  Method : string;
  URL : string;
  Header : list (string * string);
  ReqBody : string
}.

(** [req.Header.Set(k, v)]: replaces the values of key [k]. *)
Definition Header_Set (k v : string) (r : Request) : Request :=
  mkRequest (Method r) (URL r)
    ((k, v) :: filter (fun kv => negb (String.eqb (fst kv) k)) (Header r))
    (ReqBody r).

Record Response : Type := mkResponse {
  StatusCode : Z;
  Status : string;        (* the status text, e.g. "404 Not Found" *)
  Body : string
}.
End http.

Module StatusReq.
(** devauth's status request *)
Record t : Type := mk {
  DeviceId : string;
  AuthId : string;
  Status : string
}.
End StatusReq.

Module PreAuthReq.
Record t : Type := mk {
  DeviceId : string;
  AuthSetId : string;
  IdData : string;
  PubKey : string
}.
End PreAuthReq.

(** A call on the deviceauth client, as the engine makes it. *)
Inductive ClientCall : Type :=
| CallUpdateDevice (sreq : StatusReq.t)
| CallPreauthorizeDevice (preAuthReq : PreAuthReq.t) (authorizationHeader : string).

(** What [json.Marshal] is applied to. *)
Inductive Payload : Type :=
| JStatusReq (sreq : StatusReq.t)
| JPreAuthReq (preAuthReq : PreAuthReq.t).

(* ================================================================== *)
(** ** The world and the environment *)
(* ================================================================== *)

(** The operations of the mgo driver that the store issues. *)
Inductive MgoOp : Type :=
| opEnsureIndex | opFindOne | opFindAll | opUpsert | opUpdate | opInsert
| opRemove | opRemoveAll.

Record World : Type := mkWorld {
  devices : list DeviceAuth;     (* the collection DbDevicesColl *)
  dblog : list MgoOp;            (* driver operations issued, oldest first *)
  objectids : nat;               (* how many ObjectIds were generated *)
  authcalls : list ClientCall;   (* calls on the deviceauth client *)
  wire : list http.Request       (* requests handed to the HTTP runner *)
}.

Record Env : Type := mkEnv {
  (** the driver reports a failure for this kind of operation (and then
      has not applied it) *)
  mgo_fault : MgoOp -> option string;
  (** [bson.NewObjectId().Hex()] of the n-th ObjectId *)
  ObjectIdHex : nat -> string;
  (** [time.Now()] *)
  time_Now : Z;
  (** [d.clock.Now()], the injected clock *)
  clock_Now : Z;
  json_Marshal : Payload -> string + error;
  http_NewRequest : string -> string -> string -> http.Request + error;
  (** [client.HttpRunner.Do], the runner of [d.clientGetter()], under the
      timeout of the request's context *)
  client_Do : Z -> http.Request -> http.Response + error;
  (** [rest_utils.ParseApiError]: a [*ApiError] for a well-formed body,
      the wrapped decoding error otherwise *)
  ParseApiError : string -> error
}.

Definition M := state World.

Definition with_devices (c : list DeviceAuth) (w : World) : World :=
  mkWorld c (dblog w) (objectids w) (authcalls w) (wire w).
Definition log_db (op : MgoOp) (w : World) : World :=
  mkWorld (devices w) (dblog w ++ [op]) (objectids w) (authcalls w) (wire w).
Definition next_objectid (w : World) : World :=
  mkWorld (devices w) (dblog w) (S (objectids w)) (authcalls w) (wire w).
Definition log_call (c : ClientCall) (w : World) : World :=
  mkWorld (devices w) (dblog w) (objectids w) (authcalls w ++ [c]) (wire w).
Definition log_wire (r : http.Request) (w : World) : World :=
  mkWorld (devices w) (dblog w) (objectids w) (authcalls w) (wire w ++ [r]).

(* ================================================================== *)
(** ** The mgo driver on the devices collection *)
(* ================================================================== *)

(** The driver is not part of the repository; this is the behaviour of the
    operations the store calls, on a collection that is the list of its
    documents in insertion order.  A document is a [DeviceAuth]; the
    collection carries the unique index on [id] that [EnsureIndexes]
    declares.  Every operation is first logged, and fails without effect
    when the environment says so. *)
Module mgo.
Definition ErrNotFound : error := Sentinel mgo_ErrNotFound.

Record ChangeInfo : Type := mkChangeInfo {
  Updated : Z;
  Removed : Z;
  Matched : Z
}.

(** the selector [bson.M{"id": id}] *)
Definition by_id (id : AuthID) (d : DeviceAuth) : bool :=
  String.eqb (ID d) id.

Fixpoint attrs_eqb (a b : DeviceAuthAttributes) : bool :=
  match a, b with
  | [], [] => true
  | (k, v) :: a', (k', v') :: b' =>
      String.eqb k k' && String.eqb v v' && attrs_eqb a' b'
  | _, _ => false
  end.

Definition sel_string (f v : string) : bool :=
  if String.eqb f "" then true else String.eqb f v.

(** a [DeviceAuth] value used as selector: its empty fields are omitted,
    the others must be equal in the document *)
Definition by_example (f d : DeviceAuth) : bool :=
  sel_string (ID f) (ID d)
  && sel_string (DeviceId f) (DeviceId d)
  && sel_string (DeviceIdentity f) (DeviceIdentity d)
  && sel_string (Key f) (Key d)
  && sel_string (Status f) (Status d)
  && match Attributes f with
     | [] => true
     | a => attrs_eqb a (Attributes d)
     end
  && match RequestTime f with
     | None => true
     | Some t => match RequestTime d with
                 | Some t' => Z.eqb t t'
                 | None => false
                 end
     end.

Definition set_string (u v : string) : string :=
  if String.eqb u "" then v else u.

(** [bson.M{"$set": upd}]: the fields present in [upd] replace those of
    the document, the others are kept *)
Definition set (upd d : DeviceAuth) : DeviceAuth :=
  mkDeviceAuth
    (set_string (ID upd) (ID d))
    (set_string (DeviceId upd) (DeviceId d))
    (set_string (DeviceIdentity upd) (DeviceIdentity d))
    (set_string (Key upd) (Key d))
    (set_string (Status upd) (Status d))
    (match Attributes upd with [] => Attributes d | a => a end)
    (match RequestTime upd with None => RequestTime d | Some t => Some t end).

(** the first document selected by [p] is replaced by its image *)
Fixpoint update_one (p : DeviceAuth -> bool) (f : DeviceAuth -> DeviceAuth)
         (c : list DeviceAuth) : option (list DeviceAuth) :=
  match c with
  | [] => None
  | d :: c' =>
      if p d then Some (f d :: c')
      else option_map (cons d) (update_one p f c')
  end.

(** the first document selected by [p] is removed *)
Fixpoint remove_one (p : DeviceAuth -> bool) (c : list DeviceAuth)
  : option (list DeviceAuth) :=
  match c with
  | [] => None
  | d :: c' =>
      if p d then Some c' else option_map (cons d) (remove_one p c')
  end.

Definition issue (env : Env) (op : MgoOp) : M (option error) :=
  w <- get ;;
  put (log_db op w) ;;
  ret (option_map External (mgo_fault env op)).

Definition collection : M (list DeviceAuth) :=
  w <- get ;; ret (devices w).

Definition store (c : list DeviceAuth) : M unit :=
  w <- get ;; put (with_devices c w).

(** [c.EnsureIndex(idx)] *)
Definition EnsureIndex (env : Env) : M (option error) :=
  issue env opEnsureIndex.

(** [c.Find(bson.M{"id": id}).One(&res)] *)
Definition FindOne (env : Env) (id : AuthID) : M (DeviceAuth + error) :=
  fault <- issue env opFindOne ;;
  match fault with
  | Some e => ret (inr e)
  | None =>
      c <- collection ;;
      match find (by_id id) c with
      | Some d => ret (inl d)
      | None => ret (inr ErrNotFound)
      end
  end.

(** [c.Find(filter).All(&res)] with a [DeviceAuth] as filter *)
Definition FindAll (env : Env) (f : DeviceAuth)
  : M (list DeviceAuth * option error) :=
  fault <- issue env opFindAll ;;
  match fault with
  | Some e => ret ([], Some e)
  | None => c <- collection ;; ret (filter (by_example f) c, None)
  end.

(** the collection after an upsert: the document of that id is updated,
    or one made of the selector and of the fields set is inserted *)
Definition upserted (id : AuthID) (upd : DeviceAuth) (c : list DeviceAuth)
  : list DeviceAuth :=
  match update_one (by_id id) (set upd) c with
  | Some c' => c'
  | None => c ++ [set upd (set_ID id zero)]
  end.

(** [c.Upsert(bson.M{"id": id}, bson.M{"$set": upd})] *)
Definition Upsert (env : Env) (id : AuthID) (upd : DeviceAuth)
  : M (option error) :=
  fault <- issue env opUpsert ;;
  match fault with
  | Some e => ret (Some e)
  | None =>
      c <- collection ;;
      store (upserted id upd c) ;;
      ret None
  end.

(** [c.Update(bson.M{"id": id}, bson.M{"$set": upd})] *)
Definition Update (env : Env) (id : AuthID) (upd : DeviceAuth)
  : M (option error) :=
  fault <- issue env opUpdate ;;
  match fault with
  | Some e => ret (Some e)
  | None =>
      c <- collection ;;
      match update_one (by_id id) (set upd) c with
      | Some c' => store c' ;; ret None
      | None => ret (Some ErrNotFound)
      end
  end.

(** [c.Insert(dev)]; the unique index refuses a second document with the
    same id *)
Definition Insert (env : Env) (dev : DeviceAuth) : M (option error) :=
  fault <- issue env opInsert ;;
  match fault with
  | Some e => ret (Some e)
  | None =>
      c <- collection ;;
      if existsb (by_id (ID dev)) c
      then ret (Some (External "E11000 duplicate key error"))
      else store (c ++ [dev]) ;; ret None
  end.

(** [c.Remove(bson.M{"id": id})] *)
Definition Remove (env : Env) (id : AuthID) : M (option error) :=
  fault <- issue env opRemove ;;
  match fault with
  | Some e => ret (Some e)
  | None =>
      c <- collection ;;
      match remove_one (by_id id) c with
      | Some c' => store c' ;; ret None
      | None => ret (Some ErrNotFound)
      end
  end.

(** [c.RemoveAll(filter)] with a [DeviceAuth] as filter, in a session in
    safe mode (the change info is returned with every success) *)
Definition RemoveAll (env : Env) (f : DeviceAuth)
  : M (option ChangeInfo * option error) :=
  fault <- issue env opRemoveAll ;;
  match fault with
  | Some e => ret (None, Some e)
  | None =>
      c <- collection ;;
      let n := Z.of_nat (List.length (filter (by_example f) c)) in
      store (filter (fun d => negb (by_example f d)) c) ;;
      ret (Some (mkChangeInfo 0 n n), None)
  end.
(** [Sort("id")]: insertion into a list sorted by id, in the byte order of
    the strings *)
Fixpoint insert_by_id (d : DeviceAuth) (c : list DeviceAuth)
  : list DeviceAuth :=
  match c with
  | [] => [d]
  | x :: c' =>
      if String.leb (ID d) (ID x) then d :: c else x :: insert_by_id d c'
  end.

Fixpoint sort_by_id (c : list DeviceAuth) : list DeviceAuth :=
  match c with
  | [] => []
  | d :: c' => insert_by_id d (sort_by_id c')
  end.

(** Go's conversion [int32(n)] of an int: the driver keeps the skip and
    the limit of a query in 32 bits. *)
Definition int32 (n : Z) : Z :=
  ((n + 2147483648) mod 4294967296 - 2147483648)%Z.

(** What the server answers to a query whose skip or limit is negative
    (as given, or once narrowed to 32 bits), from the skip, the limit and
    the selected documents in order: this part of the driver and of the
    server is not modelled, and is taken as a parameter. *)
Definition Unmodelled : Type :=
  Z -> Z -> list DeviceAuth -> list DeviceAuth * option error.

(** [c.Find(filter).Sort("id").Skip(skip).Limit(limit).All(&res)] with a
    [DeviceAuth] as filter.  [skip] and [limit] are Go ints; the driver
    narrows both to 32 bits; a limit of 0 is no limit. *)
Definition FindSorted (env : Env) (server : Unmodelled) (f : DeviceAuth)
           (skip limit : Z) : M (list DeviceAuth * option error) :=
  fault <- issue env opFindAll ;;
  match fault with
  | Some e => ret ([], Some e)
  | None =>
      c <- collection ;;
      let sel := sort_by_id (filter (by_example f) c) in
      let skip32 := int32 skip in
      let limit32 := int32 limit in
      if ((0 <=? skip32) && (0 <=? limit) && (0 <=? limit32))%Z
      then
        let rest := skipn (Z.to_nat skip32) sel in
        ret (if (limit32 =? 0)%Z then rest
             else firstn (Z.to_nat limit32) rest, None)
      else ret (server skip limit sel)
  end.
End mgo.

(* ================================================================== *)
(** ** store/mongo: DataStoreMongo *)
(* ================================================================== *)

Module store.
Definition ErrNotFound : error := Sentinel store_ErrNotFound.

(** Modelled from the spec: [store.Filter], the equality filter of the
    listing (status and/or device id; an empty field does not filter). *)
Module Filter.
Record t : Type := mk {
  Status : string;
  DeviceID : DeviceID
}.
End Filter.
End store.

Module mongo.
Definition DbVersion := "1.1.0".

Definition EnsureIndexes (env : Env) : M (option error) :=
  mgo.EnsureIndex env.

Definition GetDeviceAuth (env : Env) (id : AuthID)
  : M (DeviceAuth + error) :=
  r <- mgo.FindOne env id ;;
  match r with
  | inr err =>
      match err with
      | Sentinel mgo_ErrNotFound => ret (inr store.ErrNotFound)
      | _ => ret (inr (Wrapped err "failed to fetch device"))
      end
  | inl res => ret (inl res)
  end.

Definition DeleteDeviceAuth (env : Env) (id : AuthID) : M (option error) :=
  err <- mgo.Remove env id ;;
  match err with
  | None => ret None
  | Some (Sentinel mgo_ErrNotFound) => ret (Some store.ErrNotFound)
  | Some _ => ret (errors.Wrap err "failed to delete device")
  end.

(** the [switch] that closes [DeleteDeviceAuthByDevice], on what
    [RemoveAll] returned *)
Definition DeleteDeviceAuthByDevice_result
           (ci : option mgo.ChangeInfo) (err : option error)
  : option error :=
  match err with
  | Some _ => None
  | None =>
      if match ci with
         | Some info => Z.eqb (mgo.Removed info) 0
         | None => false
         end
      then Some store.ErrNotFound
      else errors.Wrap err "failed to delete device"
  end.

Definition DeleteDeviceAuthByDevice (env : Env) (id : DeviceID)
  : M (option error) :=
  let filter := set_DeviceId id zero in
  r <- mgo.RemoveAll env filter ;;
  ret (DeleteDeviceAuthByDevice_result (fst r) (snd r)).

(** produce a DeviceAuth wrapper suitable for passing in an Upsert() as
    '$set' fields *)
Definition genDeviceAuthUpdate (dev : DeviceAuth) : DeviceAuth :=
  let updev := zero in
  let updev := if negb (String.eqb (DeviceId dev) "")
               then set_DeviceId (DeviceId dev) updev else updev in
  let updev := if negb (String.eqb (Status dev) "")
               then set_Status (Status dev) updev else updev in
  let updev := if negb (String.eqb (Key dev) "")
               then set_Key (Key dev) updev else updev in
  let updev := if negb (String.eqb (DeviceIdentity dev) "")
               then set_DeviceIdentity (DeviceIdentity dev) updev
               else updev in
  let updev := if negb (Nat.eqb (List.length (Attributes dev)) 0)
               then set_Attributes (Attributes dev) updev else updev in
  let updev := match RequestTime dev with
               | Some t => set_RequestTime (Some t) updev
               | None => updev
               end in
  updev.

Definition PutDeviceAuth (env : Env) (dev : DeviceAuth) : M (option error) :=
  e <- EnsureIndexes env ;;
  match e with
  | Some err => ret (Some err)
  | None =>
      (* does insert or update *)
      err <- mgo.Upsert env (ID dev) (genDeviceAuthUpdate dev) ;;
      match err with
      | Some _ => ret (errors.Wrap err "failed to store device")
      | None => ret None
      end
  end.

Definition UpdateDeviceAuth (env : Env) (dev : DeviceAuth)
  : M (option error) :=
  e <- EnsureIndexes env ;;
  match e with
  | Some err => ret (Some err)
  | None =>
      err <- mgo.Update env (ID dev) (genDeviceAuthUpdate dev) ;;
      match err with
      | None => ret None
      | Some (Sentinel mgo_ErrNotFound) => ret (Some store.ErrNotFound)
      | Some _ => ret (errors.Wrap err "failed to update auth set")
      end
  end.

Definition NewObjectId (env : Env) : M string :=
  w <- get ;;
  put (next_objectid w) ;;
  ret (ObjectIdHex env (objectids w)).

(** [dev] is a pointer in the source: the identifiers assigned here are
    seen by the caller, so the record is returned with the error. *)
Definition InsertDeviceAuth (env : Env) (dev : DeviceAuth)
  : M (DeviceAuth * option error) :=
  id <- NewObjectId env ;;
  let dev := set_ID id dev in
  devid <- NewObjectId env ;;
  let dev := set_DeviceId devid dev in
  e <- EnsureIndexes env ;;
  match e with
  | Some err => ret (dev, Some err)
  | None =>
      err <- mgo.Insert env dev ;;
      match err with
      | Some _ => ret (dev, errors.Wrap err "failed to insert device")
      | None => ret (dev, None)
      end
  end.

Definition GetDeviceAuthsByIdentityData (env : Env) (idata : string)
  : M (list DeviceAuth * option error) :=
  let filter := set_DeviceIdentity idata zero in
  r <- mgo.FindAll env filter ;;
  ret (fst r, errors.Wrap (snd r) "failed to fetch device").

Definition GetDeviceAuths (env : Env) (server : mgo.Unmodelled)
           (skip limit : Z) (filter : store.Filter.t)
  : M (list DeviceAuth * option error) :=
  let dbFilter := zero in
  let dbFilter := if negb (String.eqb (store.Filter.Status filter) "")
                  then set_Status (store.Filter.Status filter) dbFilter
                  else dbFilter in
  let dbFilter := if negb (String.eqb (store.Filter.DeviceID filter) "")
                  then set_DeviceId (store.Filter.DeviceID filter) dbFilter
                  else dbFilter in
  r <- mgo.FindSorted env server dbFilter skip limit ;;
  match snd r with
  | Some _ => ret ([], errors.Wrap (snd r) "failed to fetch device list")
  | None => ret (fst r, None)
  end.
End mongo.

(* ================================================================== *)
(** ** client/deviceauth: the remote-authenticator client *)
(* ================================================================== *)

Module strings.
(** [strings.NewReplacer(oldnew...).Replace(s)] for non-empty old
    strings: at each position the first pair, in argument order, whose
    old string starts there is replaced, and the scan resumes after it.
    [skip] counts the characters of a replaced old string still to be
    passed over. *)
Fixpoint Replace_from (oldnew : list (string * string)) (skip : nat)
         (s : string) : string :=
  match s with
  | EmptyString => EmptyString
  | String c s' =>
      match skip with
      | S k => Replace_from oldnew k s'
      | O =>
          match find (fun p => String.prefix (fst p) s) oldnew with
          | Some (old, new) =>
              new ++ Replace_from oldnew (String.length old - 1) s'
          | None => String c (Replace_from oldnew 0 s')
          end
      end
  end.

Definition Replace (oldnew : list (string * string)) (s : string) : string :=
  Replace_from oldnew 0 s.
End strings.

Module deviceauth.
(** default device ID endpoint *)
Definition defaultDevAuthDevicesUri :=
  "/api/management/v1/devauth/devices/{id}/auth/{aid}/status".
(** default preauthorize device endpoint *)
Definition defaultPreauthorizeDeviceUri :=
  "/api/management/v1/devauth/devices".
(** default request timeout, 10s, in nanoseconds *)
Definition defaultDevAuthReqTimeout : Z := 10 * 1000000000.

Record Config : Type := mkConfig {
  DevauthUrl : string;      (* root devauth address *)
  Timeout : Z               (* request timeout *)
}.

(** the HTTP runner of the source's [Client] is [client_Do] of the
    environment *)
Record Client : Type := mkClient {
  conf : Config
}.

Definition NewClient (c : Config) : Client :=
  (* use default timeout if none was provided *)
  let c := if Z.eqb (Timeout c) 0
           then mkConfig (DevauthUrl c) defaultDevAuthReqTimeout
           else c in
  mkClient c.

Definition buildDevAuthUpdateUrl (d : Client) (req : StatusReq.t) : string :=
  strings.Replace [("{id}", StatusReq.DeviceId req);
                   ("{aid}", StatusReq.AuthId req)]
                  (DevauthUrl (conf d) ++ defaultDevAuthDevicesUri).

(** [d.client.Do(req.WithContext(ctx))] *)
Definition Do (env : Env) (d : Client) (req : http.Request)
  : M (http.Response + error) :=
  w <- get ;;
  put (log_wire req w) ;;
  ret (client_Do env (Timeout (conf d)) req).

Definition called (c : ClientCall) : M unit :=
  w <- get ;; put (log_call c w).

(** the [switch rsp.StatusCode] of [UpdateDevice] *)
Definition UpdateDevice_response (env : Env) (rsp : http.Response)
  : option error :=
  if Z.eqb (http.StatusCode rsp) http.StatusNoContent then None
  else if Z.eqb (http.StatusCode rsp) http.StatusUnprocessableEntity then
    let err := ParseApiError env (http.Body rsp) in
    if rest_utils.IsApiError err
    then Some (utils.NewUsageError (rest_utils.ApiError_Error err))
    else Some (Wrapped err "device status update request failed")
  else
    Some (Errorf ("device status update request failed with status "
                  ++ http.Status rsp)).

Definition UpdateDevice (env : Env) (d : Client) (sreq : StatusReq.t)
  : M (option error) :=
  called (CallUpdateDevice sreq) ;;
  let url := buildDevAuthUpdateUrl d sreq in
  match json_Marshal env (JStatusReq sreq) with
  | inr err => ret (Some (Wrapped err "failed to prepare dev auth request"))
  | inl statusReqJson =>
      match http_NewRequest env http.MethodPut url statusReqJson with
      | inr err =>
          ret (Some (Wrapped err "failed to prepare dev auth request"))
      | inl req =>
          let req := http.Header_Set "Content-Type" "application/json" req in
          r <- Do env d req ;;
          match r with
          | inr err =>
              ret (Some (Wrapped err "failed to update device status"))
          | inl rsp => ret (UpdateDevice_response env rsp)
          end
      end
  end.

Definition PreauthorizeDevice (env : Env) (d : Client)
           (preAuthReq : PreAuthReq.t) (authorizationHeader : string)
  : M (option error) :=
  called (CallPreauthorizeDevice preAuthReq authorizationHeader) ;;
  let url := DevauthUrl (conf d) ++ defaultPreauthorizeDeviceUri in
  match json_Marshal env (JPreAuthReq preAuthReq) with
  | inr err => ret (Some (Wrapped err "failed to prepare dev auth request"))
  | inl preAuthReqJSON =>
      match http_NewRequest env http.MethodPost url preAuthReqJSON with
      | inr err =>
          ret (Some (Wrapped err "failed to prepare dev auth POST request"))
      | inl req =>
          let req := http.Header_Set "Content-Type" "application/json" req in
          let req := http.Header_Set "Authorization" authorizationHeader req in
          r <- Do env d req ;;
          match r with
          | inr err =>
              ret (Some (Wrapped err "failed to preauthorize device"))
          | inl rsp =>
              if Z.eqb (http.StatusCode rsp) http.StatusCreated then ret None
              else ret (Some (Errorf
                      ("device preauthorize request failed with status "
                       ++ http.Status rsp)))
          end
      end
  end.
End deviceauth.

(* ================================================================== *)
(** ** devadm: the admission engine *)
(* ================================================================== *)

Module devadm.
(** the store, the client getter and the clock of the source's [DevAdm]
    are those of the environment *)
Record DevAdm : Type := mkDevAdm {
  authclientconf : deviceauth.Config
}.

Definition SubmitDeviceAuth (env : Env) (d : DevAdm) (dev : DeviceAuth)
  : M (option error) :=
  let now := time_Now env in
  let dev := set_RequestTime (Some now) dev in
  err <- mongo.PutDeviceAuth env dev ;;
  match err with
  | Some _ => ret (errors.Wrap err "failed to put device")
  | None => ret None
  end.

Definition GetDeviceAuth (env : Env) (d : DevAdm) (id : AuthID)
  : M (DeviceAuth + error) :=
  r <- mongo.GetDeviceAuth env id ;;
  match r with
  | inr err => ret (inr err)
  | inl dev => ret (inl dev)
  end.

Definition DeleteDeviceAuth (env : Env) (d : DevAdm) (id : AuthID)
  : M (option error) :=
  err <- mongo.DeleteDeviceAuth env id ;;
  match err with
  | None => ret None
  | Some (Sentinel store_ErrNotFound) => ret err
  | Some _ => ret (errors.Wrap err "failed to delete device")
  end.

Definition AcceptDevicePreAuth (env : Env) (d : DevAdm) (id : AuthID)
  : M (option error) :=
  r <- mongo.GetDeviceAuth env id ;;
  match r with
  | inr (Sentinel store_ErrNotFound) => ret (Some (Sentinel ErrAuthNotFound))
  | inr err => ret (Some (Wrapped err "failed to fetch auth set"))
  | inl dev =>
      if negb (String.eqb (Status dev) DevStatusPreauthorized)
      then ret (Some (Sentinel ErrNotPreauthorized))
      else
        err <- mongo.UpdateDeviceAuth env
                 (set_Status DevStatusAccepted (set_ID (ID dev) zero)) ;;
        match err with
        | Some _ => ret (errors.Wrap err "failed to update auth set")
        | None => ret None
        end
  end.

Definition propagateDeviceAuthUpdate (env : Env) (d : DevAdm)
           (dev : DeviceAuth) : M (option error) :=
  (* forward device state to auth service *)
  let cl := deviceauth.NewClient (authclientconf d) in
  err <- deviceauth.UpdateDevice env cl
           (StatusReq.mk (DeviceId dev) (ID dev) (Status dev)) ;;
  match err with
  | Some e =>
      if utils.IsUsageError e then ret (Some e)
      else ret (Some (Wrapped e "failed to propagate device status update"))
  | None => ret None
  end.

Definition updateDeviceAuthStatus (env : Env) (d : DevAdm) (id : AuthID)
           (status : string) : M (option error) :=
  r <- mongo.GetDeviceAuth env id ;;
  match r with
  | inr err => ret (Some err)
  | inl dev =>
      let dev := set_Status status dev in
      err <- propagateDeviceAuthUpdate env d dev ;;
      match err with
      | Some _ => ret err
      | None =>
          (* update only status and attributes fields *)
          err <- mongo.PutDeviceAuth env
                   (set_Status (Status dev)
                      (set_DeviceId (DeviceId dev) (set_ID (ID dev) zero))) ;;
          match err with
          | Some _ => ret err
          | None => ret None
          end
      end
  end.

Definition AcceptDeviceAuth (env : Env) (d : DevAdm) (id : AuthID)
  : M (option error) :=
  updateDeviceAuthStatus env d id DevStatusAccepted.

Definition RejectDeviceAuth (env : Env) (d : DevAdm) (id : AuthID)
  : M (option error) :=
  updateDeviceAuthStatus env d id DevStatusRejected.

Definition DeleteDeviceData (env : Env) (d : DevAdm) (devid : DeviceID)
  : M (option error) :=
  mongo.DeleteDeviceAuthByDevice env devid.

Definition propagatePreauthorizeDevice (env : Env) (d : DevAdm)
           (dev : DeviceAuth) (authorizationHeader : string)
  : M (option error) :=
  (* forward device preauthorization to auth service *)
  let cl := deviceauth.NewClient (authclientconf d) in
  err <- deviceauth.PreauthorizeDevice env cl
           (PreAuthReq.mk (DeviceId dev) (ID dev) (DeviceIdentity dev)
                          (Key dev))
           authorizationHeader ;;
  ret (errors.Wrap err "failed to propagate device status update").

(** the record [PreauthorizeDevice] builds before the insertion *)
Definition preauthorized_record (env : Env) (authSet : AuthSet.t)
  : DeviceAuth :=
  let dev := zero in
  let dev := set_DeviceIdentity (AuthSet.DeviceId authSet) dev in
  let dev := set_Status DevStatusPreauthorized dev in
  let dev := set_Attributes (AuthSet.Attributes authSet) dev in
  let dev := set_Key (AuthSet.Key authSet) dev in
  let now := clock_Now env in
  set_RequestTime (Some now) dev.

Definition PreauthorizeDevice (env : Env) (d : DevAdm)
           (authSet : AuthSet.t) (authorizationHeader : string)
  : M (option error) :=
  r <- mongo.GetDeviceAuthsByIdentityData env (AuthSet.DeviceId authSet) ;;
  let deviceAuths := fst r in
  match snd r with
  | Some err => ret (Some err)
  | None =>
      if Nat.ltb 0 (List.length deviceAuths)
      then ret (Some (Sentinel AuthSetConflictError))
      else
        let dev := preauthorized_record env authSet in
        r <- mongo.InsertDeviceAuth env dev ;;
        let dev := fst r in
        match snd r with
        | Some err => ret (Some err)
        | None => propagatePreauthorizeDevice env d dev authorizationHeader
        end
  end.

Definition ListDeviceAuths (env : Env) (server : mgo.Unmodelled)
           (d : DevAdm) (skip limit : Z) (filter : store.Filter.t)
  : M (list DeviceAuth * option error) :=
  r <- mongo.GetDeviceAuths env server skip limit filter ;;
  match snd r with
  | Some _ => ret ([], errors.Wrap (snd r) "failed to fetch devices")
  | None => ret (fst r, None)
  end.
End devadm.

(* ================================================================== *)
(** ** The engine as a transition system *)
(* ================================================================== *)

(** the record stored under an auth set id, as [GetDeviceAuth] selects it *)
Definition stored (id : AuthID) (w : World) : option DeviceAuth :=
  find (mgo.by_id id) (devices w).

(** The operations of the [App] interface that write to the store. *)
Inductive Op : Type :=
| Submit (dev : DeviceAuth)
| Accept (id : AuthID)
| Reject (id : AuthID)
| AcceptPreAuth (id : AuthID)
| Preauthorize (authSet : AuthSet.t) (authorizationHeader : string)
| Delete (id : AuthID)
| DeleteData (devid : DeviceID).

Definition exec (env : Env) (d : devadm.DevAdm) (op : Op) : M (option error) :=
  match op with
  | Submit dev => devadm.SubmitDeviceAuth env d dev
  | Accept id => devadm.AcceptDeviceAuth env d id
  | Reject id => devadm.RejectDeviceAuth env d id
  | AcceptPreAuth id => devadm.AcceptDevicePreAuth env d id
  | Preauthorize authSet h => devadm.PreauthorizeDevice env d authSet h
  | Delete id => devadm.DeleteDeviceAuth env d id
  | DeleteData devid => devadm.DeleteDeviceData env d devid
  end.

(** A history: each operation runs in the environment of its own time. *)
Fixpoint run (d : devadm.DevAdm) (steps : list (Env * Op)) (w : World) : World :=
  match steps with
  | [] => w
  | (env, op) :: rest => run d rest (snd (runState (exec env d op) w))
  end.

(** the status an operation moves a record to *)
Definition target (op : Op) : string :=
  match op with
  | Accept _ | AcceptPreAuth _ => DevStatusAccepted
  | Reject _ => DevStatusRejected
  | Preauthorize _ _ => DevStatusPreauthorized
  | Submit dev => Status dev
  | Delete _ | DeleteData _ => ""
  end.

(** the valid transitions of the specification: [op] is applied to the
    record of auth set [id], whose status is [from] *)
Definition transition (op : Op) (id : AuthID) (from : string) : bool :=
  match op with
  | Accept i =>
      String.eqb i id
      && (String.eqb from DevStatusPending
          || String.eqb from DevStatusPreauthorized)
  | Reject i => String.eqb i id && String.eqb from DevStatusPending
  | AcceptPreAuth i =>
      String.eqb i id && String.eqb from DevStatusPreauthorized
  | _ => false
  end.

(** the calls on the deviceauth client that a transition of record [dev]
    makes *)
Definition propagation (op : Op) (dev : DeviceAuth) : list ClientCall :=
  match op with
  | Accept _ | Reject _ =>
      [CallUpdateDevice (StatusReq.mk (DeviceId dev) (ID dev) (target op))]
  | _ => []
  end.

(** [w'] is [w] after one driver operation that read the collection and
    nothing else: no write to the store, no call on the client, nothing on
    the wire *)
Definition only_read (op : MgoOp) (w w' : World) : Prop :=
  devices w' = devices w
  /\ dblog w' = (dblog w ++ [op])%list
  /\ objectids w' = objectids w
  /\ authcalls w' = authcalls w
  /\ wire w' = wire w.

(** [r'] is the stored record [r] after an update by [dev] that nulled
    nothing out: the id is kept, and so is every field that is empty in
    [dev] *)
Definition keeps_unspecified (dev r r' : DeviceAuth) : Prop :=
  ID r' = ID r
  /\ (DeviceId dev = "" -> DeviceId r' = DeviceId r)
  /\ (DeviceIdentity dev = "" -> DeviceIdentity r' = DeviceIdentity r)
  /\ (Key dev = "" -> Key r' = Key r)
  /\ (Status dev = "" -> Status r' = Status r)
  /\ (Attributes dev = [] -> Attributes r' = Attributes r)
  /\ (RequestTime dev = None -> RequestTime r' = RequestTime r).

(** the operations that leave the record of auth set [id] in place: all
    but the deletions and a submission under the same id *)
Definition keeps (id : AuthID) (op : Op) : bool :=
  match op with
  | Submit dev => negb (String.eqb (ID dev) id)
  | Accept _ | Reject _ | AcceptPreAuth _ | Preauthorize _ _ => true
  | Delete _ | DeleteData _ => false
  end.

(** the unique index on [id]: no two documents of the collection share
    an id *)
Definition unique_ids (w : World) : Prop :=
  NoDup (map ID (devices w)).

(** the operations that never reach the remote authenticator *)
Definition local (op : Op) : bool :=
  match op with
  | Submit _ | AcceptPreAuth _ | Delete _ | DeleteData _ => true
  | Accept _ | Reject _ | Preauthorize _ _ => false
  end.

(** [s] has no opening brace *)
Fixpoint no_brace (s : string) : bool :=
  match s with
  | EmptyString => true
  | String c s' => negb (Ascii.eqb c "{"%char) && no_brace s'
  end.

(** a record of the listing passes the filter *)
Definition passes (f : store.Filter.t) (d : DeviceAuth) : Prop :=
  (store.Filter.Status f <> "" -> Status d = store.Filter.Status f)
  /\ (store.Filter.DeviceID f <> "" -> DeviceId d = store.Filter.DeviceID f).

(* ================================================================== *)
(** ** Concrete scenarios *)
(* ================================================================== *)

Module Scenario.
Definition hexdigit (n : nat) : string :=
  String.substring (n mod 16) 1 "0123456789abcdef".

Fixpoint hex (digits n : nat) : string :=
  match digits with
  | O => EmptyString
  | S k => hex k (n / 16) ++ hexdigit n
  end.

(** ObjectIds in their hexadecimal form, 24 digits *)
Definition ObjectIdHex (n : nat) : string := "5a17c0de" ++ hex 16 n.

Definition Marshal (p : Payload) : string + error :=
  match p with
  | JStatusReq s => inl ("{status:" ++ StatusReq.Status s ++ "}")
  | JPreAuthReq r =>
      inl ("{device_id:" ++ PreAuthReq.DeviceId r
           ++ ",auth_set_id:" ++ PreAuthReq.AuthSetId r
           ++ ",id_data:" ++ PreAuthReq.IdData r
           ++ ",pubkey:" ++ PreAuthReq.PubKey r ++ "}")
  end.

Definition NewRequest (method url body : string) : http.Request + error :=
  inl (http.mkRequest method url [] body).

Definition Parse (body : string) : error :=
  if String.eqb body ""
  then Wrapped (External "EOF") "failed to parse API error"
  else ApiError body "req-1".

(** a remote authenticator that answers every request with [rsp] *)
Definition answering (rsp : http.Response) (now : Z) : Env :=
  mkEnv (fun _ => None) ObjectIdHex now now Marshal NewRequest
        (fun _ _ => inl rsp) Parse.

(** a remote authenticator that fails with 500 *)
Definition failing (now : Z) : Env :=
  answering (http.mkResponse 500 "500 Internal Server Error" "") now.

(** a healthy remote authenticator: 204 to PUT, 201 to POST *)
Definition healthy (now : Z) : Env :=
  mkEnv (fun _ => None) ObjectIdHex now now Marshal NewRequest
        (fun _ req =>
           if String.eqb (http.Method req) http.MethodPut
           then inl (http.mkResponse 204 "204 No Content" "")
           else inl (http.mkResponse 201 "201 Created" ""))
        Parse.

(** the database cannot be reached *)
Definition db_down (now : Z) : Env :=
  mkEnv (fun _ => Some "no reachable servers") ObjectIdHex now now
        Marshal NewRequest
        (fun _ _ => inl (http.mkResponse 204 "204 No Content" ""))
        Parse.

Definition app : devadm.DevAdm :=
  devadm.mkDevAdm (deviceauth.mkConfig "http://devauth:8080" 0).

Definition pending_a : DeviceAuth :=
  mkDeviceAuth "a" "dev-a" "mac:aa" "key-a" DevStatusPending
               [("mac", "aa")] (Some 100%Z).

Definition preauth_p : DeviceAuth :=
  mkDeviceAuth "p" "dev-p" "mac:pp" "key-p" DevStatusPreauthorized
               [("mac", "pp")] (Some 150%Z).

Definition world : World := mkWorld [pending_a; preauth_p] [] 0 [] [].

Definition empty_world : World := mkWorld [] [] 0 [] [].

Definition authSet_x : AuthSet.t :=
  AuthSet.mk "mac:xx" "key-x" [("mac", "xx")].

Definition authSet_a : AuthSet.t :=
  AuthSet.mk "mac:aa" "key-a2" [].

(** the record that the pre-authorization of [authSet_x] creates in
    [world] at time 7 *)
Definition created_x : DeviceAuth :=
  mkDeviceAuth "5a17c0de0000000000000000" "5a17c0de0000000000000001"
               "mac:xx" "key-x" DevStatusPreauthorized [("mac", "xx")]
               (Some 7%Z).

(** a server that refuses the queries left to the parameter *)
Definition refusing : mgo.Unmodelled :=
  fun _ _ _ => ([], Some (External "bad value in query")).

(** the device of auth set "a" submits its request again *)
Definition resubmission_a : DeviceAuth :=
  mkDeviceAuth "a" "" "mac:aa" "key-a" DevStatusPending [("mac", "aa")]
               None.
End Scenario.


(* ================================================================== *)
(** ** Documents and collections *)
(* ================================================================== *)

Ltac run_state :=
  cbn [runState bind ret get put Monad_state MonadState_state fst snd
       option_map].

Lemma by_id_true id d : mgo.by_id id d = true <-> ID d = id.
Proof. unfold mgo.by_id. apply String.eqb_eq. Qed.

Lemma by_id_false id d : mgo.by_id id d = false <-> ID d <> id.
Proof. unfold mgo.by_id. apply String.eqb_neq. Qed.

Lemma find_by_id_ID id c r : find (mgo.by_id id) c = Some r -> ID r = id.
Proof. intros H. apply find_some in H. apply by_id_true, H. Qed.

Lemma stored_ID id w r : stored id w = Some r -> ID r = id.
Proof. apply find_by_id_ID. Qed.

Lemma stored_In id w r : stored id w = Some r -> In r (devices w).
Proof. intros H. apply find_some in H. apply H. Qed.

Lemma find_app_by_id id c x :
  find (mgo.by_id id) (c ++ [x]) =
  match find (mgo.by_id id) c with
  | Some r => Some r
  | None => if mgo.by_id id x then Some x else None
  end.
Proof.
  induction c as [|d c IH]; cbn [app find].
  - reflexivity.
  - destruct (mgo.by_id id d); [reflexivity | exact IH].
Qed.

Lemma update_one_None p f c :
  mgo.update_one p f c = None <-> find p c = None.
Proof.
  induction c as [|d c IH]; cbn [mgo.update_one find].
  - tauto.
  - destruct (p d).
    + split; discriminate.
    + destruct (mgo.update_one p f c); cbn [option_map].
      * split; [discriminate|]. intros H. apply IH in H. discriminate.
      * split; [|reflexivity]. intros _. apply IH. reflexivity.
Qed.

(** Looking a document up after the first document of id [id] went through
    [f], when [f] keeps the id. *)
Lemma find_update_one id id' f c c' :
  (forall d, ID (f d) = ID d) ->
  mgo.update_one (mgo.by_id id) f c = Some c' ->
  find (mgo.by_id id') c' =
  if String.eqb id' id then option_map f (find (mgo.by_id id) c)
  else find (mgo.by_id id') c.
Proof.
  intros Hf. revert c'.
  induction c as [|d c IH]; intros c'; cbn [mgo.update_one find].
  - discriminate.
  - destruct (mgo.by_id id d) eqn:Hd.
    + intros [= <-]. cbn [find option_map].
      apply by_id_true in Hd.
      destruct (String.eqb_spec id' id) as [->|Hne].
      * replace (mgo.by_id id (f d)) with true; [reflexivity|].
        symmetry. apply by_id_true. rewrite Hf. exact Hd.
      * replace (mgo.by_id id' (f d)) with false.
        2:{ symmetry. apply by_id_false. rewrite Hf. congruence. }
        replace (mgo.by_id id' d) with false; [reflexivity|].
        symmetry. apply by_id_false. congruence.
    + destruct (mgo.update_one (mgo.by_id id) f c) as [c1|] eqn:Hu;
        cbn [option_map]; [|discriminate].
      intros [= <-]. cbn [find]. specialize (IH c1 eq_refl).
      apply by_id_false in Hd.
      destruct (String.eqb_spec id' id) as [->|Hne].
      * replace (mgo.by_id id d) with false; [exact IH|].
        symmetry. apply by_id_false, Hd.
      * destruct (mgo.by_id id' d); [reflexivity | exact IH].
Qed.

Lemma genDeviceAuthUpdate_fields dev :
  let u := mongo.genDeviceAuthUpdate dev in
  ID u = "" /\ DeviceId u = DeviceId dev /\ Status u = Status dev
  /\ Key u = Key dev /\ DeviceIdentity u = DeviceIdentity dev
  /\ Attributes u = Attributes dev /\ RequestTime u = RequestTime dev.
Proof.
  unfold mongo.genDeviceAuthUpdate.
  destruct dev as [i di ident k s a t];
    cbn [ID DeviceId DeviceIdentity Key Status Attributes RequestTime].
  destruct (String.eqb_spec di ""), (String.eqb_spec s ""),
    (String.eqb_spec k ""), (String.eqb_spec ident ""), a, t;
    subst; cbn; repeat split; reflexivity.
Qed.

Lemma set_genDeviceAuthUpdate_ID dev r :
  ID (mgo.set (mongo.genDeviceAuthUpdate dev) r) = ID r.
Proof.
  destruct (genDeviceAuthUpdate_fields dev) as (Hi & _).
  unfold mgo.set. cbn [ID]. rewrite Hi. reflexivity.
Qed.

(** The record stored under [id'] after the upsert of an update made by
    [genDeviceAuthUpdate]. *)
Lemma find_upserted id id' dev c :
  find (mgo.by_id id') (mgo.upserted id (mongo.genDeviceAuthUpdate dev) c) =
  if String.eqb id' id
  then Some (mgo.set (mongo.genDeviceAuthUpdate dev)
               match find (mgo.by_id id) c with
               | Some r => r
               | None => set_ID id zero
               end)
  else find (mgo.by_id id') c.
Proof.
  unfold mgo.upserted.
  destruct (mgo.update_one (mgo.by_id id) (mgo.set (mongo.genDeviceAuthUpdate dev)) c)
    as [c'|] eqn:Hu.
  - rewrite (find_update_one id id' _ c c'
               (set_genDeviceAuthUpdate_ID dev) Hu).
    destruct (String.eqb id' id); [|reflexivity].
    destruct (find (mgo.by_id id) c) eqn:Hfind; [reflexivity|].
    rewrite (proj2 (update_one_None _ _ _) Hfind) in Hu. discriminate.
  - apply update_one_None in Hu. rewrite find_app_by_id.
    destruct (String.eqb_spec id' id) as [->|Hne].
    + rewrite Hu.
      replace (mgo.by_id id _) with true; [reflexivity|].
      symmetry. apply by_id_true. rewrite set_genDeviceAuthUpdate_ID.
      reflexivity.
    + destruct (find (mgo.by_id id') c); [reflexivity|].
      replace (mgo.by_id id' _) with false; [reflexivity|].
      symmetry. apply by_id_false. rewrite set_genDeviceAuthUpdate_ID.
      cbn. congruence.
Qed.

(* ================================================================== *)
(** ** Running the store and the client *)
(* ================================================================== *)

(** What each store function computes, as an equation on [runState]. *)

Lemma GetDeviceAuth_run env id w :
  runState (mongo.GetDeviceAuth env id) w =
  (match mgo_fault env opFindOne with
   | Some m => inr (Wrapped (External m) "failed to fetch device")
   | None => match stored id w with
             | Some dev => inl dev
             | None => inr store.ErrNotFound
             end
   end, log_db opFindOne w).
Proof.
  unfold mongo.GetDeviceAuth, mgo.FindOne, mgo.issue, mgo.collection, stored.
  run_state.
  destruct (mgo_fault env opFindOne); run_state; [reflexivity|].
  cbn [devices log_db].
  destruct (find (mgo.by_id id) (devices w)); reflexivity.
Qed.

Lemma PutDeviceAuth_run env dev w :
  runState (mongo.PutDeviceAuth env dev) w =
  match mgo_fault env opEnsureIndex with
  | Some m => (Some (External m), log_db opEnsureIndex w)
  | None =>
      let w1 := log_db opUpsert (log_db opEnsureIndex w) in
      match mgo_fault env opUpsert with
      | Some m => (Some (Wrapped (External m) "failed to store device"), w1)
      | None =>
          (None,
           with_devices
             (mgo.upserted (ID dev) (mongo.genDeviceAuthUpdate dev) (devices w))
             w1)
      end
  end.
Proof.
  unfold mongo.PutDeviceAuth, mongo.EnsureIndexes, mgo.EnsureIndex,
    mgo.Upsert, mgo.issue, mgo.collection, mgo.store.
  run_state.
  destruct (mgo_fault env opEnsureIndex); run_state; [reflexivity|].
  destruct (mgo_fault env opUpsert); run_state; reflexivity.
Qed.

Lemma UpdateDeviceAuth_run env dev w :
  runState (mongo.UpdateDeviceAuth env dev) w =
  match mgo_fault env opEnsureIndex with
  | Some m => (Some (External m), log_db opEnsureIndex w)
  | None =>
      let w1 := log_db opUpdate (log_db opEnsureIndex w) in
      match mgo_fault env opUpdate with
      | Some m => (Some (Wrapped (External m) "failed to update auth set"), w1)
      | None =>
          match mgo.update_one (mgo.by_id (ID dev))
                  (mgo.set (mongo.genDeviceAuthUpdate dev)) (devices w) with
          | Some c' => (None, with_devices c' w1)
          | None => (Some store.ErrNotFound, w1)
          end
      end
  end.
Proof.
  unfold mongo.UpdateDeviceAuth, mongo.EnsureIndexes, mgo.EnsureIndex,
    mgo.Update, mgo.issue, mgo.collection, mgo.store.
  run_state.
  destruct (mgo_fault env opEnsureIndex); run_state; [reflexivity|].
  destruct (mgo_fault env opUpdate); run_state; [reflexivity|].
  cbn [devices log_db].
  destruct (mgo.update_one _ _ (devices w)); reflexivity.
Qed.

Lemma GetDeviceAuthsByIdentityData_run env idata w :
  runState (mongo.GetDeviceAuthsByIdentityData env idata) w =
  (match mgo_fault env opFindAll with
   | Some m => ([], Some (Wrapped (External m) "failed to fetch device"))
   | None =>
       (filter (mgo.by_example (set_DeviceIdentity idata zero)) (devices w),
        None)
   end, log_db opFindAll w).
Proof.
  unfold mongo.GetDeviceAuthsByIdentityData, mgo.FindAll, mgo.issue,
    mgo.collection.
  run_state.
  destruct (mgo_fault env opFindAll); run_state; reflexivity.
Qed.

Lemma InsertDeviceAuth_run env dev w :
  runState (mongo.InsertDeviceAuth env dev) w =
  let dev' := set_DeviceId (ObjectIdHex env (S (objectids w)))
                (set_ID (ObjectIdHex env (objectids w)) dev) in
  let w0 := next_objectid (next_objectid w) in
  match mgo_fault env opEnsureIndex with
  | Some m => ((dev', Some (External m)), log_db opEnsureIndex w0)
  | None =>
      let w1 := log_db opInsert (log_db opEnsureIndex w0) in
      match mgo_fault env opInsert with
      | Some m =>
          ((dev', Some (Wrapped (External m) "failed to insert device")), w1)
      | None =>
          if existsb (mgo.by_id (ID dev')) (devices w)
          then ((dev', Some (Wrapped (External "E11000 duplicate key error")
                               "failed to insert device")), w1)
          else ((dev', None), with_devices (devices w ++ [dev']) w1)
      end
  end.
Proof.
  unfold mongo.InsertDeviceAuth, mongo.NewObjectId, mongo.EnsureIndexes,
    mgo.EnsureIndex, mgo.Insert, mgo.issue, mgo.collection, mgo.store.
  run_state.
  destruct (mgo_fault env opEnsureIndex); run_state; [reflexivity|].
  destruct (mgo_fault env opInsert); run_state; [reflexivity|].
  cbn [devices log_db next_objectid objectids].
  destruct (existsb _ (devices w)); reflexivity.
Qed.

(** The client leaves the database alone and records its call. *)
Lemma UpdateDevice_frame env cl sreq w :
  let w' := snd (runState (deviceauth.UpdateDevice env cl sreq) w) in
  devices w' = devices w /\ dblog w' = dblog w
  /\ objectids w' = objectids w
  /\ authcalls w' = (authcalls w ++ [CallUpdateDevice sreq])%list.
Proof.
  unfold deviceauth.UpdateDevice, deviceauth.called, deviceauth.Do.
  run_state.
  destruct (json_Marshal env _); run_state; [|repeat split; reflexivity].
  destruct (http_NewRequest env _ _ _); run_state;
    [|repeat split; reflexivity].
  destruct (client_Do env _ _); run_state; repeat split; reflexivity.
Qed.

Lemma PreauthorizeDevice_frame env cl req h w :
  let w' := snd (runState (deviceauth.PreauthorizeDevice env cl req h) w) in
  devices w' = devices w /\ dblog w' = dblog w
  /\ objectids w' = objectids w
  /\ authcalls w' = (authcalls w ++ [CallPreauthorizeDevice req h])%list.
Proof.
  unfold deviceauth.PreauthorizeDevice, deviceauth.called, deviceauth.Do.
  run_state.
  destruct (json_Marshal env _); run_state; [|repeat split; reflexivity].
  destruct (http_NewRequest env _ _ _); run_state;
    [|repeat split; reflexivity].
  destruct (client_Do env _ _) as [rsp|]; run_state;
    [|repeat split; reflexivity].
  destruct (Z.eqb _ _); run_state; repeat split; reflexivity.
Qed.

(** The engine's functions, unfolded down to the store and the client. *)
Lemma propagateDeviceAuthUpdate_run env d dev w :
  runState (devadm.propagateDeviceAuthUpdate env d dev) w =
  let r := runState (deviceauth.UpdateDevice env
                       (deviceauth.NewClient (devadm.authclientconf d))
                       (StatusReq.mk (DeviceId dev) (ID dev) (Status dev))) w in
  (match fst r with
   | Some e =>
       if utils.IsUsageError e then Some e
       else Some (Wrapped e "failed to propagate device status update")
   | None => None
   end, snd r).
Proof.
  unfold devadm.propagateDeviceAuthUpdate. run_state.
  destruct (runState (deviceauth.UpdateDevice _ _ _) w) as [[e|] w'];
    run_state; [|reflexivity].
  destruct (utils.IsUsageError e); reflexivity.
Qed.

Lemma updateDeviceAuthStatus_run env d id status w :
  runState (devadm.updateDeviceAuthStatus env d id status) w =
  let g := runState (mongo.GetDeviceAuth env id) w in
  match fst g with
  | inr err => (Some err, snd g)
  | inl dev =>
      let dev := set_Status status dev in
      let p := runState (devadm.propagateDeviceAuthUpdate env d dev) (snd g) in
      match fst p with
      | Some e => (Some e, snd p)
      | None =>
          runState (mongo.PutDeviceAuth env
                      (set_Status status
                         (set_DeviceId (DeviceId dev) (set_ID (ID dev) zero))))
                   (snd p)
      end
  end.
Proof.
  unfold devadm.updateDeviceAuthStatus. run_state.
  destruct (runState (mongo.GetDeviceAuth env id) w) as [[dev|err] w1];
    run_state; [|reflexivity].
  destruct (runState (devadm.propagateDeviceAuthUpdate _ _ _) w1)
    as [[e|] w2]; run_state; [reflexivity|].
  cbn [Status set_Status].
  destruct (runState (mongo.PutDeviceAuth _ _) w2) as [[e|] w3];
    reflexivity.
Qed.

(* ================================================================== *)
(** ** Accept and Reject: propagation before persistence *)
(* ================================================================== *)

(** C1. For an Accept or a Reject whose lookup returned the record [dev]:
    when the UpdateDevice call on the remote authenticator returns an error
    [e], the operation ends there; the collection is what it was before the
    call, so the stored status is unchanged; a usage error is returned as it
    is, any other error wrapped. *)
Theorem C1_remote_error_status_not_committed :
  forall env d op id w dev w1 e w2,
    op = Accept id \/ op = Reject id ->
    runState (mongo.GetDeviceAuth env id) w = (inl dev, w1) ->
    runState (deviceauth.UpdateDevice env
                (deviceauth.NewClient (devadm.authclientconf d))
                (StatusReq.mk (DeviceId dev) (ID dev) (target op))) w1
      = (Some e, w2) ->
    runState (exec env d op) w
      = (Some (if utils.IsUsageError e then e
               else Wrapped e "failed to propagate device status update"),
         w2)
    /\ devices w2 = devices w
    /\ stored id w2 = Some dev
    /\ option_map Status (stored id w2) = option_map Status (stored id w).
Proof.
  intros env d op id w dev w1 e w2 Hop Hget Hupd.
  assert (Hrun : runState (devadm.updateDeviceAuthStatus env d id (target op)) w
                 = (Some (if utils.IsUsageError e then e
                          else Wrapped e
                                 "failed to propagate device status update"),
                    w2)).
  { rewrite updateDeviceAuthStatus_run. rewrite Hget. cbn [fst snd].
    rewrite propagateDeviceAuthUpdate_run.
    cbn [DeviceId ID Status set_Status]. rewrite Hupd. cbn [fst snd].
    destruct (utils.IsUsageError e); reflexivity. }
  assert (Hdev : devices w2 = devices w).
  { pose proof (UpdateDevice_frame env
                  (deviceauth.NewClient (devadm.authclientconf d))
                  (StatusReq.mk (DeviceId dev) (ID dev) (target op)) w1) as Hf.
    cbn zeta in Hf. rewrite Hupd in Hf. cbn [snd] in Hf.
    destruct Hf as (Hf & _). rewrite Hf.
    rewrite GetDeviceAuth_run in Hget. injection Hget as _ <-.
    reflexivity. }
  assert (Hst : stored id w = Some dev).
  { rewrite GetDeviceAuth_run in Hget. injection Hget as Hres _.
    destruct (mgo_fault env opFindOne); [discriminate|].
    destruct (stored id w); [congruence | discriminate]. }
  assert (Hst2 : stored id w2 = stored id w).
  { unfold stored. rewrite Hdev. reflexivity. }
  repeat split.
  - destruct Hop as [-> | ->]; exact Hrun.
  - exact Hdev.
  - rewrite Hst2. exact Hst.
  - rewrite Hst2. reflexivity.
Qed.

Lemma C1_remote_error_status_not_committed_witness :
  runState (exec (Scenario.failing 7) Scenario.app (Reject "a")) Scenario.world
    = (Some (Wrapped
               (Errorf "device status update request failed with status 500 Internal Server Error")
               "failed to propagate device status update"),
       snd (runState
              (deviceauth.UpdateDevice (Scenario.failing 7)
                 (deviceauth.NewClient (devadm.authclientconf Scenario.app))
                 (StatusReq.mk "dev-a" "a" DevStatusRejected))
              (log_db opFindOne Scenario.world)))
  /\ option_map Status
       (stored "a" (snd (runState (exec (Scenario.failing 7) Scenario.app
                                       (Reject "a")) Scenario.world)))
     = Some DevStatusPending.
Proof.
  destruct (C1_remote_error_status_not_committed
              (Scenario.failing 7) Scenario.app (Reject "a") "a"
              Scenario.world Scenario.pending_a
              (log_db opFindOne Scenario.world)
              (Errorf "device status update request failed with status 500 Internal Server Error")
              (snd (runState
                      (deviceauth.UpdateDevice (Scenario.failing 7)
                         (deviceauth.NewClient
                            (devadm.authclientconf Scenario.app))
                         (StatusReq.mk "dev-a" "a" DevStatusRejected))
                      (log_db opFindOne Scenario.world)))
              (or_intror eq_refl) eq_refl eq_refl)
    as (Hrun & _ & Hst & _).
  split.
  - exact Hrun.
  - rewrite Hrun. cbn [snd]. rewrite Hst. reflexivity.
Defined.

(* ================================================================== *)
(** ** AcceptDevicePreAuth: the guarded transition *)
(* ================================================================== *)

(** C3, as stated, fails: the record of auth set "a" is stored with status
    pending, the database cannot be reached, and the call returns the
    wrapped failure of the lookup, not the "not preauthorized" error. *)
Lemma C3_lookup_failure_counterexample :
  option_map Status (stored "a" Scenario.world) = Some DevStatusPending
  /\ fst (runState (devadm.AcceptDevicePreAuth (Scenario.db_down 7)
                      Scenario.app "a") Scenario.world)
     = Some (Wrapped (Wrapped (External "no reachable servers")
                              "failed to fetch device")
                     "failed to fetch auth set")
  /\ fst (runState (devadm.AcceptDevicePreAuth (Scenario.db_down 7)
                      Scenario.app "a") Scenario.world)
     <> Some (Sentinel ErrNotPreauthorized).
Proof.
  split; [reflexivity|]. split; [reflexivity|]. discriminate.
Qed.

(** C3, amended.  When the lookup of AcceptDevicePreAuth succeeds: on a
    record whose stored status is not "preauthorized" the call fails with
    the "not preauthorized" error, and on an absent record with the
    engine's own not-found error.  When the lookup itself fails, the call
    returns that failure wrapped.  In each of the three cases the call has
    only read the collection: no store write, no remote call. *)
Theorem C3_not_preauthorized_no_effect :
  forall env d id w,
    let err := fst (runState (devadm.AcceptDevicePreAuth env d id) w) in
    let w' := snd (runState (devadm.AcceptDevicePreAuth env d id) w) in
    (forall r,
        mgo_fault env opFindOne = None ->
        stored id w = Some r ->
        Status r <> DevStatusPreauthorized ->
        err = Some (Sentinel ErrNotPreauthorized)
        /\ only_read opFindOne w w')
    /\ (mgo_fault env opFindOne = None ->
        stored id w = None ->
        err = Some (Sentinel ErrAuthNotFound)
        /\ only_read opFindOne w w')
    /\ (forall m,
        mgo_fault env opFindOne = Some m ->
        err = Some (Wrapped (Wrapped (External m) "failed to fetch device")
                            "failed to fetch auth set")
        /\ only_read opFindOne w w').
Proof.
  intros env d id w.
  unfold devadm.AcceptDevicePreAuth. run_state.
  rewrite GetDeviceAuth_run.
  assert (Hro : only_read opFindOne w (log_db opFindOne w))
    by (repeat split; reflexivity).
  split; [|split].
  - intros r Hf Hs Hst. rewrite Hf, Hs.
    apply String.eqb_neq in Hst. rewrite Hst. cbn. split; [reflexivity|exact Hro].
  - intros Hf Hs. rewrite Hf, Hs. cbn. split; [reflexivity|exact Hro].
  - intros m Hf. rewrite Hf. cbn. split; [reflexivity|exact Hro].
Qed.

Lemma C3_not_preauthorized_no_effect_witness :
  fst (runState (devadm.AcceptDevicePreAuth (Scenario.healthy 7)
                   Scenario.app "a") Scenario.world)
  = Some (Sentinel ErrNotPreauthorized)
  /\ only_read opFindOne Scenario.world
       (snd (runState (devadm.AcceptDevicePreAuth (Scenario.healthy 7)
                         Scenario.app "a") Scenario.world)).
Proof.
  apply (proj1 (C3_not_preauthorized_no_effect
                  (Scenario.healthy 7) Scenario.app "a" Scenario.world)
               Scenario.pending_a).
  - reflexivity.
  - reflexivity.
  - discriminate.
Defined.

(* ================================================================== *)
(** ** PreauthorizeDevice: the duplicate check *)
(* ================================================================== *)

(** A record carrying the identity data is selected by the filter of
    [GetDeviceAuthsByIdentityData]. *)
Lemma by_example_identity idata r :
  DeviceIdentity r = idata ->
  mgo.by_example (set_DeviceIdentity idata zero) r = true.
Proof.
  intros <-. unfold mgo.by_example, mgo.sel_string.
  cbn [ID DeviceId DeviceIdentity Key Status Attributes RequestTime
       set_DeviceIdentity zero String.eqb andb].
  rewrite String.eqb_refl.
  destruct (String.eqb (DeviceIdentity r) ""); reflexivity.
Qed.

Lemma identity_lookup_finds idata c :
  (exists r, In r c /\ DeviceIdentity r = idata) ->
  Nat.ltb 0 (List.length
               (filter (mgo.by_example (set_DeviceIdentity idata zero)) c))
  = true.
Proof.
  intros (r & Hin & Hid).
  assert (Hf : In r (filter (mgo.by_example (set_DeviceIdentity idata zero)) c)).
  { apply filter_In. split; [exact Hin|]. apply by_example_identity, Hid. }
  destruct (filter _ c); [destruct Hf | reflexivity].
Qed.

(** C2, as stated, fails: a record with the identity data "mac:aa" is in
    the store, the database cannot be reached, and the call returns the
    wrapped failure of the lookup, not the conflict error. *)
Lemma C2_lookup_failure_counterexample :
  In Scenario.pending_a (devices Scenario.world)
  /\ DeviceIdentity Scenario.pending_a = AuthSet.DeviceId Scenario.authSet_a
  /\ fst (runState (devadm.PreauthorizeDevice (Scenario.db_down 7)
                      Scenario.app Scenario.authSet_a "Bearer t")
                   Scenario.world)
     = Some (Wrapped (External "no reachable servers")
                     "failed to fetch device")
  /\ fst (runState (devadm.PreauthorizeDevice (Scenario.db_down 7)
                      Scenario.app Scenario.authSet_a "Bearer t")
                   Scenario.world)
     <> Some (Sentinel AuthSetConflictError).
Proof.
  split; [left; reflexivity|]. split; [reflexivity|].
  split; [reflexivity|discriminate].
Qed.

(** C2, amended.  When a record whose deviceIdentity is the request's
    device identity is in the store before the call, whatever its status:
    the call inserts no record and makes no remote call (it only reads the
    collection); it returns the conflict error when the identity lookup
    succeeds, and the wrapped failure of the lookup when that fails. *)
Theorem C2_duplicate_identity_conflict :
  forall env d authSet h w,
    (exists r, In r (devices w)
               /\ DeviceIdentity r = AuthSet.DeviceId authSet) ->
    let err := fst (runState (devadm.PreauthorizeDevice env d authSet h) w) in
    let w' := snd (runState (devadm.PreauthorizeDevice env d authSet h) w) in
    only_read opFindAll w w'
    /\ (mgo_fault env opFindAll = None ->
        err = Some (Sentinel AuthSetConflictError))
    /\ (forall m, mgo_fault env opFindAll = Some m ->
        err = Some (Wrapped (External m) "failed to fetch device")).
Proof.
  intros env d authSet h w Hdup.
  unfold devadm.PreauthorizeDevice. run_state.
  rewrite GetDeviceAuthsByIdentityData_run.
  assert (Hro : only_read opFindAll w (log_db opFindAll w))
    by (repeat split; reflexivity).
  destruct (mgo_fault env opFindAll) as [m|]; cbn [fst snd errors.Wrap].
  - split; [exact Hro|]. split; [discriminate|].
    intros m' [= <-]. reflexivity.
  - rewrite (identity_lookup_finds _ _ Hdup). cbn [runState ret Monad_state fst snd].
    split; [exact Hro|]. split; [reflexivity|]. discriminate.
Qed.

Lemma C2_duplicate_identity_conflict_witness :
  only_read opFindAll Scenario.world
    (snd (runState (devadm.PreauthorizeDevice (Scenario.healthy 7)
                      Scenario.app Scenario.authSet_a "Bearer t")
                   Scenario.world))
  /\ fst (runState (devadm.PreauthorizeDevice (Scenario.healthy 7)
                      Scenario.app Scenario.authSet_a "Bearer t")
                   Scenario.world)
     = Some (Sentinel AuthSetConflictError).
Proof.
  destruct (C2_duplicate_identity_conflict
              (Scenario.healthy 7) Scenario.app Scenario.authSet_a "Bearer t"
              Scenario.world
              (ex_intro _ Scenario.pending_a
                 (conj (or_introl eq_refl) eq_refl)))
    as (Hro & Hok & _).
  split; [exact Hro | exact (Hok eq_refl)].
Defined.

(* ================================================================== *)
(** ** What a transition writes *)
(* ================================================================== *)

(** The update that Accept and Reject persist changes the status only. *)
Lemma set_status_update status dev :
  status <> "" ->
  mgo.set (mongo.genDeviceAuthUpdate
             (set_Status status
                (set_DeviceId (DeviceId dev) (set_ID (ID dev) zero))))
          dev
  = set_Status status dev.
Proof.
  intros Hs. apply String.eqb_neq in Hs.
  destruct dev as [i di ident k s a t].
  unfold mongo.genDeviceAuthUpdate, mgo.set, mgo.set_string, set_Status.
  cbn [ID DeviceId DeviceIdentity Key Status Attributes RequestTime
       set_Status set_DeviceId set_ID zero].
  rewrite Hs.
  destruct (String.eqb_spec di ""); subst; cbn; rewrite ?Hs;
    cbn; rewrite ?String.eqb_refl; try reflexivity.
  destruct (String.eqb_spec di ""); [contradiction | reflexivity].
Qed.

(** So does the update that AcceptDevicePreAuth persists. *)
Lemma set_accepted_update dev :
  mgo.set (mongo.genDeviceAuthUpdate
             (set_Status DevStatusAccepted (set_ID (ID dev) zero)))
          dev
  = set_Status DevStatusAccepted dev.
Proof. destruct dev; reflexivity. Qed.

(** The two outcomes of [updateDeviceAuthStatus]: an error and an
    untouched collection, or success, the record upserted with the new
    status and one call on the client. *)
Lemma updateDeviceAuthStatus_cases env d id status w :
  let r := runState (devadm.updateDeviceAuthStatus env d id status) w in
  (fst r <> None /\ devices (snd r) = devices w)
  \/ (fst r = None
      /\ exists dev,
          stored id w = Some dev
          /\ devices (snd r)
             = mgo.upserted id
                 (mongo.genDeviceAuthUpdate
                    (set_Status status
                       (set_DeviceId (DeviceId dev) (set_ID (ID dev) zero))))
                 (devices w)
          /\ authcalls (snd r)
             = (authcalls w
                ++ [CallUpdateDevice
                      (StatusReq.mk (DeviceId dev) (ID dev) status)])%list).
Proof.
  cbn zeta. rewrite updateDeviceAuthStatus_run, GetDeviceAuth_run.
  cbn [fst snd].
  destruct (mgo_fault env opFindOne);
    [left; split; [discriminate | reflexivity]|].
  destruct (stored id w) as [dev|] eqn:Hst;
    [|left; split; [discriminate | reflexivity]].
  cbn zeta. rewrite propagateDeviceAuthUpdate_run.
  cbn [ID DeviceId Status set_Status fst snd].
  pose proof (UpdateDevice_frame env
                (deviceauth.NewClient (devadm.authclientconf d))
                (StatusReq.mk (DeviceId dev) (ID dev) status)
                (log_db opFindOne w)) as Hfr.
  cbn zeta in Hfr.
  destruct (runState (deviceauth.UpdateDevice _ _ _) (log_db opFindOne w))
    as [[e|] w2]; cbn [fst snd] in *.
  - left. destruct Hfr as (Hd & _).
    destruct (utils.IsUsageError e); cbn [fst snd];
      (split; [discriminate | exact Hd]).
  - destruct Hfr as (Hd & _ & _ & Hc). cbn [devices authcalls log_db] in Hd, Hc.
    rewrite PutDeviceAuth_run.
    cbn [ID DeviceId Status set_Status set_DeviceId set_ID].
    destruct (mgo_fault env opEnsureIndex);
      [left; split; [discriminate | exact Hd]|].
    cbn zeta.
    destruct (mgo_fault env opUpsert);
      [left; split; [discriminate | exact Hd]|].
    right. split; [reflexivity|]. exists dev.
    cbn [fst snd devices authcalls with_devices log_db].
    pose proof (stored_ID _ _ _ Hst) as Hid. subst id.
    split; [reflexivity|]. split; [|exact Hc].
    rewrite Hd. reflexivity.
Qed.

(** The two outcomes of [AcceptDevicePreAuth]: an error and an untouched
    collection, or success on a preauthorized record, updated to accepted
    with no call on the client. *)
Lemma AcceptDevicePreAuth_cases env d id w :
  let r := runState (devadm.AcceptDevicePreAuth env d id) w in
  (fst r <> None /\ devices (snd r) = devices w)
  \/ (fst r = None
      /\ exists dev,
          stored id w = Some dev
          /\ Status dev = DevStatusPreauthorized
          /\ devices (snd r)
             = mgo.upserted id
                 (mongo.genDeviceAuthUpdate
                    (set_Status DevStatusAccepted (set_ID (ID dev) zero)))
                 (devices w)
          /\ authcalls (snd r) = authcalls w
          /\ wire (snd r) = wire w).
Proof.
  cbn zeta. unfold devadm.AcceptDevicePreAuth. run_state.
  rewrite GetDeviceAuth_run.
  destruct (mgo_fault env opFindOne);
    [left; split; [discriminate | reflexivity]|].
  destruct (stored id w) as [dev|] eqn:Hst;
    [|left; split; [discriminate | reflexivity]].
  destruct (String.eqb_spec (Status dev) DevStatusPreauthorized) as [Hpre|Hpre];
    cbn [negb]; [|left; split; [discriminate | reflexivity]].
  run_state. rewrite UpdateDeviceAuth_run.
  cbn [ID set_Status set_ID zero].
  destruct (mgo_fault env opEnsureIndex);
    [left; split; [discriminate | reflexivity]|].
  cbn zeta.
  destruct (mgo_fault env opUpdate);
    [left; split; [discriminate | reflexivity]|].
  cbn [devices log_db].
  pose proof (stored_ID _ _ _ Hst) as Hid.
  destruct (mgo.update_one (mgo.by_id (ID dev)) _ (devices w)) as [c'|] eqn:Hu.
  - right. split; [reflexivity|]. exists dev.
    cbn [fst snd devices authcalls wire with_devices log_db].
    subst id.
    repeat split; try assumption; try reflexivity.
    unfold mgo.upserted. rewrite Hu. reflexivity.
  - left. split; [discriminate | reflexivity].
Qed.

(* ================================================================== *)
(** ** The valid transitions *)
(* ================================================================== *)

(** C4, as stated, fails on the AcceptPreauthorized path: the record of
    auth set "p" is preauthorized, AcceptDevicePreAuth succeeds and the
    stored status is accepted, but the deviceauth client was not called at
    all. *)
Lemma C4_accept_preauthorized_counterexample :
  transition (AcceptPreAuth "p") "p" (Status Scenario.preauth_p) = true
  /\ fst (runState (exec (Scenario.healthy 7) Scenario.app
                         (AcceptPreAuth "p")) Scenario.world)
     = None
  /\ option_map Status
       (stored "p" (snd (runState (exec (Scenario.healthy 7) Scenario.app
                                        (AcceptPreAuth "p")) Scenario.world)))
     = Some DevStatusAccepted
  /\ authcalls (snd (runState (exec (Scenario.healthy 7) Scenario.app
                                    (AcceptPreAuth "p")) Scenario.world))
     = []
  /\ authcalls (snd (runState (exec (Scenario.healthy 7) Scenario.app
                                    (AcceptPreAuth "p")) Scenario.world))
     <> (authcalls Scenario.world
         ++ [CallUpdateDevice
               (StatusReq.mk "dev-p" "p" DevStatusAccepted)])%list.
Proof.
  repeat split; try reflexivity. discriminate.
Qed.

(** C4, amended.  For every valid transition (pending to accepted via
    Accept, pending to rejected via Reject, preauthorized to accepted via
    Accept and via AcceptPreauthorized), when the operation succeeds the
    stored record is the former one with the target status; Accept and
    Reject have called the status update of the remote authenticator
    exactly once, with the record's device id, auth id and the target
    status; AcceptPreauthorized has made no remote call. *)
Theorem C4_valid_transition_commits :
  forall env d op id w dev w',
    stored id w = Some dev ->
    transition op id (Status dev) = true ->
    runState (exec env d op) w = (None, w') ->
    stored id w' = Some (set_Status (target op) dev)
    /\ authcalls w' = (authcalls w ++ propagation op dev)%list.
Proof.
  intros env d op id w dev w' Hst Htr Hrun.
  assert (Hupd : forall status,
             status <> "" ->
             runState (devadm.updateDeviceAuthStatus env d id status) w
             = (None, w') ->
             stored id w' = Some (set_Status status dev)
             /\ authcalls w'
                = (authcalls w
                   ++ [CallUpdateDevice
                         (StatusReq.mk (DeviceId dev) (ID dev) status)])%list).
  { intros status Hne Hr.
    destruct (updateDeviceAuthStatus_cases env d id status w)
      as [(Herr & _) | (_ & dev' & Hst' & Hdev & Hcalls)];
      rewrite Hr in *; cbn [fst snd] in *; [congruence|].
    assert (dev' = dev) by congruence. subst dev'.
    split; [|exact Hcalls].
    unfold stored. rewrite Hdev, find_upserted, String.eqb_refl.
    fold (stored id w). rewrite Hst, set_status_update by exact Hne.
    reflexivity. }
  destruct op as [sub|i|i|i|a h|i|i]; cbn [transition] in Htr;
    try discriminate;
    apply andb_true_iff in Htr; destruct Htr as (Hi & _);
    apply String.eqb_eq in Hi; subst i; cbn [exec target propagation] in *.
  - apply Hupd; [discriminate | exact Hrun].
  - apply Hupd; [discriminate | exact Hrun].
  - destruct (AcceptDevicePreAuth_cases env d id w)
      as [(Herr & _) | (_ & dev' & Hst' & _ & Hdev & Hcalls & _)];
      rewrite Hrun in *; cbn [fst snd] in *; [congruence|].
    assert (dev' = dev) by congruence. subst dev'.
    split; [|rewrite Hcalls; symmetry; apply app_nil_r].
    unfold stored. rewrite Hdev, find_upserted, String.eqb_refl.
    fold (stored id w). rewrite Hst, set_accepted_update.
    reflexivity.
Qed.

Lemma C4_valid_transition_commits_witness :
  stored "a" (snd (runState (exec (Scenario.healthy 7) Scenario.app
                                  (Accept "a")) Scenario.world))
  = Some (set_Status DevStatusAccepted Scenario.pending_a)
  /\ authcalls (snd (runState (exec (Scenario.healthy 7) Scenario.app
                                    (Accept "a")) Scenario.world))
     = [CallUpdateDevice (StatusReq.mk "dev-a" "a" DevStatusAccepted)].
Proof.
  apply (C4_valid_transition_commits
           (Scenario.healthy 7) Scenario.app (Accept "a") "a"
           Scenario.world Scenario.pending_a
           (snd (runState (exec (Scenario.healthy 7) Scenario.app
                                (Accept "a")) Scenario.world))).
  - reflexivity.
  - reflexivity.
  - reflexivity.
Defined.

(* ================================================================== *)
(** ** Partial updates *)
(* ================================================================== *)

Lemma set_genDeviceAuthUpdate_merge dev r :
  let r' := mgo.set (mongo.genDeviceAuthUpdate dev) r in
  keeps_unspecified dev r r'
  /\ (Status dev <> "" -> Status r' = Status dev).
Proof.
  cbn zeta.
  destruct (genDeviceAuthUpdate_fields dev)
    as (Hi & Hdi & Hs & Hk & Hident & Ha & Ht).
  unfold keeps_unspecified, mgo.set, mgo.set_string.
  cbn [ID DeviceId DeviceIdentity Key Status Attributes RequestTime].
  rewrite Hi, Hdi, Hs, Hk, Hident, Ha, Ht. cbn [String.eqb].
  repeat split.
  - intros ->. reflexivity.
  - intros ->. reflexivity.
  - intros ->. reflexivity.
  - intros ->. reflexivity.
  - intros ->. reflexivity.
  - intros ->. reflexivity.
  - intros Hne. apply String.eqb_neq in Hne. rewrite Hne. reflexivity.
Qed.

Lemma keeps_unspecified_refl dev r : keeps_unspecified dev r r.
Proof. unfold keeps_unspecified. tauto. Qed.

(** The record found under the id of [dev] after [PutDeviceAuth]. *)
Lemma PutDeviceAuth_stored env dev w r :
  stored (ID dev) w = Some r ->
  let res := runState (mongo.PutDeviceAuth env dev) w in
  (fst res = None
   /\ stored (ID dev) (snd res)
      = Some (mgo.set (mongo.genDeviceAuthUpdate dev) r))
  \/ (fst res <> None /\ stored (ID dev) (snd res) = Some r).
Proof.
  intros Hst. cbn zeta. rewrite PutDeviceAuth_run.
  destruct (mgo_fault env opEnsureIndex);
    [right; split; [discriminate | exact Hst]|].
  cbn zeta.
  destruct (mgo_fault env opUpsert);
    [right; split; [discriminate | exact Hst]|].
  left. split; [reflexivity|].
  unfold stored in *. cbn [snd devices with_devices].
  rewrite find_upserted, String.eqb_refl, Hst. reflexivity.
Qed.

(** The record found under the id of [dev] after [UpdateDeviceAuth]. *)
Lemma UpdateDeviceAuth_stored env dev w r :
  stored (ID dev) w = Some r ->
  let res := runState (mongo.UpdateDeviceAuth env dev) w in
  (fst res = None
   /\ stored (ID dev) (snd res)
      = Some (mgo.set (mongo.genDeviceAuthUpdate dev) r))
  \/ (fst res <> None /\ stored (ID dev) (snd res) = Some r).
Proof.
  intros Hst. cbn zeta. rewrite UpdateDeviceAuth_run.
  destruct (mgo_fault env opEnsureIndex);
    [right; split; [discriminate | exact Hst]|].
  cbn zeta.
  destruct (mgo_fault env opUpdate);
    [right; split; [discriminate | exact Hst]|].
  destruct (mgo.update_one (mgo.by_id (ID dev)) _ (devices w)) as [c'|] eqn:Hu.
  - left. split; [reflexivity|].
    unfold stored in *. cbn [snd devices with_devices].
    rewrite (find_update_one _ (ID dev) _ _ _
               (set_genDeviceAuthUpdate_ID dev) Hu).
    rewrite String.eqb_refl, Hst. reflexivity.
  - apply update_one_None in Hu. unfold stored in Hst. congruence.
Qed.

(** An update that carries the id and a status changes the status only. *)
Lemma set_only_status s r :
  s <> "" ->
  mgo.set (mongo.genDeviceAuthUpdate (set_Status s (set_ID (ID r) zero))) r
  = set_Status s r.
Proof.
  intros Hs. apply String.eqb_neq in Hs.
  destruct r as [i di ident k st a t].
  unfold mongo.genDeviceAuthUpdate, mgo.set, mgo.set_string, set_Status.
  cbn [ID DeviceId DeviceIdentity Key Status Attributes RequestTime
       set_Status set_ID zero String.eqb negb List.length Nat.eqb].
  rewrite Hs.
  cbn [ID DeviceId DeviceIdentity Key Status Attributes RequestTime
       set_Status set_ID zero String.eqb negb].
  rewrite Hs. reflexivity.
Qed.

(** The store update of a stored record succeeds when the driver fails
    neither at the index nor at the write. *)
Lemma store_update_succeeds env update write dev w r :
  (update = mongo.PutDeviceAuth /\ write = opUpsert)
  \/ (update = mongo.UpdateDeviceAuth /\ write = opUpdate) ->
  stored (ID dev) w = Some r ->
  mgo_fault env opEnsureIndex = None ->
  mgo_fault env write = None ->
  fst (runState (update env dev) w) = None.
Proof.
  intros [(-> & ->) | (-> & ->)] Hst Hidx Hwr.
  - rewrite PutDeviceAuth_run, Hidx. cbn zeta. rewrite Hwr. reflexivity.
  - rewrite UpdateDeviceAuth_run, Hidx. cbn zeta. rewrite Hwr.
    destruct (mgo.update_one (mgo.by_id (ID dev)) _ (devices w)) as [c'|] eqn:Hu;
      [reflexivity|].
    apply update_one_None in Hu. unfold stored in Hst. congruence.
Qed.

(** The record stored under the id of [dev] after either store update. *)
Lemma store_update_stored env update write dev w r :
  (update = mongo.PutDeviceAuth /\ write = opUpsert)
  \/ (update = mongo.UpdateDeviceAuth /\ write = opUpdate) ->
  stored (ID dev) w = Some r ->
  (fst (runState (update env dev) w) = None
   /\ stored (ID dev) (snd (runState (update env dev) w))
      = Some (mgo.set (mongo.genDeviceAuthUpdate dev) r))
  \/ (fst (runState (update env dev) w) <> None
      /\ stored (ID dev) (snd (runState (update env dev) w)) = Some r).
Proof.
  intros [(-> & _) | (-> & _)] Hst;
    [apply PutDeviceAuth_stored | apply UpdateDeviceAuth_stored]; exact Hst.
Qed.

(** C5. A store update, by PutDeviceAuth or by UpdateDeviceAuth, of a
    stored record [r], with an argument that carries the id and a status
    and nothing else: when the driver fails neither at the index nor at
    the write, the update succeeds and the stored record is [r] with the
    new status, every other field (deviceId, deviceIdentity, key,
    attributes, requestTime) being what it was; the same holds whenever
    the update returns nil, and when it returns an error the stored record
    is [r] unchanged.  And for any argument, a field that is empty in it
    is never nulled out in the stored record. *)
Theorem C5_partial_update_keeps_other_fields :
  forall env update write w r,
    (update = mongo.PutDeviceAuth /\ write = opUpsert)
    \/ (update = mongo.UpdateDeviceAuth /\ write = opUpdate) ->
    stored (ID r) w = Some r ->
    (forall s,
        s <> "" ->
        let res := runState (update env (set_Status s (set_ID (ID r) zero))) w
        in
        (mgo_fault env opEnsureIndex = None ->
         mgo_fault env write = None ->
         fst res = None
         /\ stored (ID r) (snd res) = Some (set_Status s r))
        /\ (fst res = None ->
            stored (ID r) (snd res) = Some (set_Status s r))
        /\ (fst res <> None -> stored (ID r) (snd res) = Some r)
        /\ exists r',
            stored (ID r) (snd res) = Some r'
            /\ DeviceId r' = DeviceId r
            /\ DeviceIdentity r' = DeviceIdentity r
            /\ Key r' = Key r
            /\ Attributes r' = Attributes r
            /\ RequestTime r' = RequestTime r
            /\ (fst res = None -> Status r' = s))
    /\ (forall dev,
        ID dev = ID r ->
        let res := runState (update env dev) w in
        exists r',
          stored (ID r) (snd res) = Some r'
          /\ keeps_unspecified dev r r').
Proof.
  intros env update write w r Hupd Hst. split.
  - intros s Hs. cbn zeta.
    set (dev := set_Status s (set_ID (ID r) zero)).
    assert (Hid : ID dev = ID r) by reflexivity.
    assert (Hst' : stored (ID dev) w = Some r) by exact Hst.
    pose proof (store_update_stored env update write dev w r Hupd Hst')
      as Hcases.
    rewrite Hid in Hcases. unfold dev in Hcases at 3.
    rewrite (set_only_status s r Hs) in Hcases.
    assert (Hsucc : fst (runState (update env dev) w) = None ->
                    stored (ID r) (snd (runState (update env dev) w))
                    = Some (set_Status s r)).
    { intros Hok. destruct Hcases as [(_ & H) | (Herr & _)];
        [exact H | contradiction]. }
    assert (Hfail : fst (runState (update env dev) w) <> None ->
                    stored (ID r) (snd (runState (update env dev) w))
                    = Some r).
    { intros Herr. destruct Hcases as [(Hok & _) | (_ & H)];
        [contradiction | exact H]. }
    split; [|split; [exact Hsucc | split; [exact Hfail|]]].
    + intros Hidx Hwr.
      pose proof (store_update_succeeds env update write dev w r
                    Hupd Hst' Hidx Hwr) as Hok.
      split; [exact Hok | exact (Hsucc Hok)].
    + destruct Hcases as [(Hok & H) | (Herr & H)].
      * exists (set_Status s r). split; [exact H|].
        destruct r; repeat split.
      * exists r. split; [exact H|]. repeat split.
        intros Hok. contradiction.
  - intros dev Hid. cbn zeta. rewrite <- Hid in *.
    destruct (store_update_stored env update write dev w r Hupd Hst)
      as [(_ & H) | (_ & H)]; rewrite H.
    + eexists. split; [reflexivity|].
      exact (proj1 (set_genDeviceAuthUpdate_merge dev r)).
    + exists r. split; [reflexivity | apply keeps_unspecified_refl].
Qed.

Lemma C5_partial_update_keeps_other_fields_witness :
  fst (runState (mongo.UpdateDeviceAuth (Scenario.healthy 7)
                   (set_Status "rejected" (set_ID "a" zero)))
                Scenario.world) = None
  /\ stored "a" (snd (runState (mongo.UpdateDeviceAuth (Scenario.healthy 7)
                                  (set_Status "rejected" (set_ID "a" zero)))
                               Scenario.world))
     = Some (mkDeviceAuth "a" "dev-a" "mac:aa" "key-a" "rejected"
                          [("mac", "aa")] (Some 100%Z)).
Proof.
  apply (proj1 (proj1 (C5_partial_update_keeps_other_fields
                         (Scenario.healthy 7) mongo.UpdateDeviceAuth opUpdate
                         Scenario.world Scenario.pending_a
                         (or_intror (conj eq_refl eq_refl)) eq_refl)
                      "rejected" ltac:(discriminate)));
    reflexivity.
Defined.

(* ================================================================== *)
(** ** PreauthorizeDevice: insertion and propagation *)
(* ================================================================== *)

Lemma existsb_find_None id c :
  existsb (mgo.by_id id) c = false -> find (mgo.by_id id) c = None.
Proof.
  induction c as [|x c IH]; cbn [existsb find]; [reflexivity|].
  destruct (mgo.by_id id x); cbn [orb]; [discriminate | exact IH].
Qed.

(** What a successful [InsertDeviceAuth] leaves behind. *)
Lemma InsertDeviceAuth_success env dev0 w dev w' :
  runState (mongo.InsertDeviceAuth env dev0) w = ((dev, None), w') ->
  dev = set_DeviceId (ObjectIdHex env (S (objectids w)))
          (set_ID (ObjectIdHex env (objectids w)) dev0)
  /\ devices w' = (devices w ++ [dev])%list
  /\ stored (ID dev) w = None
  /\ authcalls w' = authcalls w.
Proof.
  rewrite InsertDeviceAuth_run. cbn zeta.
  destruct (mgo_fault env opEnsureIndex); [discriminate|].
  destruct (mgo_fault env opInsert); [discriminate|].
  destruct (existsb _ (devices w)) eqn:Hex; [discriminate|].
  intros [= <- <-]. cbn [devices authcalls with_devices log_db next_objectid].
  repeat split. apply existsb_find_None, Hex.
Qed.

(** C6. In a PreauthorizeDevice call whose duplicate check passes (the
    identity lookup succeeds and returns no record) and whose local insert
    succeeds, when the remote pre-authorize call fails with [e]: the error
    is returned wrapped, and the record just inserted is still in the
    store, last in the collection and found under its id; nothing rolls it
    back. *)
Theorem C6_remote_failure_keeps_inserted_record :
  forall env d authSet h w w1 dev w2 e w3,
    runState (mongo.GetDeviceAuthsByIdentityData env (AuthSet.DeviceId authSet))
             w = (([], None), w1) ->
    runState (mongo.InsertDeviceAuth env
                (devadm.preauthorized_record env authSet)) w1
      = ((dev, None), w2) ->
    runState (deviceauth.PreauthorizeDevice env
                (deviceauth.NewClient (devadm.authclientconf d))
                (PreAuthReq.mk (DeviceId dev) (ID dev) (DeviceIdentity dev)
                               (Key dev)) h) w2
      = (Some e, w3) ->
    runState (devadm.PreauthorizeDevice env d authSet h) w
      = (Some (Wrapped e "failed to propagate device status update"), w3)
    /\ devices w3 = (devices w ++ [dev])%list
    /\ stored (ID dev) w3 = Some dev
    /\ DeviceIdentity dev = AuthSet.DeviceId authSet
    /\ Status dev = DevStatusPreauthorized.
Proof.
  intros env d authSet h w w1 dev w2 e w3 Hget Hins Hrem.
  split.
  - unfold devadm.PreauthorizeDevice, devadm.propagatePreauthorizeDevice.
    run_state. rewrite Hget. cbn [fst snd List.length Nat.ltb Nat.leb].
    run_state. rewrite Hins. cbn [fst snd]. run_state.
    rewrite Hrem. reflexivity.
  - destruct (InsertDeviceAuth_success _ _ _ _ _ Hins)
      as (Hdev & Hd2 & Hnone & _).
    pose proof (PreauthorizeDevice_frame env
                  (deviceauth.NewClient (devadm.authclientconf d))
                  (PreAuthReq.mk (DeviceId dev) (ID dev) (DeviceIdentity dev)
                                 (Key dev)) h w2) as Hfr.
    cbn zeta in Hfr. rewrite Hrem in Hfr. cbn [snd] in Hfr.
    destruct Hfr as (Hd3 & _).
    assert (Hd1 : devices w1 = devices w).
    { rewrite GetDeviceAuthsByIdentityData_run in Hget.
      injection Hget as _ <-. reflexivity. }
    assert (Hall : devices w3 = (devices w ++ [dev])%list)
      by (rewrite Hd3, Hd2, Hd1; reflexivity).
    split; [exact Hall|]. split.
    + unfold stored in *. rewrite Hall, find_app_by_id.
      rewrite <- Hd1, Hnone.
      replace (mgo.by_id (ID dev) dev) with true; [reflexivity|].
      symmetry. apply by_id_true. reflexivity.
    + rewrite Hdev. split; reflexivity.
Qed.

Lemma C6_remote_failure_keeps_inserted_record_witness :
  let dev :=
    mkDeviceAuth "5a17c0de0000000000000000" "5a17c0de0000000000000001"
                 "mac:xx" "key-x" DevStatusPreauthorized [("mac", "xx")]
                 (Some 7%Z) in
  fst (runState (devadm.PreauthorizeDevice (Scenario.failing 7) Scenario.app
                   Scenario.authSet_x "Bearer t") Scenario.world)
  = Some (Wrapped
            (Errorf "device preauthorize request failed with status 500 Internal Server Error")
            "failed to propagate device status update")
  /\ stored "5a17c0de0000000000000000"
       (snd (runState (devadm.PreauthorizeDevice (Scenario.failing 7)
                         Scenario.app Scenario.authSet_x "Bearer t")
                      Scenario.world))
     = Some dev.
Proof.
  intros dev.
  destruct (C6_remote_failure_keeps_inserted_record
              (Scenario.failing 7) Scenario.app Scenario.authSet_x "Bearer t"
              Scenario.world
              (log_db opFindAll Scenario.world)
              dev
              (snd (runState
                      (mongo.InsertDeviceAuth (Scenario.failing 7)
                         (devadm.preauthorized_record (Scenario.failing 7)
                            Scenario.authSet_x))
                      (log_db opFindAll Scenario.world)))
              (Errorf "device preauthorize request failed with status 500 Internal Server Error")
              (snd (runState (devadm.PreauthorizeDevice (Scenario.failing 7)
                                Scenario.app Scenario.authSet_x "Bearer t")
                             Scenario.world))
              eq_refl eq_refl eq_refl)
    as (Hrun & _ & Hst & _).
  split.
  - rewrite Hrun. reflexivity.
  - exact Hst.
Defined.

(* ================================================================== *)
(** ** The deviceauth client: classification of the response *)
(* ================================================================== *)

(** C7. When the HTTP runner answers the request of UpdateDevice with a
    response: status 204 gives success; status 422 gives a usage error
    carrying the message of the API error when the body parses as one, and
    the wrapped parse failure when it does not; any other status code gives
    a failure whose message ends with the status text of the response. *)
Theorem C7_update_device_response_classification :
  forall env cl sreq w body req rsp,
    json_Marshal env (JStatusReq sreq) = inl body ->
    http_NewRequest env http.MethodPut
                    (deviceauth.buildDevAuthUpdateUrl cl sreq) body
      = inl req ->
    client_Do env (deviceauth.Timeout (deviceauth.conf cl))
              (http.Header_Set "Content-Type" "application/json" req)
      = inl rsp ->
    let err := fst (runState (deviceauth.UpdateDevice env cl sreq) w) in
    (http.StatusCode rsp = 204%Z -> err = None)
    /\ (http.StatusCode rsp = 422%Z ->
        forall msg reqid,
          ParseApiError env (http.Body rsp) = ApiError msg reqid ->
          err = Some (UsageError msg))
    /\ (http.StatusCode rsp = 422%Z ->
        rest_utils.IsApiError (ParseApiError env (http.Body rsp)) = false ->
        err = Some (Wrapped (ParseApiError env (http.Body rsp))
                            "device status update request failed"))
    /\ (http.StatusCode rsp <> 204%Z ->
        http.StatusCode rsp <> 422%Z ->
        err = Some (Errorf ("device status update request failed with status "
                            ++ http.Status rsp))).
Proof.
  intros env cl sreq w body req rsp Hjson Hreq Hdo.
  unfold deviceauth.UpdateDevice, deviceauth.called, deviceauth.Do.
  run_state. rewrite Hjson, Hreq. run_state. rewrite Hdo. run_state.
  unfold deviceauth.UpdateDevice_response,
    http.StatusNoContent, http.StatusUnprocessableEntity.
  repeat split.
  - intros ->. reflexivity.
  - intros -> msg reqid ->. reflexivity.
  - intros -> ->. reflexivity.
  - intros H204 H422.
    apply Z.eqb_neq in H204, H422. rewrite H204, H422. reflexivity.
Qed.

Lemma C7_update_device_response_classification_witness :
  fst (runState
         (deviceauth.UpdateDevice
            (Scenario.answering
               (http.mkResponse 422 "422 Unprocessable Entity"
                                "bad status") 7)
            (deviceauth.NewClient (devadm.authclientconf Scenario.app))
            (StatusReq.mk "dev-a" "a" "bogus"))
         Scenario.world)
  = Some (UsageError "bad status").
Proof.
  apply (proj1 (proj2
           (C7_update_device_response_classification
              (Scenario.answering
                 (http.mkResponse 422 "422 Unprocessable Entity"
                                  "bad status") 7)
              (deviceauth.NewClient (devadm.authclientconf Scenario.app))
              (StatusReq.mk "dev-a" "a" "bogus") Scenario.world
              "{status:bogus}"
              (http.mkRequest "PUT"
                 "http://devauth:8080/api/management/v1/devauth/devices/dev-a/auth/a/status"
                 [] "{status:bogus}")
              (http.mkResponse 422 "422 Unprocessable Entity" "bad status")
              eq_refl eq_refl eq_refl))
           eq_refl "bad status" "req-1" eq_refl).
Defined.

(* ================================================================== *)
(** ** DeleteDeviceAuthByDevice *)
(* ================================================================== *)

(** C10. DeleteDeviceAuthByDevice of the mongo backend: when the removal
    reports an error the function returns nil, and the failure of the store
    is lost; it returns the not-found error exactly when the removal
    succeeded and removed no record.  Stated on the closing switch, for
    every return of RemoveAll, and on the function itself. *)
Theorem C10_delete_by_device_swallows_store_error :
  (forall ci e,
      mongo.DeleteDeviceAuthByDevice_result ci (Some e) = None)
  /\ (forall ci err,
      mongo.DeleteDeviceAuthByDevice_result ci err = Some store.ErrNotFound
      <-> err = None
          /\ exists info, ci = Some info /\ mgo.Removed info = 0%Z)
  /\ (forall env id w m,
      mgo_fault env opRemoveAll = Some m ->
      fst (runState (mongo.DeleteDeviceAuthByDevice env id) w) = None)
  /\ (forall env id w,
      fst (runState (mongo.DeleteDeviceAuthByDevice env id) w)
        = Some store.ErrNotFound
      <-> mgo_fault env opRemoveAll = None
          /\ filter (mgo.by_example (set_DeviceId id zero)) (devices w) = []).
Proof.
  split; [|split; [|split]].
  - intros ci e. reflexivity.
  - intros ci err. unfold mongo.DeleteDeviceAuthByDevice_result.
    destruct err as [e|]; [split; [discriminate | intros (H & _); discriminate]|].
    destruct ci as [info|]; cbn [errors.Wrap].
    + destruct (Z.eqb_spec (mgo.Removed info) 0) as [H0|H0].
      * split; [|reflexivity]. intros _. split; [reflexivity|].
        exists info. split; [reflexivity | exact H0].
      * split; [discriminate|].
        intros (_ & info' & [= <-] & H). contradiction.
    + split; [discriminate|]. intros (_ & info & H & _). discriminate.
  - intros env id w m Hf.
    unfold mongo.DeleteDeviceAuthByDevice, mgo.RemoveAll, mgo.issue.
    run_state. rewrite Hf. reflexivity.
  - intros env id w.
    unfold mongo.DeleteDeviceAuthByDevice, mgo.RemoveAll, mgo.issue,
      mgo.collection, mgo.store.
    run_state.
    destruct (mgo_fault env opRemoveAll) as [m|]; run_state.
    + cbn. split; [discriminate | intros (H & _); discriminate].
    + unfold mongo.DeleteDeviceAuthByDevice_result.
      cbn [mgo.Removed devices log_db errors.Wrap].
      destruct (filter _ (devices w)) as [|x l].
      * cbn. split; [intros _; split; reflexivity | reflexivity].
      * replace (Z.of_nat (List.length (x :: l)) =? 0)%Z with false.
        -- split; [discriminate | intros (_ & H); discriminate].
        -- symmetry. apply Z.eqb_neq. cbn [List.length]. lia.
Qed.

Lemma C10_delete_by_device_swallows_store_error_witness :
  fst (runState (mongo.DeleteDeviceAuthByDevice (Scenario.db_down 7) "dev-a")
                Scenario.world) = None.
Proof.
  apply (proj1 (proj2 (proj2 C10_delete_by_device_swallows_store_error))
               (Scenario.db_down 7) "dev-a" Scenario.world
               "no reachable servers").
  reflexivity.
Defined.

(* ================================================================== *)
(** ** Identifiers of a pre-authorized record *)
(* ================================================================== *)

(** The two outcomes of [PreauthorizeDevice] on the collection: untouched,
    or extended by the record built from the request, under two fresh
    ObjectIds. *)
Lemma PreauthorizeDevice_cases env d authSet h w :
  let w' := snd (runState (devadm.PreauthorizeDevice env d authSet h) w) in
  let dev := set_DeviceId (ObjectIdHex env (S (objectids w)))
               (set_ID (ObjectIdHex env (objectids w))
                  (devadm.preauthorized_record env authSet)) in
  devices w' = devices w
  \/ (devices w' = (devices w ++ [dev])%list
      /\ stored (ID dev) w = None
      /\ filter (mgo.by_example
                   (set_DeviceIdentity (AuthSet.DeviceId authSet) zero))
                (devices w) = []).
Proof.
  cbn zeta. unfold devadm.PreauthorizeDevice. run_state.
  rewrite GetDeviceAuthsByIdentityData_run.
  destruct (mgo_fault env opFindAll); cbn [fst snd errors.Wrap];
    [left; reflexivity|].
  destruct (filter _ (devices w)) as [|x l] eqn:Hfil;
    cbn [List.length Nat.ltb Nat.leb]; [|left; reflexivity].
  run_state.
  destruct (runState (mongo.InsertDeviceAuth env _) (log_db opFindAll w))
    as [[dev [err|]] w2] eqn:Hins; cbn [fst snd].
  - left. rewrite InsertDeviceAuth_run in Hins. cbn zeta in Hins.
    destruct (mgo_fault env opEnsureIndex);
      [injection Hins as _ _ <-; reflexivity|].
    destruct (mgo_fault env opInsert);
      [injection Hins as _ _ <-; reflexivity|].
    destruct (existsb _ _); [injection Hins as _ _ <-; reflexivity|].
    discriminate.
  - right.
    destruct (InsertDeviceAuth_success _ _ _ _ _ Hins)
      as (Hdev & Hd2 & Hnone & _).
    cbn [devices objectids log_db] in Hdev, Hd2.
    unfold devadm.propagatePreauthorizeDevice. run_state.
    pose proof (PreauthorizeDevice_frame env
                  (deviceauth.NewClient (devadm.authclientconf d))
                  (PreAuthReq.mk (DeviceId dev) (ID dev) (DeviceIdentity dev)
                                 (Key dev)) h w2) as Hfr.
    cbn zeta in Hfr.
    destruct (runState (deviceauth.PreauthorizeDevice _ _ _ _) w2)
      as [e w3]; cbn [fst snd] in *.
    destruct Hfr as (Hd3 & _). rewrite <- Hdev.
    split; [rewrite Hd3; exact Hd2|]. split; [exact Hnone | reflexivity].
Qed.

(** C9, as stated, fails: the request names the device "mac:xx"; the
    record created for it carries that name as its deviceIdentity, and a
    freshly generated ObjectId as its deviceId. *)
Lemma C9_device_id_counterexample :
  fst (runState (devadm.PreauthorizeDevice (Scenario.healthy 7) Scenario.app
                   Scenario.authSet_x "Bearer t") Scenario.world)
  = None
  /\ devices (snd (runState (devadm.PreauthorizeDevice (Scenario.healthy 7)
                              Scenario.app Scenario.authSet_x "Bearer t")
                           Scenario.world))
     = (devices Scenario.world ++ [Scenario.created_x])%list
  /\ AuthSet.DeviceId Scenario.authSet_x = "mac:xx"
  /\ DeviceId Scenario.created_x = "5a17c0de0000000000000001"
  /\ DeviceId Scenario.created_x <> AuthSet.DeviceId Scenario.authSet_x.
Proof.
  repeat split. discriminate.
Qed.

(** C9, amended.  When a pre-authorization request creates a record, the
    record is appended to the collection; its deviceIdentity is the device
    identifier given by the caller in the request; its id and its deviceId
    are two fresh ObjectIds assigned by the store at insertion; status,
    key, attributes and requestTime are the preauthorized status, the
    request's key and attributes, and the time of the injected clock. *)
Theorem C9_preauthorized_record_identifiers :
  forall env d authSet h w,
    let w' := snd (runState (devadm.PreauthorizeDevice env d authSet h) w) in
    devices w' <> devices w ->
    exists dev,
      devices w' = (devices w ++ [dev])%list
      /\ DeviceIdentity dev = AuthSet.DeviceId authSet
      /\ ID dev = ObjectIdHex env (objectids w)
      /\ DeviceId dev = ObjectIdHex env (S (objectids w))
      /\ Status dev = DevStatusPreauthorized
      /\ Key dev = AuthSet.Key authSet
      /\ Attributes dev = AuthSet.Attributes authSet
      /\ RequestTime dev = Some (clock_Now env).
Proof.
  intros env d authSet h w w' Hchg.
  destruct (PreauthorizeDevice_cases env d authSet h w)
    as [Hsame | (Happ & _)]; [contradiction|].
  eexists. split; [exact Happ|]. repeat split.
Qed.

Lemma C9_preauthorized_record_identifiers_witness :
  exists dev,
    devices (snd (runState (devadm.PreauthorizeDevice (Scenario.healthy 7)
                              Scenario.app Scenario.authSet_x "Bearer t")
                           Scenario.world))
    = (devices Scenario.world ++ [dev])%list
    /\ DeviceIdentity dev = "mac:xx"
    /\ ID dev = "5a17c0de0000000000000000"
    /\ DeviceId dev = "5a17c0de0000000000000001"
    /\ Status dev = DevStatusPreauthorized
    /\ Key dev = "key-x"
    /\ Attributes dev = [("mac", "xx")]
    /\ RequestTime dev = Some 7%Z.
Proof.
  apply (C9_preauthorized_record_identifiers
           (Scenario.healthy 7) Scenario.app Scenario.authSet_x "Bearer t"
           Scenario.world).
  vm_compute. intros H. apply (f_equal (@List.length _)) in H.
  discriminate.
Defined.

(* ================================================================== *)
(** ** requestTime along a history *)
(* ================================================================== *)

Lemma SubmitDeviceAuth_devices env d dev w :
  let res := runState (devadm.SubmitDeviceAuth env d dev) w in
  (fst res <> None /\ devices (snd res) = devices w)
  \/ (fst res = None
      /\ devices (snd res)
         = mgo.upserted (ID dev)
             (mongo.genDeviceAuthUpdate
                (set_RequestTime (Some (time_Now env)) dev))
             (devices w)).
Proof.
  cbn zeta. unfold devadm.SubmitDeviceAuth. run_state.
  rewrite PutDeviceAuth_run. cbn [ID set_RequestTime].
  destruct (mgo_fault env opEnsureIndex);
    [left; split; [discriminate | reflexivity]|].
  cbn zeta.
  destruct (mgo_fault env opUpsert);
    [left; split; [discriminate | reflexivity]|].
  right. split; reflexivity.
Qed.





(* ================================================================== *)
(** ** The unique index along a history *)
(* ================================================================== *)

Lemma find_None_not_In id c :
  find (mgo.by_id id) c = None -> ~ In id (map ID c).
Proof.
  induction c as [|x c IH]; cbn [find map In]; [tauto|].
  destruct (mgo.by_id id x) eqn:Hx; [discriminate|].
  intros Hf [Heq | Hin]; [|exact (IH Hf Hin)].
  apply by_id_false in Hx. congruence.
Qed.

Lemma update_one_ids p f c c' :
  (forall d, ID (f d) = ID d) ->
  mgo.update_one p f c = Some c' -> map ID c' = map ID c.
Proof.
  intros Hf. revert c'.
  induction c as [|x c IH]; intros c'; cbn [mgo.update_one]; [discriminate|].
  destruct (p x).
  - intros [= <-]. cbn [map]. rewrite Hf. reflexivity.
  - destruct (mgo.update_one p f c) as [c1|]; cbn [option_map];
      [|discriminate].
    intros [= <-]. cbn [map]. rewrite (IH c1 eq_refl). reflexivity.
Qed.

Lemma upserted_unique id dev c :
  NoDup (map ID c) ->
  NoDup (map ID (mgo.upserted id (mongo.genDeviceAuthUpdate dev) c)).
Proof.
  intros Hnd. unfold mgo.upserted.
  destruct (mgo.update_one _ _ c) as [c'|] eqn:Hu.
  - rewrite (update_one_ids _ _ _ _ (set_genDeviceAuthUpdate_ID dev) Hu).
    exact Hnd.
  - apply update_one_None in Hu.
    rewrite map_app. cbn [map]. rewrite set_genDeviceAuthUpdate_ID.
    cbn [ID set_ID].
    apply NoDup_app; [exact Hnd | repeat constructor; intros [] |].
    intros a Ha [<- | []]. exact (find_None_not_In _ _ Hu Ha).
Qed.

Lemma appended_unique dev c :
  find (mgo.by_id (ID dev)) c = None ->
  NoDup (map ID c) -> NoDup (map ID (c ++ [dev])).
Proof.
  intros Hnone Hnd. rewrite map_app. cbn [map].
  apply NoDup_app; [exact Hnd | repeat constructor; intros [] |].
  intros a Ha [<- | []]. exact (find_None_not_In _ _ Hnone Ha).
Qed.

Lemma remove_one_sub p c c' x :
  mgo.remove_one p c = Some c' -> In x c' -> In x c.
Proof.
  revert c'. induction c as [|y c IH]; intros c'; cbn [mgo.remove_one];
    [discriminate|].
  destruct (p y).
  - intros [= <-] Hin. right. exact Hin.
  - destruct (mgo.remove_one p c) as [c1|]; cbn [option_map]; [|discriminate].
    intros [= <-] [-> | Hin]; [left; reflexivity | right; eauto].
Qed.

Lemma remove_one_ids_sub p c c' i :
  mgo.remove_one p c = Some c' -> In i (map ID c') -> In i (map ID c).
Proof.
  intros Hr Hin. apply in_map_iff in Hin. destruct Hin as (x & <- & Hx).
  apply in_map. exact (remove_one_sub _ _ _ _ Hr Hx).
Qed.

Lemma remove_one_unique p c c' :
  mgo.remove_one p c = Some c' -> NoDup (map ID c) -> NoDup (map ID c').
Proof.
  revert c'. induction c as [|y c IH]; intros c'; cbn [mgo.remove_one];
    [discriminate|].
  destruct (p y).
  - intros [= <-] Hnd. cbn [map] in Hnd. apply NoDup_cons_iff in Hnd.
    exact (proj2 Hnd).
  - destruct (mgo.remove_one p c) as [c1|] eqn:Hr; cbn [option_map];
      [|discriminate].
    intros [= <-] Hnd. cbn [map] in *. apply NoDup_cons_iff in Hnd.
    destruct Hnd as (Hnot & Hnd). constructor; [|exact (IH c1 eq_refl Hnd)].
    intros Hin. apply Hnot. exact (remove_one_ids_sub _ _ _ _ Hr Hin).
Qed.

Lemma filter_unique (p : DeviceAuth -> bool) c :
  NoDup (map ID c) -> NoDup (map ID (filter p c)).
Proof.
  induction c as [|y c IH]; cbn [filter map]; [trivial|].
  intros Hnd. apply NoDup_cons_iff in Hnd. destruct Hnd as (Hnot & Hnd).
  destruct (p y); [|exact (IH Hnd)].
  cbn [map]. constructor; [|exact (IH Hnd)].
  intros Hin. apply Hnot. apply in_map_iff in Hin.
  destruct Hin as (x & Hx & Hf). apply filter_In in Hf.
  rewrite <- Hx. apply in_map. exact (proj1 Hf).
Qed.

Lemma DeleteDeviceAuth_run env d id w :
  runState (devadm.DeleteDeviceAuth env d id) w =
  match mgo_fault env opRemove with
  | Some m =>
      (Some (Wrapped (Wrapped (External m) "failed to delete device")
                     "failed to delete device"),
       log_db opRemove w)
  | None =>
      match mgo.remove_one (mgo.by_id id) (devices w) with
      | Some c' => (None, with_devices c' (log_db opRemove w))
      | None => (Some store.ErrNotFound, log_db opRemove w)
      end
  end.
Proof.
  unfold devadm.DeleteDeviceAuth, mongo.DeleteDeviceAuth, mgo.Remove,
    mgo.issue, mgo.collection, mgo.store.
  run_state.
  destruct (mgo_fault env opRemove); run_state; [reflexivity|].
  cbn [devices log_db].
  destruct (mgo.remove_one _ (devices w)); reflexivity.
Qed.

Lemma DeleteDeviceData_run env d devid w :
  runState (devadm.DeleteDeviceData env d devid) w =
  match mgo_fault env opRemoveAll with
  | Some m => (None, log_db opRemoveAll w)
  | None =>
      let sel := mgo.by_example (set_DeviceId devid zero) in
      (match filter sel (devices w) with
       | [] => Some store.ErrNotFound
       | _ :: _ => None
       end,
       with_devices (filter (fun x => negb (sel x)) (devices w))
                    (log_db opRemoveAll w))
  end.
Proof.
  unfold devadm.DeleteDeviceData, mongo.DeleteDeviceAuthByDevice,
    mgo.RemoveAll, mgo.issue, mgo.collection, mgo.store.
  run_state.
  destruct (mgo_fault env opRemoveAll); run_state; [reflexivity|].
  cbn [devices log_db]. unfold mongo.DeleteDeviceAuthByDevice_result.
  cbn [mgo.Removed errors.Wrap].
  destruct (filter _ (devices w)) as [|x l]; [reflexivity|].
  replace (Z.of_nat (List.length (x :: l)) =? 0)%Z with false; [reflexivity|].
  symmetry. apply Z.eqb_neq. cbn [List.length]. lia.
Qed.

(** One operation of the engine keeps the ids of the collection distinct. *)
Lemma exec_unique env d op w :
  unique_ids w -> unique_ids (snd (runState (exec env d op) w)).
Proof.
  unfold unique_ids. intros Hnd.
  destruct op as [dev|i|i|i|authSet h|i|i]; cbn [exec].
  - destruct (SubmitDeviceAuth_devices env d dev w)
      as [(_ & ->) | (_ & ->)]; [exact Hnd | apply upserted_unique, Hnd].
  - unfold devadm.AcceptDeviceAuth.
    destruct (updateDeviceAuthStatus_cases env d i DevStatusAccepted w)
      as [(_ & ->) | (_ & dev & _ & -> & _)];
      [exact Hnd | apply upserted_unique, Hnd].
  - unfold devadm.RejectDeviceAuth.
    destruct (updateDeviceAuthStatus_cases env d i DevStatusRejected w)
      as [(_ & ->) | (_ & dev & _ & -> & _)];
      [exact Hnd | apply upserted_unique, Hnd].
  - destruct (AcceptDevicePreAuth_cases env d i w)
      as [(_ & ->) | (_ & dev & _ & _ & -> & _)];
      [exact Hnd | apply upserted_unique, Hnd].
  - destruct (PreauthorizeDevice_cases env d authSet h w)
      as [-> | (-> & Hnone & _)]; [exact Hnd|].
    apply appended_unique; assumption.
  - rewrite DeleteDeviceAuth_run.
    destruct (mgo_fault env opRemove); [exact Hnd|].
    destruct (mgo.remove_one _ (devices w)) as [c'|] eqn:Hr; [|exact Hnd].
    cbn [snd devices with_devices]. exact (remove_one_unique _ _ _ Hr Hnd).
  - rewrite DeleteDeviceData_run.
    destruct (mgo_fault env opRemoveAll); [exact Hnd|].
    cbn [snd devices with_devices]. apply filter_unique, Hnd.
Qed.

(** X1. The unique index is an invariant of the engine: along any history
    of operations, each in an environment of its own (failing driver,
    failing remote, colliding ObjectIds included), a collection whose
    records have distinct ids keeps distinct ids. *)
Theorem X1_unique_ids_invariant :
  forall d steps w,
    unique_ids w -> unique_ids (run d steps w).
Proof.
  intros d steps. induction steps as [|[env op] steps IH]; intros w Hu;
    cbn [run]; [exact Hu|].
  apply IH, exec_unique, Hu.
Qed.

Lemma X1_unique_ids_invariant_witness :
  unique_ids
    (run Scenario.app
         [(Scenario.healthy 200, Submit Scenario.resubmission_a);
          (Scenario.healthy 300, Preauthorize Scenario.authSet_x "Bearer t");
          (Scenario.failing 400, Accept "p");
          (Scenario.healthy 500, Delete "a")]
         Scenario.world).
Proof.
  apply X1_unique_ids_invariant.
  unfold unique_ids. cbn. repeat constructor; cbn; intuition discriminate.
Defined.

(* ================================================================== *)
(** ** Deletion *)
(* ================================================================== *)

Lemma remove_one_None p c :
  mgo.remove_one p c = None <-> find p c = None.
Proof.
  induction c as [|x c IH]; cbn [mgo.remove_one find]; [tauto|].
  destruct (p x); [split; discriminate|].
  destruct (mgo.remove_one p c); cbn [option_map].
  - split; [discriminate|]. intros H. apply IH in H. discriminate.
  - split; [|reflexivity]. intros _. apply IH. reflexivity.
Qed.

Lemma find_remove_one_other id id' c c' :
  id' <> id ->
  mgo.remove_one (mgo.by_id id) c = Some c' ->
  find (mgo.by_id id') c' = find (mgo.by_id id') c.
Proof.
  intros Hne. revert c'.
  induction c as [|x c IH]; intros c'; cbn [mgo.remove_one]; [discriminate|].
  destruct (mgo.by_id id x) eqn:Hx.
  - intros [= <-]. cbn [find].
    replace (mgo.by_id id' x) with false; [reflexivity|].
    symmetry. apply by_id_false. apply by_id_true in Hx. congruence.
  - destruct (mgo.remove_one (mgo.by_id id) c) as [c1|]; cbn [option_map];
      [|discriminate].
    intros [= <-]. cbn [find]. rewrite (IH c1 eq_refl). reflexivity.
Qed.

Lemma find_remove_one_same id c c' :
  NoDup (map ID c) ->
  mgo.remove_one (mgo.by_id id) c = Some c' ->
  find (mgo.by_id id) c' = None.
Proof.
  revert c'. induction c as [|x c IH]; intros c' Hnd; cbn [mgo.remove_one];
    [discriminate|].
  cbn [map] in Hnd. apply NoDup_cons_iff in Hnd. destruct Hnd as (Hnot & Hnd).
  destruct (mgo.by_id id x) eqn:Hx.
  - intros [= <-]. apply by_id_true in Hx.
    destruct (find (mgo.by_id id) c) as [r|] eqn:Hf; [|reflexivity].
    exfalso. apply Hnot. rewrite Hx, <- (find_by_id_ID _ _ _ Hf).
    apply in_map. apply find_some in Hf. exact (proj1 Hf).
  - destruct (mgo.remove_one (mgo.by_id id) c) as [c1|]; cbn [option_map];
      [|discriminate].
    intros [= <-]. cbn [find]. rewrite Hx. exact (IH c1 Hnd eq_refl).
Qed.

(** X2. DeleteDeviceAuth: on an absent record it reports the store's
    not-found error as it is and changes nothing; on a stored record it
    succeeds, after which the id is no longer found (the ids being
    distinct) and every other record is found as before; a failure of the
    driver is returned wrapped, by the store and by the engine, and
    nothing is removed. *)
Theorem X2_delete_reports_not_found :
  forall env d id w,
    let err := fst (runState (devadm.DeleteDeviceAuth env d id) w) in
    let w' := snd (runState (devadm.DeleteDeviceAuth env d id) w) in
    (mgo_fault env opRemove = None ->
     stored id w = None ->
     err = Some store.ErrNotFound /\ devices w' = devices w)
    /\ (forall r,
        mgo_fault env opRemove = None ->
        stored id w = Some r ->
        err = None
        /\ (unique_ids w -> stored id w' = None)
        /\ (forall id', id' <> id -> stored id' w' = stored id' w))
    /\ (forall m,
        mgo_fault env opRemove = Some m ->
        err = Some (Wrapped (Wrapped (External m) "failed to delete device")
                            "failed to delete device")
        /\ devices w' = devices w).
Proof.
  intros env d id w. cbn zeta. rewrite DeleteDeviceAuth_run.
  split; [|split].
  - intros -> Hst. unfold stored in Hst.
    rewrite (proj2 (remove_one_None _ _) Hst). split; reflexivity.
  - intros r -> Hst. unfold stored in *.
    destruct (mgo.remove_one (mgo.by_id id) (devices w)) as [c'|] eqn:Hr.
    + cbn [fst snd devices with_devices]. split; [reflexivity|]. split.
      * intros Hu. exact (find_remove_one_same _ _ _ Hu Hr).
      * intros id' Hne. exact (find_remove_one_other _ _ _ _ Hne Hr).
    + apply remove_one_None in Hr. congruence.
  - intros m ->. split; reflexivity.
Qed.

Lemma X2_delete_reports_not_found_witness :
  fst (runState (devadm.DeleteDeviceAuth (Scenario.healthy 7) Scenario.app
                   "zz") Scenario.world)
  = Some store.ErrNotFound
  /\ devices (snd (runState (devadm.DeleteDeviceAuth (Scenario.healthy 7)
                               Scenario.app "zz") Scenario.world))
     = devices Scenario.world.
Proof.
  apply (proj1 (X2_delete_reports_not_found
                  (Scenario.healthy 7) Scenario.app "zz" Scenario.world));
    reflexivity.
Defined.

Lemma by_example_device devid x :
  devid <> "" ->
  mgo.by_example (set_DeviceId devid zero) x = String.eqb devid (DeviceId x).
Proof.
  intros Hne. apply String.eqb_neq in Hne.
  unfold mgo.by_example, mgo.sel_string.
  cbn [ID DeviceId DeviceIdentity Key Status Attributes RequestTime
       set_DeviceId zero String.eqb andb].
  rewrite Hne. rewrite !andb_true_r. reflexivity.
Qed.

Lemma by_example_zero x : mgo.by_example zero x = true.
Proof. reflexivity. Qed.

(** X3. DeleteDeviceData of a device id that is not empty, the driver
    working: the collection afterwards is the former one without the
    records of that device, in the same order; so no record of the device
    is left and the records of the other devices are all kept.  The call
    returns nil when it removed a record and the not-found error when the
    device had none. *)
Theorem X3_delete_device_data_removes_device :
  forall env d devid w,
    devid <> "" ->
    mgo_fault env opRemoveAll = None ->
    let err := fst (runState (devadm.DeleteDeviceData env d devid) w) in
    let w' := snd (runState (devadm.DeleteDeviceData env d devid) w) in
    devices w'
      = filter (fun x => negb (String.eqb devid (DeviceId x))) (devices w)
    /\ (forall x, In x (devices w') <->
                  In x (devices w) /\ DeviceId x <> devid)
    /\ (err = None <-> exists x, In x (devices w) /\ DeviceId x = devid)
    /\ (err = Some store.ErrNotFound <->
        forall x, In x (devices w) -> DeviceId x <> devid).
Proof.
  intros env d devid w Hne Hf. cbn zeta.
  rewrite DeleteDeviceData_run, Hf. cbn zeta. cbn [fst snd devices with_devices].
  rewrite (filter_ext _ _ (fun x => by_example_device devid x Hne)).
  rewrite (filter_ext (fun x => negb (mgo.by_example (set_DeviceId devid zero) x))
             (fun x => negb (String.eqb devid (DeviceId x)))
             (fun x => f_equal negb (by_example_device devid x Hne))).
  split; [reflexivity|]. split; [|split].
  - intros x. rewrite filter_In, negb_true_iff, String.eqb_neq.
    split; intros (H1 & H2); split; congruence.
  - destruct (filter _ (devices w)) as [|x l] eqn:Hfil.
    + split; [discriminate|]. intros (x & Hin & Hx). exfalso.
      assert (Hx' : In x (filter (fun x => String.eqb devid (DeviceId x))
                                 (devices w))).
      { apply filter_In. split; [exact Hin|]. apply String.eqb_eq. congruence. }
      rewrite Hfil in Hx'. exact Hx'.
    + split; [|reflexivity]. intros _. exists x.
      assert (Hx : In x (filter (fun x => String.eqb devid (DeviceId x))
                                (devices w)))
        by (rewrite Hfil; left; reflexivity).
      apply filter_In in Hx. destruct Hx as (Hin & Heq).
      apply String.eqb_eq in Heq. split; congruence.
  - destruct (filter _ (devices w)) as [|x l] eqn:Hfil.
    + split; [|reflexivity]. intros _ x Hin Hx.
      assert (Hx' : In x (filter (fun x => String.eqb devid (DeviceId x))
                                 (devices w))).
      { apply filter_In. split; [exact Hin|]. apply String.eqb_eq. congruence. }
      rewrite Hfil in Hx'. exact Hx'.
    + split; [discriminate|]. intros Hall. exfalso.
      assert (Hx : In x (filter (fun x => String.eqb devid (DeviceId x))
                                (devices w)))
        by (rewrite Hfil; left; reflexivity).
      apply filter_In in Hx. destruct Hx as (Hin & Heq).
      apply String.eqb_eq in Heq. exact (Hall x Hin (eq_sym Heq)).
Qed.

Lemma X3_delete_device_data_removes_device_witness :
  devices (snd (runState (devadm.DeleteDeviceData (Scenario.healthy 7)
                            Scenario.app "dev-a") Scenario.world))
  = [Scenario.preauth_p].
Proof.
  apply (proj1 (X3_delete_device_data_removes_device
                  (Scenario.healthy 7) Scenario.app "dev-a" Scenario.world
                  ltac:(discriminate) eq_refl)).
Defined.

(** X4. DeleteDeviceData of the empty device id: the filter built from it
    has no field, so it selects every document; with the driver working
    the whole collection is removed. *)
Theorem X4_delete_device_data_empty_id_removes_all :
  forall env d w,
    mgo_fault env opRemoveAll = None ->
    devices (snd (runState (devadm.DeleteDeviceData env d "") w)) = []
    /\ (devices w <> [] ->
        fst (runState (devadm.DeleteDeviceData env d "") w) = None).
Proof.
  intros env d w Hf. rewrite DeleteDeviceData_run, Hf. cbn zeta.
  cbn [fst snd devices with_devices].
  change (set_DeviceId "" zero) with zero.
  split.
  - induction (devices w) as [|x c IH]; cbn [filter]; [reflexivity|].
    rewrite by_example_zero. exact IH.
  - intros Hne. destruct (devices w) as [|x c]; [contradiction|].
    cbn [filter]. rewrite by_example_zero. reflexivity.
Qed.

Lemma X4_delete_device_data_empty_id_removes_all_witness :
  devices (snd (runState (devadm.DeleteDeviceData (Scenario.healthy 7)
                            Scenario.app "") Scenario.world)) = []
  /\ (devices Scenario.world <> [] ->
      fst (runState (devadm.DeleteDeviceData (Scenario.healthy 7)
                       Scenario.app "") Scenario.world) = None).
Proof.
  apply (X4_delete_device_data_empty_id_removes_all
           (Scenario.healthy 7) Scenario.app Scenario.world eq_refl).
Defined.

(* ================================================================== *)
(** ** Submission *)
(* ================================================================== *)

(** The document that an upsert inserts for a record is the record. *)
Lemma set_genDeviceAuthUpdate_new x :
  mgo.set (mongo.genDeviceAuthUpdate x) (set_ID (ID x) zero) = x.
Proof.
  destruct (genDeviceAuthUpdate_fields x)
    as (Hi & Hdi & Hs & Hk & Hident & Ha & Ht).
  unfold mgo.set, mgo.set_string.
  rewrite Hi, Hdi, Hs, Hk, Hident, Ha, Ht.
  destruct x as [i di ident k s a t].
  cbn [ID DeviceId DeviceIdentity Key Status Attributes RequestTime
       set_ID zero String.eqb].
  destruct (String.eqb_spec di ""), (String.eqb_spec ident ""),
    (String.eqb_spec k ""), (String.eqb_spec s ""), a, t; subst; reflexivity.
Qed.

Lemma upserted_new x c :
  find (mgo.by_id (ID x)) c = None ->
  mgo.upserted (ID x) (mongo.genDeviceAuthUpdate x) c = (c ++ [x])%list.
Proof.
  intros Hnone. unfold mgo.upserted.
  rewrite (proj2 (update_one_None _ _ _) Hnone).
  rewrite set_genDeviceAuthUpdate_new. reflexivity.
Qed.

Lemma SubmitDeviceAuth_quiet env d dev w :
  let w' := snd (runState (devadm.SubmitDeviceAuth env d dev) w) in
  authcalls w' = authcalls w /\ wire w' = wire w.
Proof.
  cbn zeta. unfold devadm.SubmitDeviceAuth. run_state.
  rewrite PutDeviceAuth_run.
  destruct (mgo_fault env opEnsureIndex); [split; reflexivity|].
  cbn zeta. destruct (mgo_fault env opUpsert); split; reflexivity.
Qed.

(** X5. Submission of an auth set whose id is not in the store, when it
    succeeds: the record submitted, stamped with the current time, is
    appended to the collection and is what a lookup of its id finds; the
    remote authenticator is not called. *)
Theorem X5_submit_then_lookup :
  forall env d dev w,
    stored (ID dev) w = None ->
    fst (runState (devadm.SubmitDeviceAuth env d dev) w) = None ->
    let w' := snd (runState (devadm.SubmitDeviceAuth env d dev) w) in
    let rec := set_RequestTime (Some (time_Now env)) dev in
    devices w' = (devices w ++ [rec])%list
    /\ fst (runState (devadm.GetDeviceAuth env d (ID dev)) w')
       = match mgo_fault env opFindOne with
         | Some m => inr (Wrapped (External m) "failed to fetch device")
         | None => inl rec
         end
    /\ authcalls w' = authcalls w.
Proof.
  intros env d dev w Hnone Hok. cbn zeta.
  destruct (SubmitDeviceAuth_devices env d dev w)
    as [(Herr & _) | (_ & Hd)]; [contradiction|].
  assert (Happ : devices (snd (runState (devadm.SubmitDeviceAuth env d dev) w))
                 = (devices w ++ [set_RequestTime (Some (time_Now env)) dev])%list).
  { rewrite Hd.
    apply (upserted_new (set_RequestTime (Some (time_Now env)) dev)).
    exact Hnone. }
  split; [exact Happ|]. split.
  - unfold devadm.GetDeviceAuth. run_state. rewrite GetDeviceAuth_run.
    destruct (mgo_fault env opFindOne); [reflexivity|].
    unfold stored in *. rewrite Happ, find_app_by_id, Hnone.
    replace (mgo.by_id (ID dev) _) with true; [reflexivity|].
    symmetry. apply by_id_true. reflexivity.
  - apply SubmitDeviceAuth_quiet.
Qed.

Lemma X5_submit_then_lookup_witness :
  devices (snd (runState (devadm.SubmitDeviceAuth (Scenario.healthy 9)
                            Scenario.app Scenario.resubmission_a)
                         Scenario.empty_world))
  = [set_RequestTime (Some 9%Z) Scenario.resubmission_a]
  /\ fst (runState (devadm.GetDeviceAuth (Scenario.healthy 9) Scenario.app "a")
            (snd (runState (devadm.SubmitDeviceAuth (Scenario.healthy 9)
                              Scenario.app Scenario.resubmission_a)
                           Scenario.empty_world)))
     = inl (set_RequestTime (Some 9%Z) Scenario.resubmission_a)
  /\ authcalls (snd (runState (devadm.SubmitDeviceAuth (Scenario.healthy 9)
                                 Scenario.app Scenario.resubmission_a)
                              Scenario.empty_world))
     = [].
Proof.
  apply (X5_submit_then_lookup (Scenario.healthy 9) Scenario.app
           Scenario.resubmission_a Scenario.empty_world);
    reflexivity.
Defined.

(* ================================================================== *)
(** ** Accept and Reject: success and failure *)
(* ================================================================== *)

(** What a successful [updateDeviceAuthStatus] did. *)
Lemma updateDeviceAuthStatus_success env d id status w dev w' :
  status <> "" ->
  stored id w = Some dev ->
  runState (devadm.updateDeviceAuthStatus env d id status) w = (None, w') ->
  stored id w' = Some (set_Status status dev)
  /\ authcalls w'
     = (authcalls w
        ++ [CallUpdateDevice
              (StatusReq.mk (DeviceId dev) (ID dev) status)])%list.
Proof.
  intros Hne Hst Hr.
  destruct (updateDeviceAuthStatus_cases env d id status w)
    as [(Herr & _) | (_ & dev' & Hst' & Hdev & Hcalls)];
    rewrite Hr in *; cbn [fst snd] in *; [congruence|].
  assert (dev' = dev) by congruence. subst dev'.
  split; [|exact Hcalls].
  unfold stored. rewrite Hdev, find_upserted, String.eqb_refl.
  fold (stored id w). rewrite Hst, set_status_update by exact Hne.
  reflexivity.
Qed.

Lemma exec_update env d op id :
  op = Accept id \/ op = Reject id ->
  exec env d op = devadm.updateDeviceAuthStatus env d id (target op)
  /\ target op <> "".
Proof. intros [-> | ->]; split; try reflexivity; discriminate. Qed.

(** X6. A new auth set is submitted and then accepted, both with success,
    whatever else the two environments do: the stored record is the one
    submitted, stamped with the time of the submission, with status
    accepted; the remote authenticator was called once in all, with the
    device id and the id of the record and the status accepted. *)
Theorem X6_submit_then_accept :
  forall env1 env2 d dev w w1 w2,
    stored (ID dev) w = None ->
    runState (exec env1 d (Submit dev)) w = (None, w1) ->
    runState (exec env2 d (Accept (ID dev))) w1 = (None, w2) ->
    stored (ID dev) w2
      = Some (set_Status DevStatusAccepted
                (set_RequestTime (Some (time_Now env1)) dev))
    /\ authcalls w2
       = (authcalls w
          ++ [CallUpdateDevice
                (StatusReq.mk (DeviceId dev) (ID dev) DevStatusAccepted)])%list.
Proof.
  intros env1 env2 d dev w w1 w2 Hnone Hsub Hacc. cbn [exec] in *.
  destruct (SubmitDeviceAuth_devices env1 d dev w)
    as [(Herr & _) | (_ & Hd)]; rewrite Hsub in *; cbn [fst snd] in *;
    [congruence|].
  rewrite (upserted_new (set_RequestTime (Some (time_Now env1)) dev)) in Hd
    by exact Hnone.
  assert (Hst1 : stored (ID dev) w1
                 = Some (set_RequestTime (Some (time_Now env1)) dev)).
  { unfold stored in *. rewrite Hd, find_app_by_id, Hnone.
    replace (mgo.by_id (ID dev) _) with true; [reflexivity|].
    symmetry. apply by_id_true. reflexivity. }
  destruct (updateDeviceAuthStatus_success env2 d (ID dev) DevStatusAccepted
              w1 _ w2 ltac:(discriminate) Hst1 Hacc) as (Hst2 & Hcalls).
  split; [exact Hst2|].
  rewrite Hcalls.
  pose proof (SubmitDeviceAuth_quiet env1 d dev w) as Hq.
  cbn zeta in Hq. rewrite Hsub in Hq. cbn [snd] in Hq.
  rewrite (proj1 Hq). reflexivity.
Qed.

Lemma X6_submit_then_accept_witness :
  stored "a"
    (snd (runState (exec (Scenario.healthy 20) Scenario.app (Accept "a"))
            (snd (runState (exec (Scenario.healthy 9) Scenario.app
                                 (Submit Scenario.resubmission_a))
                           Scenario.empty_world))))
  = Some (set_Status DevStatusAccepted
            (set_RequestTime (Some 9%Z) Scenario.resubmission_a))
  /\ authcalls
       (snd (runState (exec (Scenario.healthy 20) Scenario.app (Accept "a"))
               (snd (runState (exec (Scenario.healthy 9) Scenario.app
                                    (Submit Scenario.resubmission_a))
                              Scenario.empty_world))))
     = [CallUpdateDevice (StatusReq.mk "" "a" DevStatusAccepted)].
Proof.
  apply (X6_submit_then_accept
           (Scenario.healthy 9) (Scenario.healthy 20) Scenario.app
           Scenario.resubmission_a Scenario.empty_world
           (snd (runState (exec (Scenario.healthy 9) Scenario.app
                                (Submit Scenario.resubmission_a))
                          Scenario.empty_world)));
    reflexivity.
Defined.

(** X7. Accept and Reject succeed exactly when the lookup works and finds
    the record, the remote status update returns nil, and neither the
    index check nor the upsert fails.  The status the record has before
    plays no part: the engine does not check it. *)
Theorem X7_accept_reject_success_condition :
  forall env d op id w,
    op = Accept id \/ op = Reject id ->
    (fst (runState (exec env d op) w) = None
     <-> mgo_fault env opFindOne = None
         /\ mgo_fault env opEnsureIndex = None
         /\ mgo_fault env opUpsert = None
         /\ exists dev,
             stored id w = Some dev
             /\ fst (runState
                       (deviceauth.UpdateDevice env
                          (deviceauth.NewClient (devadm.authclientconf d))
                          (StatusReq.mk (DeviceId dev) (ID dev) (target op)))
                       (log_db opFindOne w))
                = None).
Proof.
  intros env d op id w Hop.
  destruct (exec_update env d op id Hop) as (-> & _).
  rewrite updateDeviceAuthStatus_run, GetDeviceAuth_run. cbn [fst snd].
  destruct (mgo_fault env opFindOne) as [m|].
  { cbn. split; [discriminate | intros (H & _); discriminate]. }
  destruct (stored id w) as [dev|].
  2:{ cbn. split; [discriminate|].
      intros (_ & _ & _ & dev & H & _). discriminate. }
  cbn zeta. rewrite propagateDeviceAuthUpdate_run.
  cbn [ID DeviceId Status set_Status fst snd].
  destruct (runState (deviceauth.UpdateDevice _ _ _) (log_db opFindOne w))
    as [[e|] w2] eqn:Hupd; cbn [fst snd].
  { split.
    - destruct (utils.IsUsageError e); discriminate.
    - intros (_ & _ & _ & dev' & [= <-] & H).
      rewrite Hupd in H. discriminate. }
  rewrite PutDeviceAuth_run.
  destruct (mgo_fault env opEnsureIndex).
  { cbn. split; [discriminate | intros (_ & H & _); discriminate]. }
  cbn zeta. destruct (mgo_fault env opUpsert).
  { cbn. split; [discriminate | intros (_ & _ & H & _); discriminate]. }
  cbn [fst]. split; [|reflexivity].
  intros _. repeat split. exists dev.
  split; [reflexivity | rewrite Hupd; reflexivity].
Qed.

Lemma X7_accept_reject_success_condition_witness :
  fst (runState (exec (Scenario.healthy 7) Scenario.app (Reject "p"))
                Scenario.world) = None.
Proof.
  apply (proj2 (X7_accept_reject_success_condition
                  (Scenario.healthy 7) Scenario.app (Reject "p") "p"
                  Scenario.world (or_intror eq_refl))).
  repeat split. exists Scenario.preauth_p. split; reflexivity.
Defined.

(** X8. Accept and Reject return the error of the lookup as the store
    gives it: the store's not-found error for an absent record (it is not
    translated into the engine's own not-found error) and the wrapped
    failure of the driver otherwise.  In both cases the call has only read
    the collection. *)
Theorem X8_accept_reject_lookup_error :
  forall env d op id w,
    op = Accept id \/ op = Reject id ->
    let err := fst (runState (exec env d op) w) in
    let w' := snd (runState (exec env d op) w) in
    (mgo_fault env opFindOne = None ->
     stored id w = None ->
     err = Some store.ErrNotFound /\ only_read opFindOne w w')
    /\ (forall m,
        mgo_fault env opFindOne = Some m ->
        err = Some (Wrapped (External m) "failed to fetch device")
        /\ only_read opFindOne w w').
Proof.
  intros env d op id w Hop. cbn zeta.
  destruct (exec_update env d op id Hop) as (-> & _).
  rewrite updateDeviceAuthStatus_run, GetDeviceAuth_run. cbn [fst snd].
  assert (Hro : only_read opFindOne w (log_db opFindOne w))
    by (repeat split; reflexivity).
  split.
  - intros -> ->. split; [reflexivity | exact Hro].
  - intros m ->. split; [reflexivity | exact Hro].
Qed.

Lemma X8_accept_reject_lookup_error_witness :
  fst (runState (exec (Scenario.healthy 7) Scenario.app (Accept "zz"))
                Scenario.world)
  = Some store.ErrNotFound
  /\ only_read opFindOne Scenario.world
       (snd (runState (exec (Scenario.healthy 7) Scenario.app (Accept "zz"))
                      Scenario.world)).
Proof.
  apply (proj1 (X8_accept_reject_lookup_error
                  (Scenario.healthy 7) Scenario.app (Accept "zz") "zz"
                  Scenario.world (or_introl eq_refl)));
    reflexivity.
Defined.

(** X9. The window between propagation and persistence: when the lookup
    of an Accept or a Reject returned the record, the remote status update
    returned nil and the store update then fails with [e], the operation
    returns [e] as it is; the remote authenticator has been told the new
    status once, and the collection still holds the old one. *)
Theorem X9_persistence_failure_after_propagation :
  forall env d op id w dev w1 w2 e w3,
    op = Accept id \/ op = Reject id ->
    runState (mongo.GetDeviceAuth env id) w = (inl dev, w1) ->
    runState (deviceauth.UpdateDevice env
                (deviceauth.NewClient (devadm.authclientconf d))
                (StatusReq.mk (DeviceId dev) (ID dev) (target op))) w1
      = (None, w2) ->
    runState (mongo.PutDeviceAuth env
                (set_Status (target op)
                   (set_DeviceId (DeviceId dev) (set_ID (ID dev) zero)))) w2
      = (Some e, w3) ->
    runState (exec env d op) w = (Some e, w3)
    /\ devices w3 = devices w
    /\ stored id w3 = Some dev
    /\ authcalls w3
       = (authcalls w
          ++ [CallUpdateDevice
                (StatusReq.mk (DeviceId dev) (ID dev) (target op))])%list.
Proof.
  intros env d op id w dev w1 w2 e w3 Hop Hget Hupd Hput.
  destruct (exec_update env d op id Hop) as (-> & _).
  pose proof (UpdateDevice_frame env
                (deviceauth.NewClient (devadm.authclientconf d))
                (StatusReq.mk (DeviceId dev) (ID dev) (target op)) w1) as Hfr.
  cbn zeta in Hfr. rewrite Hupd in Hfr. cbn [snd] in Hfr.
  destruct Hfr as (Hd2 & _ & _ & Hc2).
  assert (Hw1 : w1 = log_db opFindOne w /\ stored id w = Some dev).
  { rewrite GetDeviceAuth_run in Hget. injection Hget as Hres <-.
    split; [reflexivity|].
    destruct (mgo_fault env opFindOne); [discriminate|].
    destruct (stored id w); [congruence | discriminate]. }
  destruct Hw1 as (-> & Hst). cbn [devices authcalls log_db] in Hd2, Hc2.
  assert (Hw3 : devices w3 = devices w2 /\ authcalls w3 = authcalls w2).
  { rewrite PutDeviceAuth_run in Hput.
    destruct (mgo_fault env opEnsureIndex);
      [injection Hput as _ <-; split; reflexivity|].
    cbn zeta in Hput.
    destruct (mgo_fault env opUpsert);
      [injection Hput as _ <-; split; reflexivity | discriminate]. }
  destruct Hw3 as (Hd3 & Hc3).
  split; [|split; [|split]].
  - rewrite updateDeviceAuthStatus_run, Hget. cbn [fst snd].
    rewrite propagateDeviceAuthUpdate_run.
    cbn [ID DeviceId Status set_Status]. rewrite Hupd. cbn [fst snd].
    exact Hput.
  - congruence.
  - unfold stored in *. rewrite Hd3, Hd2. exact Hst.
  - congruence.
Qed.

Lemma X9_persistence_failure_after_propagation_witness :
  let env := mkEnv (fun op => match op with
                              | opUpsert => Some "connection reset"
                              | _ => None
                              end)
                   Scenario.ObjectIdHex 7 7 Scenario.Marshal
                   Scenario.NewRequest
                   (fun _ _ => inl (http.mkResponse 204 "204 No Content" ""))
                   Scenario.Parse in
  fst (runState (exec env Scenario.app (Accept "a")) Scenario.world)
  = Some (Wrapped (External "connection reset") "failed to store device")
  /\ stored "a" (snd (runState (exec env Scenario.app (Accept "a"))
                               Scenario.world))
     = Some Scenario.pending_a
  /\ authcalls (snd (runState (exec env Scenario.app (Accept "a"))
                              Scenario.world))
     = [CallUpdateDevice (StatusReq.mk "dev-a" "a" DevStatusAccepted)].
Proof.
  intros env.
  destruct (X9_persistence_failure_after_propagation
              env Scenario.app (Accept "a") "a" Scenario.world
              Scenario.pending_a
              (log_db opFindOne Scenario.world)
              (snd (runState
                      (deviceauth.UpdateDevice env
                         (deviceauth.NewClient
                            (devadm.authclientconf Scenario.app))
                         (StatusReq.mk "dev-a" "a" DevStatusAccepted))
                      (log_db opFindOne Scenario.world)))
              (Wrapped (External "connection reset") "failed to store device")
              (snd (runState (exec env Scenario.app (Accept "a"))
                             Scenario.world))
              (or_introl eq_refl) eq_refl eq_refl eq_refl)
    as (Hrun & _ & Hst & Hcalls).
  split; [rewrite Hrun; reflexivity|]. split; [exact Hst | exact Hcalls].
Defined.

(* ================================================================== *)
(** ** The pre-authorization flow *)
(* ================================================================== *)

Lemma AcceptDevicePreAuth_run env d id w :
  runState (devadm.AcceptDevicePreAuth env d id) w =
  let w1 := log_db opFindOne w in
  match mgo_fault env opFindOne with
  | Some m =>
      (Some (Wrapped (Wrapped (External m) "failed to fetch device")
                     "failed to fetch auth set"), w1)
  | None =>
      match stored id w with
      | None => (Some (Sentinel ErrAuthNotFound), w1)
      | Some dev =>
          if String.eqb (Status dev) DevStatusPreauthorized
          then
            let r := runState (mongo.UpdateDeviceAuth env
                                 (set_Status DevStatusAccepted
                                    (set_ID (ID dev) zero))) w1 in
            (errors.Wrap (fst r) "failed to update auth set", snd r)
          else (Some (Sentinel ErrNotPreauthorized), w1)
      end
  end.
Proof.
  unfold devadm.AcceptDevicePreAuth. run_state. rewrite GetDeviceAuth_run.
  destruct (mgo_fault env opFindOne); [reflexivity|].
  destruct (stored id w) as [dev|]; [|reflexivity].
  destruct (String.eqb (Status dev) DevStatusPreauthorized); cbn [negb];
    [|reflexivity].
  run_state.
  destruct (runState (mongo.UpdateDeviceAuth env _) (log_db opFindOne w))
    as [[e|] w2]; reflexivity.
Qed.

(** X10. AcceptDevicePreAuth succeeds exactly when the lookup works and
    finds a record whose status is "preauthorized", and neither the index
    check nor the update fails.  Then the stored record is the former one
    with status accepted, and the driver was asked for a lookup, the index
    and an update, in that order. *)
Theorem X10_accept_preauth_success_condition :
  forall env d id w,
    let err := fst (runState (devadm.AcceptDevicePreAuth env d id) w) in
    let w' := snd (runState (devadm.AcceptDevicePreAuth env d id) w) in
    (err = None
     <-> mgo_fault env opFindOne = None
         /\ mgo_fault env opEnsureIndex = None
         /\ mgo_fault env opUpdate = None
         /\ exists dev,
             stored id w = Some dev
             /\ Status dev = DevStatusPreauthorized)
    /\ (err = None ->
        forall dev,
          stored id w = Some dev ->
          stored id w' = Some (set_Status DevStatusAccepted dev)
          /\ dblog w'
             = (dblog w ++ [opFindOne; opEnsureIndex; opUpdate])%list).
Proof.
  intros env d id w. cbn zeta. rewrite AcceptDevicePreAuth_run. cbn zeta.
  destruct (mgo_fault env opFindOne) as [m|].
  { cbn [fst]. split; [|discriminate].
    split; [discriminate | intros (H & _); discriminate]. }
  destruct (stored id w) as [dev|] eqn:Hst.
  2:{ cbn [fst]. split; [|discriminate].
      split; [discriminate|]. intros (_ & _ & _ & x & H & _). discriminate. }
  destruct (String.eqb_spec (Status dev) DevStatusPreauthorized) as [Hpre|Hpre].
  2:{ cbn [fst]. split; [|discriminate].
      split; [discriminate|].
      intros (_ & _ & _ & x & [= <-] & H). contradiction. }
  rewrite UpdateDeviceAuth_run. cbn [ID set_Status set_ID zero].
  destruct (mgo_fault env opEnsureIndex).
  { cbn. split; [|discriminate].
    split; [discriminate | intros (_ & H & _); discriminate]. }
  cbn zeta. destruct (mgo_fault env opUpdate).
  { cbn. split; [|discriminate].
    split; [discriminate | intros (_ & _ & H & _); discriminate]. }
  cbn [devices log_db].
  pose proof (stored_ID _ _ _ Hst) as Hid.
  destruct (mgo.update_one (mgo.by_id (ID dev)) _ (devices w)) as [c'|] eqn:Hu.
  - cbn [fst snd errors.Wrap]. split.
    + split; [|reflexivity]. intros _. repeat split.
      exists dev. split; [reflexivity | exact Hpre].
    + intros _ x [= <-]. split.
      * unfold stored. cbn [devices with_devices].
        rewrite (find_update_one _ id _ _ _
                   (set_genDeviceAuthUpdate_ID
                      (set_Status DevStatusAccepted (set_ID (ID dev) zero)))
                   Hu).
        rewrite Hid, String.eqb_refl. fold (stored id w). rewrite Hst.
        cbn [option_map]. rewrite <- Hid at 1.
        rewrite set_accepted_update. reflexivity.
      * cbn [dblog with_devices log_db]. rewrite <- !app_assoc. reflexivity.
  - exfalso. apply update_one_None in Hu. unfold stored in Hst.
    rewrite Hid in Hu. congruence.
Qed.

Lemma X10_accept_preauth_success_condition_witness :
  stored "p" (snd (runState (devadm.AcceptDevicePreAuth (Scenario.healthy 7)
                               Scenario.app "p") Scenario.world))
  = Some (set_Status DevStatusAccepted Scenario.preauth_p)
  /\ dblog (snd (runState (devadm.AcceptDevicePreAuth (Scenario.healthy 7)
                             Scenario.app "p") Scenario.world))
     = [opFindOne; opEnsureIndex; opUpdate].
Proof.
  apply (proj2 (X10_accept_preauth_success_condition
                  (Scenario.healthy 7) Scenario.app "p" Scenario.world)
               eq_refl Scenario.preauth_p eq_refl).
Defined.

(** What a successful [PreauthorizeDevice] did. *)
Lemma PreauthorizeDevice_success env d authSet h w w' :
  runState (devadm.PreauthorizeDevice env d authSet h) w = (None, w') ->
  let dev := set_DeviceId (ObjectIdHex env (S (objectids w)))
               (set_ID (ObjectIdHex env (objectids w))
                  (devadm.preauthorized_record env authSet)) in
  devices w' = (devices w ++ [dev])%list
  /\ stored (ID dev) w = None
  /\ authcalls w'
     = (authcalls w
        ++ [CallPreauthorizeDevice
              (PreAuthReq.mk (DeviceId dev) (ID dev) (DeviceIdentity dev)
                             (Key dev)) h])%list.
Proof.
  cbn zeta. unfold devadm.PreauthorizeDevice. run_state.
  rewrite GetDeviceAuthsByIdentityData_run.
  destruct (mgo_fault env opFindAll); cbn [fst snd errors.Wrap];
    [discriminate|].
  destruct (filter _ (devices w)) as [|x l];
    cbn [List.length Nat.ltb Nat.leb]; [|discriminate].
  run_state.
  destruct (runState (mongo.InsertDeviceAuth env _) (log_db opFindAll w))
    as [[dev [err|]] w2] eqn:Hins; cbn [fst snd]; [discriminate|].
  destruct (InsertDeviceAuth_success _ _ _ _ _ Hins)
    as (Hdev & Hd2 & Hnone & Hc2).
  cbn [devices objectids authcalls log_db] in Hdev, Hd2, Hc2.
  unfold devadm.propagatePreauthorizeDevice. run_state.
  pose proof (PreauthorizeDevice_frame env
                (deviceauth.NewClient (devadm.authclientconf d))
                (PreAuthReq.mk (DeviceId dev) (ID dev) (DeviceIdentity dev)
                               (Key dev)) h w2) as Hfr.
  cbn zeta in Hfr.
  destruct (runState (deviceauth.PreauthorizeDevice _ _ _ _) w2)
    as [e w3]; cbn [fst snd] in *.
  destruct Hfr as (Hd3 & _ & _ & Hc3).
  intros [= _ <-]. rewrite <- Hdev.
  split; [congruence|]. split; [exact Hnone | congruence].
Qed.

(** X11. A PreauthorizeDevice call that succeeds has appended one record
    and called the remote authenticator once: the remote request carries
    the two ObjectIds that the store has just assigned to the record (its
    device id and its auth set id), the identity data and key of the
    request, and the caller's authorization header. *)
Theorem X11_preauthorize_success :
  forall env d authSet h w w',
    runState (devadm.PreauthorizeDevice env d authSet h) w = (None, w') ->
    let id := ObjectIdHex env (objectids w) in
    let devid := ObjectIdHex env (S (objectids w)) in
    let dev := mkDeviceAuth id devid (AuthSet.DeviceId authSet)
                 (AuthSet.Key authSet) DevStatusPreauthorized
                 (AuthSet.Attributes authSet) (Some (clock_Now env)) in
    devices w' = (devices w ++ [dev])%list
    /\ stored id w' = Some dev
    /\ authcalls w'
       = (authcalls w
          ++ [CallPreauthorizeDevice
                (PreAuthReq.mk devid id (AuthSet.DeviceId authSet)
                               (AuthSet.Key authSet)) h])%list.
Proof.
  intros env d authSet h w w' Hrun. cbn zeta.
  destruct (PreauthorizeDevice_success _ _ _ _ _ _ Hrun)
    as (Hd & Hnone & Hc).
  cbn [ID DeviceId DeviceIdentity Key set_DeviceId set_ID
       devadm.preauthorized_record set_RequestTime set_Key set_Attributes
       set_Status set_DeviceIdentity zero Status Attributes RequestTime]
    in Hd, Hnone, Hc.
  split; [exact Hd|]. split; [|exact Hc].
  unfold stored in *. rewrite Hd, find_app_by_id, Hnone.
  replace (mgo.by_id _ _) with true; [reflexivity|].
  symmetry. apply by_id_true. reflexivity.
Qed.

Lemma X11_preauthorize_success_witness :
  devices (snd (runState (devadm.PreauthorizeDevice (Scenario.healthy 7)
                            Scenario.app Scenario.authSet_x "Bearer t")
                         Scenario.world))
  = (devices Scenario.world ++ [Scenario.created_x])%list
  /\ stored "5a17c0de0000000000000000"
       (snd (runState (devadm.PreauthorizeDevice (Scenario.healthy 7)
                         Scenario.app Scenario.authSet_x "Bearer t")
                      Scenario.world))
     = Some Scenario.created_x
  /\ authcalls (snd (runState (devadm.PreauthorizeDevice (Scenario.healthy 7)
                                 Scenario.app Scenario.authSet_x "Bearer t")
                              Scenario.world))
     = [CallPreauthorizeDevice
          (PreAuthReq.mk "5a17c0de0000000000000001" "5a17c0de0000000000000000"
                         "mac:xx" "key-x") "Bearer t"].
Proof.
  apply (X11_preauthorize_success
           (Scenario.healthy 7) Scenario.app Scenario.authSet_x "Bearer t"
           Scenario.world
           (snd (runState (devadm.PreauthorizeDevice (Scenario.healthy 7)
                             Scenario.app Scenario.authSet_x "Bearer t")
                          Scenario.world))).
  reflexivity.
Defined.

(** X12. Two pre-authorizations of the same device identity in a row:
    once the first call has created its record (also when its remote call
    then failed), a second call whose lookup works returns the conflict
    error, creates nothing and calls nothing. *)
Theorem X12_second_preauthorize_conflicts :
  forall env1 env2 d authSet1 authSet2 h1 h2 w,
    AuthSet.DeviceId authSet2 = AuthSet.DeviceId authSet1 ->
    let w1 := snd (runState (devadm.PreauthorizeDevice env1 d authSet1 h1) w) in
    devices w1 <> devices w ->
    mgo_fault env2 opFindAll = None ->
    fst (runState (devadm.PreauthorizeDevice env2 d authSet2 h2) w1)
      = Some (Sentinel AuthSetConflictError)
    /\ only_read opFindAll w1
         (snd (runState (devadm.PreauthorizeDevice env2 d authSet2 h2) w1)).
Proof.
  intros env1 env2 d authSet1 authSet2 h1 h2 w Hsame w1 Hchg Hf.
  destruct (PreauthorizeDevice_cases env1 d authSet1 h1 w)
    as [Hd | (Hd & _)]; [contradiction|].
  fold w1 in Hd.
  assert (Hdup : exists r, In r (devices w1)
                           /\ DeviceIdentity r = AuthSet.DeviceId authSet2).
  { eexists. split; [rewrite Hd; apply in_or_app; right; left; reflexivity|].
    rewrite Hsame. reflexivity. }
  unfold devadm.PreauthorizeDevice. run_state.
  rewrite GetDeviceAuthsByIdentityData_run, Hf. cbn [fst snd errors.Wrap].
  rewrite (identity_lookup_finds _ _ Hdup). run_state.
  split; [reflexivity|]. repeat split; reflexivity.
Qed.

Lemma X12_second_preauthorize_conflicts_witness :
  fst (runState (devadm.PreauthorizeDevice (Scenario.healthy 8) Scenario.app
                   Scenario.authSet_x "Bearer u")
         (snd (runState (devadm.PreauthorizeDevice (Scenario.failing 7)
                           Scenario.app Scenario.authSet_x "Bearer t")
                        Scenario.world)))
  = Some (Sentinel AuthSetConflictError)
  /\ only_read opFindAll
       (snd (runState (devadm.PreauthorizeDevice (Scenario.failing 7)
                         Scenario.app Scenario.authSet_x "Bearer t")
                      Scenario.world))
       (snd (runState (devadm.PreauthorizeDevice (Scenario.healthy 8)
                         Scenario.app Scenario.authSet_x "Bearer u")
               (snd (runState (devadm.PreauthorizeDevice (Scenario.failing 7)
                                 Scenario.app Scenario.authSet_x "Bearer t")
                              Scenario.world)))).
Proof.
  apply (X12_second_preauthorize_conflicts
           (Scenario.failing 7) (Scenario.healthy 8) Scenario.app
           Scenario.authSet_x Scenario.authSet_x "Bearer t" "Bearer u"
           Scenario.world eq_refl).
  - vm_compute. intros H. apply (f_equal (@List.length _)) in H.
    discriminate.
  - reflexivity.
Defined.

(** X13. A record created by PreauthorizeDevice is accepted by
    AcceptDevicePreAuth under its auth set id, when the driver works: the
    call succeeds, the stored record is the created one with status
    accepted, and this second step calls the remote authenticator not at
    all. *)
Theorem X13_preauthorize_then_accept_preauth :
  forall env1 env2 d authSet h w w1,
    runState (devadm.PreauthorizeDevice env1 d authSet h) w = (None, w1) ->
    mgo_fault env2 opFindOne = None ->
    mgo_fault env2 opEnsureIndex = None ->
    mgo_fault env2 opUpdate = None ->
    let id := ObjectIdHex env1 (objectids w) in
    let r := runState (devadm.AcceptDevicePreAuth env2 d id) w1 in
    fst r = None
    /\ stored id (snd r)
       = Some (mkDeviceAuth id (ObjectIdHex env1 (S (objectids w)))
                 (AuthSet.DeviceId authSet) (AuthSet.Key authSet)
                 DevStatusAccepted (AuthSet.Attributes authSet)
                 (Some (clock_Now env1)))
    /\ authcalls (snd r) = authcalls w1.
Proof.
  intros env1 env2 d authSet h w w1 Hrun Hf1 Hf2 Hf3. cbn zeta.
  destruct (PreauthorizeDevice_success _ _ _ _ _ _ Hrun)
    as (Hd & Hnone & _).
  cbn [ID DeviceId DeviceIdentity Key set_DeviceId set_ID
       devadm.preauthorized_record set_RequestTime set_Key set_Attributes
       set_Status set_DeviceIdentity zero Status Attributes RequestTime]
    in Hd, Hnone.
  set (id := ObjectIdHex env1 (objectids w)) in *.
  set (dev := mkDeviceAuth id (ObjectIdHex env1 (S (objectids w)))
                (AuthSet.DeviceId authSet) (AuthSet.Key authSet)
                DevStatusPreauthorized (AuthSet.Attributes authSet)
                (Some (clock_Now env1))).
  change (devices w1 = (devices w ++ [dev])%list) in Hd.
  change (stored id w = None) in Hnone.
  assert (Hst : stored id w1 = Some dev).
  { unfold stored in *. rewrite Hd, find_app_by_id, Hnone.
    replace (mgo.by_id id dev) with true; [reflexivity|].
    symmetry. apply by_id_true. reflexivity. }
  destruct (AcceptDevicePreAuth_cases env2 d id w1)
    as [(Herr & _) | (Hok & dev' & Hst' & _ & Hdev & Hcalls & _)].
  - exfalso. apply Herr. rewrite AcceptDevicePreAuth_run. cbn zeta.
    rewrite Hf1, Hst. cbn [Status dev String.eqb].
    change (String.eqb DevStatusPreauthorized DevStatusPreauthorized)
      with true. cbn match.
    rewrite UpdateDeviceAuth_run, Hf2. cbn zeta. rewrite Hf3.
    cbn [ID set_Status set_ID zero devices log_db].
    destruct (mgo.update_one _ _ (devices w1)) as [c'|] eqn:Hu;
      [reflexivity|].
    apply update_one_None in Hu. unfold stored in Hst.
    cbn [ID dev] in Hu. congruence.
  - assert (dev' = dev) by congruence. subst dev'.
    split; [exact Hok|]. split; [|exact Hcalls].
    unfold stored. rewrite Hdev, find_upserted, String.eqb_refl.
    fold (stored id w1). rewrite Hst, set_accepted_update. reflexivity.
Qed.

Lemma X13_preauthorize_then_accept_preauth_witness :
  fst (runState (devadm.AcceptDevicePreAuth (Scenario.healthy 8) Scenario.app
                   "5a17c0de0000000000000000")
         (snd (runState (devadm.PreauthorizeDevice (Scenario.healthy 7)
                           Scenario.app Scenario.authSet_x "Bearer t")
                        Scenario.world)))
  = None
  /\ stored "5a17c0de0000000000000000"
       (snd (runState (devadm.AcceptDevicePreAuth (Scenario.healthy 8)
                         Scenario.app "5a17c0de0000000000000000")
               (snd (runState (devadm.PreauthorizeDevice (Scenario.healthy 7)
                                 Scenario.app Scenario.authSet_x "Bearer t")
                              Scenario.world))))
     = Some (set_Status DevStatusAccepted Scenario.created_x)
  /\ authcalls
       (snd (runState (devadm.AcceptDevicePreAuth (Scenario.healthy 8)
                         Scenario.app "5a17c0de0000000000000000")
               (snd (runState (devadm.PreauthorizeDevice (Scenario.healthy 7)
                                 Scenario.app Scenario.authSet_x "Bearer t")
                              Scenario.world))))
     = authcalls
         (snd (runState (devadm.PreauthorizeDevice (Scenario.healthy 7)
                           Scenario.app Scenario.authSet_x "Bearer t")
                        Scenario.world)).
Proof.
  apply (X13_preauthorize_then_accept_preauth
           (Scenario.healthy 7) (Scenario.healthy 8) Scenario.app
           Scenario.authSet_x "Bearer t" Scenario.world
           (snd (runState (devadm.PreauthorizeDevice (Scenario.healthy 7)
                             Scenario.app Scenario.authSet_x "Bearer t")
                          Scenario.world)));
    reflexivity.
Defined.

(* ================================================================== *)
(** ** What the transitions leave alone *)
(* ================================================================== *)

Lemma set_Status_back s r : set_Status (Status r) (set_Status s r) = r.
Proof. destruct r; reflexivity. Qed.

Lemma same_but_status_trans a b c :
  set_Status (Status a) b = a ->
  set_Status (Status b) c = b ->
  set_Status (Status a) c = a.
Proof.
  destruct a, b, c. unfold set_Status.
  cbn [ID DeviceId DeviceIdentity Key Status Attributes RequestTime].
  intros [= -> -> -> -> -> ->] [= -> -> -> -> -> ->]. reflexivity.
Qed.

(** One operation that keeps the record of [id] changes at most its
    status. *)
Lemma exec_keeps_record env d op id w r :
  keeps id op = true ->
  stored id w = Some r ->
  exists r',
    stored id (snd (runState (exec env d op) w)) = Some r'
    /\ set_Status (Status r) r' = r.
Proof.
  intros Hk Hst.
  assert (Hsame : forall w', devices w' = devices w ->
                             exists r', stored id w' = Some r'
                                        /\ set_Status (Status r) r' = r).
  { intros w' Hd. exists r. unfold stored in *. rewrite Hd.
    split; [exact Hst | destruct r; reflexivity]. }
  assert (Hupd : forall i status,
             status <> "" ->
             forall w',
             (fst (runState (devadm.updateDeviceAuthStatus env d i status) w)
                <> None
              /\ devices w' = devices w)
             \/ (fst (runState (devadm.updateDeviceAuthStatus env d i status) w)
                   = None
                 /\ exists dev,
                     stored i w = Some dev
                     /\ devices w'
                        = mgo.upserted i
                            (mongo.genDeviceAuthUpdate
                               (set_Status status
                                  (set_DeviceId (DeviceId dev)
                                     (set_ID (ID dev) zero))))
                            (devices w)
                     /\ authcalls w'
                        = (authcalls w
                           ++ [CallUpdateDevice
                                 (StatusReq.mk (DeviceId dev) (ID dev)
                                               status)])%list) ->
             exists r', stored id w' = Some r'
                        /\ set_Status (Status r) r' = r).
  { intros i status Hne w' [(_ & Hd) | (_ & dev & Hsti & Hd & _)];
      [apply Hsame, Hd|].
    unfold stored in *. rewrite Hd, find_upserted.
    destruct (String.eqb_spec id i) as [->|Hneq].
    - rewrite Hsti. assert (dev = r) by congruence. subst dev.
      rewrite set_status_update by exact Hne.
      eexists. split; [reflexivity | apply set_Status_back].
    - exists r. split; [exact Hst | destruct r; reflexivity]. }
  destruct op as [dev|i|i|i|authSet h|i|i]; cbn [keeps] in Hk;
    try discriminate; cbn [exec].
  - apply negb_true_iff, String.eqb_neq in Hk.
    destruct (SubmitDeviceAuth_devices env d dev w)
      as [(_ & Hd) | (_ & Hd)]; [apply Hsame, Hd|].
    unfold stored in *. rewrite Hd, find_upserted.
    destruct (String.eqb_spec id (ID dev)) as [Heq|_]; [congruence|].
    exists r. split; [exact Hst | destruct r; reflexivity].
  - apply (Hupd i DevStatusAccepted ltac:(discriminate)).
    apply updateDeviceAuthStatus_cases.
  - apply (Hupd i DevStatusRejected ltac:(discriminate)).
    apply updateDeviceAuthStatus_cases.
  - destruct (AcceptDevicePreAuth_cases env d i w)
      as [(_ & Hd) | (_ & dev & Hsti & _ & Hd & _)]; [apply Hsame, Hd|].
    unfold stored in *. rewrite Hd, find_upserted.
    destruct (String.eqb_spec id i) as [->|Hneq].
    + rewrite Hsti. assert (dev = r) by congruence. subst dev.
      rewrite set_accepted_update.
      eexists. split; [reflexivity | apply set_Status_back].
    + exists r. split; [exact Hst | destruct r; reflexivity].
  - destruct (PreauthorizeDevice_cases env d authSet h w)
      as [Hd | (Hd & _)]; [apply Hsame, Hd|].
    exists r. unfold stored in *. rewrite Hd, find_app_by_id, Hst.
    split; [reflexivity | destruct r; reflexivity].
Qed.

(** X14. Along any history of Accept, Reject, AcceptDevicePreAuth and
    PreauthorizeDevice operations and of submissions under other ids, in
    whatever environments, a stored record stays stored and changes in
    nothing but its status: id, device id, identity data, key, attributes
    and request time are those it had. *)
Theorem X14_transitions_change_status_only :
  forall d steps id w r,
    Forall (fun step => keeps id (snd step) = true) steps ->
    stored id w = Some r ->
    exists r',
      stored id (run d steps w) = Some r'
      /\ ID r' = ID r
      /\ DeviceId r' = DeviceId r
      /\ DeviceIdentity r' = DeviceIdentity r
      /\ Key r' = Key r
      /\ Attributes r' = Attributes r
      /\ RequestTime r' = RequestTime r.
Proof.
  intros d steps id w r Hall Hst.
  assert (H : exists r', stored id (run d steps w) = Some r'
                         /\ set_Status (Status r) r' = r).
  { revert w r Hall Hst.
    induction steps as [|[env op] steps IH]; intros w r Hall Hst; cbn [run].
    - exists r. split; [exact Hst | destruct r; reflexivity].
    - inversion Hall as [|step rest Hop Hrest]; subst. cbn [snd] in Hop.
      destruct (exec_keeps_record env d op id w r Hop Hst)
        as (r1 & Hst1 & Hr1).
      destruct (IH _ r1 Hrest Hst1) as (r' & Hst' & Hr').
      exists r'. split; [exact Hst'|].
      exact (same_but_status_trans _ _ _ Hr1 Hr'). }
  destruct H as (r' & Hst' & Hr'). exists r'. split; [exact Hst'|].
  rewrite <- Hr'. destruct r'; repeat split.
Qed.

Lemma X14_transitions_change_status_only_witness :
  exists r',
    stored "p"
      (run Scenario.app
           [(Scenario.healthy 200, Reject "p");
            (Scenario.healthy 300, Accept "p");
            (Scenario.healthy 400, Submit Scenario.resubmission_a);
            (Scenario.failing 500, Preauthorize Scenario.authSet_x "Bearer t")]
           Scenario.world)
    = Some r'
    /\ ID r' = "p"
    /\ DeviceId r' = "dev-p"
    /\ DeviceIdentity r' = "mac:pp"
    /\ Key r' = "key-p"
    /\ Attributes r' = [("mac", "pp")]
    /\ RequestTime r' = Some 150%Z.
Proof.
  apply (X14_transitions_change_status_only Scenario.app
           [(Scenario.healthy 200, Reject "p");
            (Scenario.healthy 300, Accept "p");
            (Scenario.healthy 400, Submit Scenario.resubmission_a);
            (Scenario.failing 500, Preauthorize Scenario.authSet_x "Bearer t")]
           "p" Scenario.world Scenario.preauth_p).
  - repeat constructor.
  - reflexivity.
Defined.

(** One local operation leaves the logs of the client alone. *)
Lemma exec_local env d op w :
  local op = true ->
  authcalls (snd (runState (exec env d op) w)) = authcalls w
  /\ wire (snd (runState (exec env d op) w)) = wire w.
Proof.
  intros Hl.
  destruct op as [dev|i|i|i|authSet h|i|i]; cbn [local] in Hl;
    try discriminate; cbn [exec].
  - apply SubmitDeviceAuth_quiet.
  - rewrite AcceptDevicePreAuth_run. cbn zeta.
    destruct (mgo_fault env opFindOne); [split; reflexivity|].
    destruct (stored i w) as [dev|]; [|split; reflexivity].
    destruct (String.eqb (Status dev) DevStatusPreauthorized);
      [|split; reflexivity].
    rewrite UpdateDeviceAuth_run.
    destruct (mgo_fault env opEnsureIndex); [split; reflexivity|].
    cbn zeta. destruct (mgo_fault env opUpdate); [split; reflexivity|].
    destruct (mgo.update_one _ _ _); split; reflexivity.
  - rewrite DeleteDeviceAuth_run.
    destruct (mgo_fault env opRemove); [split; reflexivity|].
    destruct (mgo.remove_one _ _); split; reflexivity.
  - rewrite DeleteDeviceData_run.
    destruct (mgo_fault env opRemoveAll); split; reflexivity.
Qed.

(** X15. Submission, AcceptDevicePreAuth and the two deletions never reach
    the remote authenticator: along any history of these operations, in
    whatever environments, no call is made on the deviceauth client and no
    request is handed to the HTTP runner. *)
Theorem X15_local_operations_make_no_remote_call :
  forall d steps w,
    Forall (fun step => local (snd step) = true) steps ->
    authcalls (run d steps w) = authcalls w
    /\ wire (run d steps w) = wire w.
Proof.
  intros d steps. induction steps as [|[env op] steps IH]; intros w Hall;
    cbn [run]; [split; reflexivity|].
  inversion Hall as [|step rest Hop Hrest]; subst. cbn [snd] in Hop.
  destruct (exec_local env d op w Hop) as (Hc & Hw).
  destruct (IH (snd (runState (exec env d op) w)) Hrest) as (Hc' & Hw').
  split; congruence.
Qed.

Lemma X15_local_operations_make_no_remote_call_witness :
  authcalls
    (run Scenario.app
         [(Scenario.healthy 200, Submit Scenario.resubmission_a);
          (Scenario.healthy 300, AcceptPreAuth "p");
          (Scenario.healthy 400, DeleteData "dev-a");
          (Scenario.db_down 500, Delete "p")]
         Scenario.world) = []
  /\ wire
       (run Scenario.app
            [(Scenario.healthy 200, Submit Scenario.resubmission_a);
             (Scenario.healthy 300, AcceptPreAuth "p");
             (Scenario.healthy 400, DeleteData "dev-a");
             (Scenario.db_down 500, Delete "p")]
            Scenario.world) = [].
Proof.
  apply (X15_local_operations_make_no_remote_call Scenario.app
           [(Scenario.healthy 200, Submit Scenario.resubmission_a);
            (Scenario.healthy 300, AcceptPreAuth "p");
            (Scenario.healthy 400, DeleteData "dev-a");
            (Scenario.db_down 500, Delete "p")]
           Scenario.world).
  repeat constructor.
Defined.

(* ================================================================== *)
(** ** The deviceauth client: requests and failures *)
(* ================================================================== *)

Lemma Replace_from_no_brace a b s1 s2 :
  no_brace s1 = true ->
  strings.Replace_from [("{id}", a); ("{aid}", b)] 0 (s1 ++ s2)
  = s1 ++ strings.Replace_from [("{id}", a); ("{aid}", b)] 0 s2.
Proof.
  induction s1 as [|c s1 IH]; cbn [no_brace String.append]; [reflexivity|].
  intros Hnb. apply andb_true_iff in Hnb. destruct Hnb as (Hc & Hnb).
  apply negb_true_iff, Ascii.eqb_neq in Hc.
  cbn [strings.Replace_from find fst String.prefix].
  destruct (ascii_dec "{" c) as [Heq|_]; [congruence|].
  rewrite (IH Hnb). reflexivity.
Qed.

(** X16. The URL of the status update, for a devauth address without an
    opening brace: the address, then the path of the endpoint with the
    device id and the auth set id in the place of their placeholders.  The
    identifiers are put in as they are; braces inside them are not
    expanded again. *)
Theorem X16_status_update_url :
  forall d req,
    no_brace (deviceauth.DevauthUrl (deviceauth.conf d)) = true ->
    deviceauth.buildDevAuthUpdateUrl d req
    = deviceauth.DevauthUrl (deviceauth.conf d)
      ++ "/api/management/v1/devauth/devices/" ++ StatusReq.DeviceId req
      ++ "/auth/" ++ StatusReq.AuthId req ++ "/status".
Proof.
  intros d req Hnb. unfold deviceauth.buildDevAuthUpdateUrl, strings.Replace.
  rewrite (Replace_from_no_brace _ _ _ _ Hnb). reflexivity.
Qed.

Lemma X16_status_update_url_witness :
  deviceauth.buildDevAuthUpdateUrl
    (deviceauth.NewClient (devadm.authclientconf Scenario.app))
    (StatusReq.mk "{aid}" "a/{id}" DevStatusAccepted)
  = "http://devauth:8080/api/management/v1/devauth/devices/{aid}/auth/a/{id}/status".
Proof.
  apply (X16_status_update_url
           (deviceauth.NewClient (devadm.authclientconf Scenario.app))
           (StatusReq.mk "{aid}" "a/{id}" DevStatusAccepted)).
  reflexivity.
Defined.

(** X17. The client's PreauthorizeDevice, when the HTTP runner answers:
    the one request handed to the runner is the prepared request with the
    JSON content type and the caller's authorization header; status 201
    gives success, and any other status a failure whose message ends with
    the status text of the response. *)
Theorem X17_preauthorize_response_classification :
  forall env cl preq h w body req rsp,
    json_Marshal env (JPreAuthReq preq) = inl body ->
    http_NewRequest env http.MethodPost
      (deviceauth.DevauthUrl (deviceauth.conf cl)
       ++ deviceauth.defaultPreauthorizeDeviceUri) body
      = inl req ->
    let sent := http.Header_Set "Authorization" h
                  (http.Header_Set "Content-Type" "application/json" req) in
    client_Do env (deviceauth.Timeout (deviceauth.conf cl)) sent = inl rsp ->
    let err := fst (runState (deviceauth.PreauthorizeDevice env cl preq h) w) in
    let w' := snd (runState (deviceauth.PreauthorizeDevice env cl preq h) w) in
    wire w' = (wire w ++ [sent])%list
    /\ (http.StatusCode rsp = 201%Z -> err = None)
    /\ (http.StatusCode rsp <> 201%Z ->
        err = Some (Errorf ("device preauthorize request failed with status "
                            ++ http.Status rsp))).
Proof.
  intros env cl preq h w body req rsp Hjson Hreq sent Hdo.
  unfold deviceauth.PreauthorizeDevice, deviceauth.called, deviceauth.Do.
  run_state. rewrite Hjson, Hreq. run_state. fold sent. rewrite Hdo.
  unfold http.StatusCreated.
  destruct (Z.eqb_spec (http.StatusCode rsp) 201) as [H201|H201]; run_state.
  - split; [reflexivity|]. split; [reflexivity | contradiction].
  - split; [reflexivity|]. split; [contradiction | reflexivity].
Qed.

Lemma X17_preauthorize_response_classification_witness :
  fst (runState
         (deviceauth.PreauthorizeDevice
            (Scenario.answering (http.mkResponse 409 "409 Conflict" "") 7)
            (deviceauth.NewClient (devadm.authclientconf Scenario.app))
            (PreAuthReq.mk "d" "s" "i" "k") "Bearer t")
         Scenario.world)
  = Some (Errorf "device preauthorize request failed with status 409 Conflict").
Proof.
  apply (proj2 (proj2
           (X17_preauthorize_response_classification
              (Scenario.answering (http.mkResponse 409 "409 Conflict" "") 7)
              (deviceauth.NewClient (devadm.authclientconf Scenario.app))
              (PreAuthReq.mk "d" "s" "i" "k") "Bearer t" Scenario.world
              "{device_id:d,auth_set_id:s,id_data:i,pubkey:k}"
              (http.mkRequest "POST"
                 "http://devauth:8080/api/management/v1/devauth/devices"
                 [] "{device_id:d,auth_set_id:s,id_data:i,pubkey:k}")
              (http.mkResponse 409 "409 Conflict" "")
              eq_refl eq_refl eq_refl))).
  discriminate.
Defined.

(** X18. UpdateDevice before any response: when the request cannot be
    encoded or cannot be built, the error is returned wrapped and nothing
    is handed to the HTTP runner; when the runner itself fails, its error
    is returned wrapped and the request was handed over once. *)
Theorem X18_update_device_failures_before_response :
  forall env cl sreq w,
    let err := fst (runState (deviceauth.UpdateDevice env cl sreq) w) in
    let w' := snd (runState (deviceauth.UpdateDevice env cl sreq) w) in
    (forall e,
        json_Marshal env (JStatusReq sreq) = inr e ->
        err = Some (Wrapped e "failed to prepare dev auth request")
        /\ wire w' = wire w)
    /\ (forall body e,
        json_Marshal env (JStatusReq sreq) = inl body ->
        http_NewRequest env http.MethodPut
          (deviceauth.buildDevAuthUpdateUrl cl sreq) body = inr e ->
        err = Some (Wrapped e "failed to prepare dev auth request")
        /\ wire w' = wire w)
    /\ (forall body req e,
        json_Marshal env (JStatusReq sreq) = inl body ->
        http_NewRequest env http.MethodPut
          (deviceauth.buildDevAuthUpdateUrl cl sreq) body = inl req ->
        client_Do env (deviceauth.Timeout (deviceauth.conf cl))
          (http.Header_Set "Content-Type" "application/json" req) = inr e ->
        err = Some (Wrapped e "failed to update device status")
        /\ wire w'
           = (wire w
              ++ [http.Header_Set "Content-Type" "application/json" req])%list).
Proof.
  intros env cl sreq w. cbn zeta.
  unfold deviceauth.UpdateDevice, deviceauth.called, deviceauth.Do.
  run_state. split; [|split].
  - intros e ->. split; reflexivity.
  - intros body e -> ->. split; reflexivity.
  - intros body req e -> ->. run_state. intros ->. split; reflexivity.
Qed.

Lemma X18_update_device_failures_before_response_witness :
  let env := mkEnv (fun _ => None) Scenario.ObjectIdHex 7 7 Scenario.Marshal
                   Scenario.NewRequest
                   (fun _ _ => inr (External "context deadline exceeded"))
                   Scenario.Parse in
  fst (runState
         (deviceauth.UpdateDevice env
            (deviceauth.NewClient (devadm.authclientconf Scenario.app))
            (StatusReq.mk "dev-a" "a" DevStatusAccepted))
         Scenario.world)
  = Some (Wrapped (External "context deadline exceeded")
                  "failed to update device status")
  /\ wire (snd (runState
                  (deviceauth.UpdateDevice env
                     (deviceauth.NewClient (devadm.authclientconf Scenario.app))
                     (StatusReq.mk "dev-a" "a" DevStatusAccepted))
                  Scenario.world))
     = [http.mkRequest "PUT"
          "http://devauth:8080/api/management/v1/devauth/devices/dev-a/auth/a/status"
          [("Content-Type", "application/json")] "{status:accepted}"].
Proof.
  intros env.
  apply (proj2 (proj2
           (X18_update_device_failures_before_response env
              (deviceauth.NewClient (devadm.authclientconf Scenario.app))
              (StatusReq.mk "dev-a" "a" DevStatusAccepted) Scenario.world))
           "{status:accepted}"
           (http.mkRequest "PUT"
              "http://devauth:8080/api/management/v1/devauth/devices/dev-a/auth/a/status"
              [] "{status:accepted}")
           (External "context deadline exceeded"));
    reflexivity.
Defined.

(** The run of [UpdateDevice] when the runner answered. *)
Lemma UpdateDevice_answered env cl sreq w body req rsp :
  json_Marshal env (JStatusReq sreq) = inl body ->
  http_NewRequest env http.MethodPut
    (deviceauth.buildDevAuthUpdateUrl cl sreq) body = inl req ->
  client_Do env (deviceauth.Timeout (deviceauth.conf cl))
    (http.Header_Set "Content-Type" "application/json" req) = inl rsp ->
  fst (runState (deviceauth.UpdateDevice env cl sreq) w)
  = deviceauth.UpdateDevice_response env rsp.
Proof.
  intros Hjson Hreq Hdo.
  unfold deviceauth.UpdateDevice, deviceauth.called, deviceauth.Do.
  run_state. rewrite Hjson, Hreq. run_state. rewrite Hdo. reflexivity.
Qed.

(** X19. From the answer of the remote authenticator to the result of
    Accept and Reject, the lookup having returned the record: on status
    422 with a body that parses as an API error, the operation returns a
    usage error with the message of that API error, not wrapped; on a
    status other than 204 and 422 it returns the client's failure, which
    names the status text, wrapped once.  In both cases the collection is
    unchanged. *)
Theorem X19_remote_answer_to_engine_error :
  forall env d op id w dev w1 body req rsp,
    op = Accept id \/ op = Reject id ->
    runState (mongo.GetDeviceAuth env id) w = (inl dev, w1) ->
    let cl := deviceauth.NewClient (devadm.authclientconf d) in
    let sreq := StatusReq.mk (DeviceId dev) (ID dev) (target op) in
    json_Marshal env (JStatusReq sreq) = inl body ->
    http_NewRequest env http.MethodPut
      (deviceauth.buildDevAuthUpdateUrl cl sreq) body = inl req ->
    client_Do env (deviceauth.Timeout (deviceauth.conf cl))
      (http.Header_Set "Content-Type" "application/json" req) = inl rsp ->
    let err := fst (runState (exec env d op) w) in
    let w' := snd (runState (exec env d op) w) in
    (forall msg reqid,
        http.StatusCode rsp = 422%Z ->
        ParseApiError env (http.Body rsp) = ApiError msg reqid ->
        err = Some (UsageError msg) /\ devices w' = devices w)
    /\ (http.StatusCode rsp <> 204%Z ->
        http.StatusCode rsp <> 422%Z ->
        err = Some (Wrapped
                      (Errorf ("device status update request failed with status "
                               ++ http.Status rsp))
                      "failed to propagate device status update")
        /\ devices w' = devices w).
Proof.
  intros env d op id w dev w1 body req rsp Hop Hget cl sreq Hjson Hreq Hdo.
  cbn zeta.
  destruct (exec_update env d op id Hop) as (-> & _).
  pose proof (UpdateDevice_answered env cl sreq w1 body req rsp
                Hjson Hreq Hdo) as Hans.
  pose proof (UpdateDevice_frame env cl sreq w1) as Hfr. cbn zeta in Hfr.
  destruct Hfr as (Hd2 & _). subst cl sreq.
  assert (Hw1 : devices w1 = devices w).
  { rewrite GetDeviceAuth_run in Hget. injection Hget as _ <-. reflexivity. }
  rewrite updateDeviceAuthStatus_run, Hget. cbn [fst snd]. cbn zeta.
  rewrite propagateDeviceAuthUpdate_run.
  cbn [ID DeviceId Status set_Status].
  rewrite Hans. unfold deviceauth.UpdateDevice_response,
    http.StatusNoContent, http.StatusUnprocessableEntity.
  split.
  - intros msg reqid H422 Hparse. rewrite H422, Hparse.
    cbn [Z.eqb Pos.eqb rest_utils.IsApiError rest_utils.ApiError_Error
         utils.NewUsageError utils.IsUsageError fst snd].
    split; [reflexivity | rewrite Hd2; exact Hw1].
  - intros H204 H422. apply Z.eqb_neq in H204, H422.
    rewrite H204, H422. cbn [utils.IsUsageError fst snd].
    split; [reflexivity | rewrite Hd2; exact Hw1].
Qed.

Lemma X19_remote_answer_to_engine_error_witness :
  fst (runState
         (exec (Scenario.answering
                  (http.mkResponse 422 "422 Unprocessable Entity"
                                   "bad status") 7)
               Scenario.app (Accept "a"))
         Scenario.world)
  = Some (UsageError "bad status")
  /\ devices
       (snd (runState
               (exec (Scenario.answering
                        (http.mkResponse 422 "422 Unprocessable Entity"
                                         "bad status") 7)
                     Scenario.app (Accept "a"))
               Scenario.world))
     = devices Scenario.world.
Proof.
  apply (proj1
           (X19_remote_answer_to_engine_error
              (Scenario.answering
                 (http.mkResponse 422 "422 Unprocessable Entity"
                                  "bad status") 7)
              Scenario.app (Accept "a") "a" Scenario.world
              Scenario.pending_a (log_db opFindOne Scenario.world)
              "{status:accepted}"
              (http.mkRequest "PUT"
                 "http://devauth:8080/api/management/v1/devauth/devices/dev-a/auth/a/status"
                 [] "{status:accepted}")
              (http.mkResponse 422 "422 Unprocessable Entity" "bad status")
              (or_introl eq_refl) eq_refl eq_refl eq_refl eq_refl)
           "bad status" "req-1");
    reflexivity.
Defined.

(* ================================================================== *)
(** ** Listing *)
(* ================================================================== *)

Lemma In_insert_by_id x d c :
  In x (mgo.insert_by_id d c) <-> x = d \/ In x c.
Proof.
  induction c as [|y c IH]; cbn [mgo.insert_by_id In].
  - intuition congruence.
  - destruct (String.leb (ID d) (ID y)); cbn [In]; [intuition congruence|].
    rewrite IH. intuition congruence.
Qed.

Lemma In_sort_by_id x c : In x (mgo.sort_by_id c) <-> In x c.
Proof.
  induction c as [|y c IH]; cbn [mgo.sort_by_id In]; [tauto|].
  rewrite In_insert_by_id, IH. intuition congruence.
Qed.

Lemma length_insert_by_id d c :
  List.length (mgo.insert_by_id d c) = S (List.length c).
Proof.
  induction c as [|y c IH]; cbn [mgo.insert_by_id List.length]; [reflexivity|].
  destruct (String.leb (ID d) (ID y)); cbn [List.length]; [reflexivity|].
  rewrite IH. reflexivity.
Qed.

Lemma Sorted_insert_by_id d c :
  Sorted (fun a b => String.leb (ID a) (ID b) = true) c ->
  Sorted (fun a b => String.leb (ID a) (ID b) = true) (mgo.insert_by_id d c).
Proof.
  induction c as [|y c IH]; cbn [mgo.insert_by_id]; intros Hs.
  - repeat constructor.
  - destruct (String.leb (ID d) (ID y)) eqn:Hle.
    + constructor; [exact Hs | constructor; exact Hle].
    + inversion Hs as [|? ? Hs' Hhd]; subst.
      constructor; [exact (IH Hs')|].
      assert (Hyd : String.leb (ID y) (ID d) = true).
      { destruct (String.leb_total (ID d) (ID y)); [congruence | assumption]. }
      destruct c as [|z c]; cbn [mgo.insert_by_id].
      * constructor. exact Hyd.
      * destruct (String.leb (ID d) (ID z)); constructor;
          [exact Hyd | inversion Hhd; assumption].
Qed.

Lemma Sorted_sort_by_id c :
  Sorted (fun a b => String.leb (ID a) (ID b) = true) (mgo.sort_by_id c).
Proof.
  induction c as [|y c IH]; cbn [mgo.sort_by_id]; [constructor|].
  apply Sorted_insert_by_id, IH.
Qed.

Lemma Sorted_skipn {A} (R : A -> A -> Prop) n l :
  Sorted R l -> Sorted R (skipn n l).
Proof.
  revert l. induction n as [|n IH]; intros l Hs; cbn [skipn]; [exact Hs|].
  destruct l as [|x l]; [constructor|].
  inversion Hs; subst. apply IH. assumption.
Qed.

Lemma Sorted_firstn {A} (R : A -> A -> Prop) n l :
  Sorted R l -> Sorted R (firstn n l).
Proof.
  revert l. induction n as [|n IH]; intros l Hs; cbn [firstn]; [constructor|].
  destruct l as [|x l]; [constructor|].
  inversion Hs as [|? ? Hs' Hhd]; subst.
  constructor; [exact (IH _ Hs')|].
  destruct n as [|n]; cbn [firstn]; [constructor|].
  destruct l as [|y l]; [constructor|].
  inversion Hhd; subst. constructor. assumption.
Qed.

Lemma In_skipn {A} (x : A) n l : In x (skipn n l) -> In x l.
Proof.
  intros H. rewrite <- (firstn_skipn n l). apply in_or_app. right. exact H.
Qed.

Lemma In_firstn {A} (x : A) n l : In x (firstn n l) -> In x l.
Proof.
  intros H. rewrite <- (firstn_skipn n l). apply in_or_app. left. exact H.
Qed.

Lemma int32_small n :
  (0 <= n < 2147483648)%Z -> mgo.int32 n = n.
Proof.
  intros Hn. unfold mgo.int32. rewrite Z.mod_small by lia. lia.
Qed.

(** the listing when the driver fails *)
Lemma ListDeviceAuths_fault env server d skip limit f w m :
  mgo_fault env opFindAll = Some m ->
  runState (devadm.ListDeviceAuths env server d skip limit f) w =
  (([], Some (Wrapped (Wrapped (External m) "failed to fetch device list")
                      "failed to fetch devices")),
   log_db opFindAll w).
Proof.
  intros Hf.
  unfold devadm.ListDeviceAuths, mongo.GetDeviceAuths, mgo.FindSorted,
    mgo.issue, mgo.collection.
  run_state. rewrite Hf. reflexivity.
Qed.

(** the page of a listing whose skip and limit fit in 31 bits *)
Lemma ListDeviceAuths_page env server d skip limit f w :
  mgo_fault env opFindAll = None ->
  (0 <= skip < 2147483648)%Z ->
  (0 <= limit < 2147483648)%Z ->
  runState (devadm.ListDeviceAuths env server d skip limit f) w =
  (let dbFilter :=
     (if negb (String.eqb (store.Filter.DeviceID f) "")
      then set_DeviceId (store.Filter.DeviceID f)
      else fun x => x)
       ((if negb (String.eqb (store.Filter.Status f) "")
         then set_Status (store.Filter.Status f)
         else fun x => x) zero) in
   let rest := skipn (Z.to_nat skip)
                 (mgo.sort_by_id
                    (filter (mgo.by_example dbFilter) (devices w))) in
   (if (limit =? 0)%Z then rest else firstn (Z.to_nat limit) rest, None),
   log_db opFindAll w).
Proof.
  intros Hf Hskip Hlimit.
  unfold devadm.ListDeviceAuths, mongo.GetDeviceAuths, mgo.FindSorted,
    mgo.issue, mgo.collection.
  run_state. rewrite Hf. run_state.
  rewrite (int32_small skip Hskip), (int32_small limit Hlimit).
  replace (0 <=? skip)%Z with true by (symmetry; apply Z.leb_le; lia).
  replace (0 <=? limit)%Z with true by (symmetry; apply Z.leb_le; lia).
  cbn [andb devices log_db]. run_state.
  destruct (negb (String.eqb (store.Filter.Status f) ""));
    destruct (negb (String.eqb (store.Filter.DeviceID f) ""));
    reflexivity.
Qed.

Lemma by_example_passes f x :
  mgo.by_example
    ((if negb (String.eqb (store.Filter.DeviceID f) "")
      then set_DeviceId (store.Filter.DeviceID f)
      else fun x => x)
       ((if negb (String.eqb (store.Filter.Status f) "")
         then set_Status (store.Filter.Status f)
         else fun x => x) zero)) x = true
  <-> passes f x.
Proof.
  unfold passes, mgo.by_example, mgo.sel_string.
  destruct f as [st di]. cbn [store.Filter.Status store.Filter.DeviceID].
  destruct (String.eqb_spec st "") as [->|Hst],
           (String.eqb_spec di "") as [->|Hdi];
    cbn [negb ID DeviceId DeviceIdentity Key Status Attributes RequestTime
         set_DeviceId set_Status zero String.eqb andb].
  - split; [|reflexivity]. intros _. split; intros H; contradiction.
  - apply String.eqb_neq in Hdi. rewrite Hdi. rewrite !andb_true_r.
    rewrite String.eqb_eq. split.
    + intros ->. split; [intros H; contradiction | reflexivity].
    + intros (_ & H). symmetry. apply H. apply String.eqb_neq, Hdi.
  - apply String.eqb_neq in Hst. rewrite Hst. rewrite !andb_true_r.
    rewrite String.eqb_eq. split.
    + intros ->. split; [reflexivity | intros H; contradiction].
    + intros (H & _). symmetry. apply H. apply String.eqb_neq, Hst.
  - apply String.eqb_neq in Hst, Hdi. rewrite Hst, Hdi.
    rewrite !andb_true_r, andb_true_iff, !String.eqb_eq. split.
    + intros (-> & ->). split; reflexivity.
    + intros (H1 & H2). split; symmetry;
        [apply H2 | apply H1]; apply String.eqb_neq; assumption.
Qed.

(** X20. A listing whose skip and limit are not negative and fit in 31
    bits, the driver working: it returns no error, and a page in which
    every record is a stored record that passes the filter (equal status
    when the filter has one, equal device id when it has one), the records
    are in the order of their ids, and there are no more than [limit] of
    them when a limit is given.  Without skip and without limit the page
    holds every stored record that passes the filter.  The collection is
    only read. *)
Theorem X20_listing_is_filtered_sorted_bounded :
  forall env server d skip limit f w,
    mgo_fault env opFindAll = None ->
    (0 <= skip < 2147483648)%Z ->
    (0 <= limit < 2147483648)%Z ->
    let page := fst (fst (runState (devadm.ListDeviceAuths env server d
                                      skip limit f) w)) in
    let err := snd (fst (runState (devadm.ListDeviceAuths env server d
                                     skip limit f) w)) in
    let w' := snd (runState (devadm.ListDeviceAuths env server d
                               skip limit f) w) in
    err = None
    /\ (forall x, In x page -> In x (devices w) /\ passes f x)
    /\ Sorted (fun a b => String.leb (ID a) (ID b) = true) page
    /\ (limit <> 0%Z -> (Z.of_nat (List.length page) <= limit)%Z)
    /\ (skip = 0%Z -> limit = 0%Z ->
        forall x, In x (devices w) -> passes f x -> In x page)
    /\ only_read opFindAll w w'.
Proof.
  intros env server d skip limit f w Hf Hskip Hlimit. cbn zeta.
  rewrite (ListDeviceAuths_page _ _ _ _ _ _ _ Hf Hskip Hlimit).
  cbn zeta. cbn [fst snd].
  set (dbFilter := (if negb (String.eqb (store.Filter.DeviceID f) "")
                    then _ else _) _).
  set (sel := mgo.sort_by_id (filter (mgo.by_example dbFilter) (devices w))).
  assert (Hsel : forall x, In x sel <-> In x (devices w) /\ passes f x).
  { intros x. unfold sel. rewrite In_sort_by_id, filter_In.
    unfold dbFilter. rewrite by_example_passes. reflexivity. }
  assert (Hsorted : Sorted (fun a b => String.leb (ID a) (ID b) = true) sel)
    by apply Sorted_sort_by_id.
  split; [reflexivity|]. split; [|split; [|split; [|split]]].
  - intros x Hx. apply Hsel.
    destruct (limit =? 0)%Z; [|apply In_firstn in Hx];
      apply In_skipn in Hx; exact Hx.
  - destruct (limit =? 0)%Z; [|apply Sorted_firstn];
      apply Sorted_skipn; exact Hsorted.
  - intros Hl. apply Z.eqb_neq in Hl. rewrite Hl.
    pose proof (firstn_le_length (Z.to_nat limit)
                  (skipn (Z.to_nat skip) sel)) as Hle.
    lia.
  - intros -> -> x Hin Hp. cbn [Z.eqb Z.to_nat skipn].
    apply Hsel. split; assumption.
  - repeat split; reflexivity.
Qed.

Lemma X20_listing_is_filtered_sorted_bounded_witness :
  (forall x,
      In x (fst (fst (runState
                        (devadm.ListDeviceAuths (Scenario.healthy 7)
                           Scenario.refusing Scenario.app 0 1
                           (store.Filter.mk DevStatusPending ""))
                        Scenario.world))) ->
      In x (devices Scenario.world)
      /\ passes (store.Filter.mk DevStatusPending "") x)
  /\ (Z.of_nat
        (List.length
           (fst (fst (runState
                        (devadm.ListDeviceAuths (Scenario.healthy 7)
                           Scenario.refusing Scenario.app 0 1
                           (store.Filter.mk DevStatusPending ""))
                        Scenario.world)))) <= 1)%Z.
Proof.
  destruct (X20_listing_is_filtered_sorted_bounded
              (Scenario.healthy 7) Scenario.refusing Scenario.app 0 1
              (store.Filter.mk DevStatusPending "") Scenario.world eq_refl
              ltac:(lia) ltac:(lia))
    as (_ & Hin & _ & Hlen & _).
  split; [exact Hin | apply Hlen; discriminate].
Defined.

(** X21. A listing when the driver fails: the page is empty and the error
    is the driver's, wrapped by the store ("failed to fetch device list")
    and again by the engine ("failed to fetch devices"); the collection is
    only read. *)
Theorem X21_listing_failure :
  forall env server d skip limit f w m,
    mgo_fault env opFindAll = Some m ->
    fst (runState (devadm.ListDeviceAuths env server d skip limit f) w)
    = ([], Some (Wrapped (Wrapped (External m) "failed to fetch device list")
                         "failed to fetch devices"))
    /\ only_read opFindAll w
         (snd (runState (devadm.ListDeviceAuths env server d skip limit f) w)).
Proof.
  intros env server d skip limit f w m Hf.
  rewrite (ListDeviceAuths_fault _ _ _ _ _ _ _ _ Hf). cbn [fst snd].
  split; [reflexivity | repeat split; reflexivity].
Qed.

Lemma X21_listing_failure_witness :
  fst (runState (devadm.ListDeviceAuths (Scenario.db_down 7)
                   Scenario.refusing Scenario.app
                   0 10 (store.Filter.mk DevStatusPending ""))
                Scenario.world)
  = ([], Some (Wrapped (Wrapped (External "no reachable servers")
                                "failed to fetch device list")
                       "failed to fetch devices"))
  /\ only_read opFindAll Scenario.world
       (snd (runState (devadm.ListDeviceAuths (Scenario.db_down 7)
                         Scenario.refusing Scenario.app 0 10
                         (store.Filter.mk DevStatusPending ""))
                      Scenario.world)).
Proof.
  apply (X21_listing_failure (Scenario.db_down 7) Scenario.refusing
           Scenario.app 0 10
           (store.Filter.mk DevStatusPending "") Scenario.world
           "no reachable servers").
  reflexivity.
Defined.

Lemma firstn_plus {A} a b (l : list A) :
  firstn (a + b) l = (firstn a l ++ firstn b (skipn a l))%list.
Proof.
  revert l. induction a as [|a IH]; intros l; cbn [Nat.add firstn skipn app];
    [reflexivity|].
  destruct l as [|x l]; cbn [firstn skipn app].
  - destruct b; reflexivity.
  - rewrite IH. reflexivity.
Qed.

(** X22. Pages follow one another, as long as the numbers fit in 31 bits:
    on the same collection and with the same filter, for a skip that is
    not negative and two limits above zero with [skip + limit1] and
    [limit1 + limit2] below 2^31, the page of [limit1] records after
    [skip] followed by the page of [limit2] records after [skip + limit1]
    is the page of [limit1 + limit2] records after [skip]; nothing is lost
    and nothing comes twice between two pages. *)
Theorem X22_listing_pages_concatenate :
  forall env server d skip limit1 limit2 f w,
    mgo_fault env opFindAll = None ->
    (0 <= skip)%Z -> (0 < limit1)%Z -> (0 < limit2)%Z ->
    (skip + limit1 < 2147483648)%Z ->
    (limit1 + limit2 < 2147483648)%Z ->
    let page s l :=
      fst (fst (runState (devadm.ListDeviceAuths env server d s l f) w)) in
    page skip (limit1 + limit2)%Z
    = (page skip limit1 ++ page (skip + limit1)%Z limit2)%list.
Proof.
  intros env server d skip limit1 limit2 f w Hf Hs H1 H2 Hb1 Hb2.
  cbv beta zeta.
  rewrite (ListDeviceAuths_page env server d skip (limit1 + limit2) f w Hf)
    by lia.
  rewrite (ListDeviceAuths_page env server d skip limit1 f w Hf) by lia.
  rewrite (ListDeviceAuths_page env server d (skip + limit1) limit2 f w Hf)
    by lia.
  cbv beta zeta. cbn [fst].
  replace (limit1 + limit2 =? 0)%Z with false
    by (symmetry; apply Z.eqb_neq; lia).
  replace (limit1 =? 0)%Z with false by (symmetry; apply Z.eqb_neq; lia).
  replace (limit2 =? 0)%Z with false by (symmetry; apply Z.eqb_neq; lia).
  rewrite !Z2Nat.inj_add by lia.
  rewrite firstn_plus, skipn_skipn.
  rewrite (Nat.add_comm (Z.to_nat limit1) (Z.to_nat skip)). reflexivity.
Qed.

Lemma X22_listing_pages_concatenate_witness :
  fst (fst (runState (devadm.ListDeviceAuths (Scenario.healthy 7)
                        Scenario.refusing Scenario.app
                        0 2 (store.Filter.mk "" "")) Scenario.world))
  = (fst (fst (runState (devadm.ListDeviceAuths (Scenario.healthy 7)
                           Scenario.refusing Scenario.app 0 1
                           (store.Filter.mk "" ""))
                        Scenario.world))
     ++ fst (fst (runState (devadm.ListDeviceAuths (Scenario.healthy 7)
                              Scenario.refusing Scenario.app 1 1
                              (store.Filter.mk "" ""))
                           Scenario.world)))%list.
Proof.
  apply (X22_listing_pages_concatenate (Scenario.healthy 7) Scenario.refusing
           Scenario.app 0 1 1 (store.Filter.mk "" "") Scenario.world eq_refl);
    lia.
Defined.
